(** * Hospital dashboard analytics: KPI aggregator, trend engine,
      predictive thresholds and bottleneck detector.

    The services under [app/services] are thin Python functions around
    PostgreSQL statements.  The embedding keeps that shape: a database is a
    record of tables (lists of rows), every SQL statement is a function over
    those lists written clause by clause (FROM/JOIN, WHERE, GROUP BY, HAVING,
    ORDER BY), and the Python around it (truthiness tests, [or] defaults,
    [try]/[except], [round]) is transcribed next to it.

    Numbers: SQL [numeric] and Python [float] values are exact rationals
    ([Q]); integer counts are [Z].  Instants are microseconds since
    0001-01-01T00:00:00 and calendar dates are days since 0001-01-01 (the
    ordinal of Python's [date], minus one). *)

From Stdlib Require Import ZArith QArith Qround Qabs List String Ascii Bool Lia.
From Stdlib Require Import Lqa.
From Stdlib Require Import Sorting.Sorted Sorting.Permutation DecimalString.
Import ListNotations.
Open Scope Z_scope.

(** ** Results of fallible calls *)

(** [db.execute(...)] either returns rows or raises. *)
Inductive result (A : Type) : Type :=
| Ok (a : A)
| Raised.
Arguments Ok {A} a.
Arguments Raised {A}.

Definition bind {A B} (r : result A) (k : A -> result B) : result B :=
  match r with
  | Ok a => k a
  | Raised => Raised
  end.

Notation "'let*' x ':=' r 'in' k" := (bind r (fun x => k))
  (at level 10, x name, r at level 100, k at level 200).

(** [try: v = body  except Exception: v = handler]. *)
Definition try_except {A} (body : result A) (handler : A) : A :=
  match body with
  | Ok a => a
  | Raised => handler
  end.

(** ** Numbers *)

Module Numeric.

(** Python's [round(x, 0)]: nearest integer, ties to the even one. *)
Definition round_half_even (q : Q) : Z :=
  let f := Qfloor q in
  match Qcompare (q - inject_Z f) (1 # 2) with
  | Lt => f
  | Gt => f + 1
  | Eq => if Z.even f then f else f + 1
  end.

(** PostgreSQL's [ROUND(numeric)]: nearest integer, ties away from zero. *)
Definition round_half_away (q : Q) : Z :=
  if Qle_bool 0 q then Qfloor (q + (1 # 2)) else Qceiling (q - (1 # 2)).

(** [round(float(x), 2)] in Python: a nearest hundredth, kept as a
    reduced fraction.  On an exact decimal tie this takes the even
    hundredth, where the code rounds the binary float of [x], which lies
    just above or just below the tie; the properties below do not depend
    on the way a tie falls. *)
Definition py_round2 (q : Q) : Q := Qred (round_half_even (q * 100) # 100).

(** [ROUND(x::numeric, 2)] in SQL. *)
Definition pg_round2 (q : Q) : Q := Qred (round_half_away (q * 100) # 100).

Definition Qsum (l : list Q) : Q := fold_right Qplus 0%Q l.

Definition Zsum (l : list Z) : Z := fold_right Z.add 0 l.

Definition count {A} (l : list A) : Z := Z.of_nat (List.length l).

(** SQL [AVG]: NULL over no rows. *)
Definition avg (l : list Q) : option Q :=
  match l with
  | [] => None
  | _ => Some (Qsum l / inject_Z (count l))%Q
  end.

(** SQL aggregates skip NULL inputs. *)
Fixpoint non_null {A} (l : list (option A)) : list A :=
  match l with
  | [] => []
  | Some a :: r => a :: non_null r
  | None :: r => non_null r
  end.

(** [x or d] on a value that may be [None]. *)
Definition or_default {A} (x : option A) (d : A) : A :=
  match x with
  | Some a => a
  | None => d
  end.

(** [n or 1] on an integer: zero is falsy. *)
Definition or_one (n : Z) : Z := if n =? 0 then 1 else n.

End Numeric.
Import Numeric.

(** ** Time *)

Definition usecs_per_sec : Z := 1000000.
Definition usecs_per_hour : Z := 3600 * usecs_per_sec.
Definition usecs_per_day : Z := 86400 * usecs_per_sec.

(** A [date] compared with or added to a timestamp is its midnight. *)
Definition midnight (d : Z) : Z := d * usecs_per_day.

(** [date_trunc('day', ts)::date]. *)
Definition date_of (ts : Z) : Z := ts / usecs_per_day.

(** [EXTRACT(HOUR FROM ts)::int]. *)
Definition hour_of (ts : Z) : Z := (ts mod usecs_per_day) / usecs_per_hour.

(** [EXTRACT(EPOCH FROM (later - earlier)) / 86400]. *)
Definition interval_days (later earlier : Z) : Q :=
  (inject_Z (later - earlier) / inject_Z usecs_per_sec / 86400)%Q.

(** ** Tables *)

Module Admission.
Record row : Type := {
  admission_id : Z;
  branch_id : Z;
  department_id : Z;
  admission_type : string;
  admission_at : Z
}.
End Admission.

Module Discharge.
Record row : Type := {
  admission_id : Z;
  discharge_at : Z;
  outcome_code : option string   (* None is SQL NULL *)
}.
End Discharge.

Module Branch.
Record row : Type := {
  branch_id : Z;
  name : string;
  bed_count : Z;
  icu_beds : Z
}.
End Branch.

Module Department.
Record row : Type := {
  department_id : Z;
  name : string;
  branch_id : Z
}.
End Department.

Module Doctor.
Record row : Type := {
  doctor_id : Z;
  department_id : Z
}.
End Doctor.

Module DoctorSchedule.
Record row : Type := {
  doctor_id : Z;
  slot_date : Z;
  is_booked : bool
}.
End DoctorSchedule.

Module Procedure.
Record row : Type := {
  admission_id : Z
}.
End Procedure.

Module Readmission.
Record row : Type := {
  previous_admission_id : Z
}.
End Readmission.

Module Billing.
Record row : Type := {
  admission_id : Z;
  total_amount : Q
}.
End Billing.

Module ResourceAllocation.
Record row : Type := {
  branch_id : Z;
  record_date : Z;
  beds_occupied : Z;
  icu_occupied : Z
}.
End ResourceAllocation.

(** The statements the services send, one tag per [db.execute] call site. *)
Inductive Stmt : Type :=
| KpiCore | KpiProcedures | KpiReadmissions | KpiOccupancy
| KpiUtilization | KpiBilling
| TrendPeriods | TrendOccupancy
| MovingAverage
| AlertBed | AlertIcu | AlertDoctor
| BottleneckDelay | BottleneckPeak.

(** A session: the committed facts, and which statements cannot be run on
    it (relation missing, connection lost, ...). *)
Record Database : Type := {
  admissions : list Admission.row;
  discharges : list Discharge.row;
  hospital_branches : list Branch.row;
  departments : list Department.row;
  doctors : list Doctor.row;
  doctor_schedules : list DoctorSchedule.row;
  procedures : list Procedure.row;
  readmissions : list Readmission.row;
  billing : list Billing.row;
  resource_allocation : list ResourceAllocation.row;
  fails : Stmt -> bool
}.

(** [db.execute(text(q), params)] with the statement's rows computed by
    [rows]. *)
Definition execute {A} (db : Database) (s : Stmt) (rows : A) : result A :=
  if fails db s then Raised else Ok rows.

(** The statements of the remaining services, and a session that says
    which of them cannot be run on it. *)
Inductive Query : Type :=
| PeakHours | PeakHoursByDay | OccupancyForecast
| ResourceOccupancy | DepartmentComparison
| BranchComparison | BranchOccupancy.

Record Session : Type := {
  tables :> Database;
  rejects : Query -> bool
}.

Definition execute_query {A} (s : Session) (q : Query) (rows : A) : result A :=
  if rejects s q then Raised else Ok rows.

(** ** Rows with their further columns

    [get_resource_alerts], [get_department_comparison] and
    [get_branch_comparison] read columns that the rows above leave out: the
    city and the ventilators of a branch, the code of a department, the
    ventilators in use of a snapshot.  A full row is the row above with
    these columns; a full session holds the tables these three services
    read. *)

Module Full.

Record branch : Type := {
  branch_row : Branch.row;
  city : string;
  ventilator_count : Z
}.

Record department : Type := {
  department_row : Department.row;
  code : string
}.

Record snapshot : Type := {
  snapshot_row : ResourceAllocation.row;
  ventilators_used : Z
}.

Record session : Type := {
  admissions : list Admission.row;
  discharges : list Discharge.row;
  hospital_branches : list branch;
  departments : list department;
  procedures : list Procedure.row;
  readmissions : list Readmission.row;
  billing : list Billing.row;
  resource_allocation : list snapshot;
  rejects : Query -> bool
}.

Definition execute {A} (s : session) (q : Query) (rows : A) : result A :=
  if rejects s q then Raised else Ok rows.

End Full.

Coercion Full.branch_row : Full.branch >-> Branch.row.
Coercion Full.department_row : Full.department >-> Department.row.
Coercion Full.snapshot_row : Full.snapshot >-> ResourceAllocation.row.

(** ** Bounded exhaustive checks *)

(** [all_below n f]: [f] holds at 0, 1, ..., n - 1. *)
Fixpoint all_from (f : Z -> bool) (start : Z) (n : nat) : bool :=
  match n with
  | O => true
  | S k => f start && all_from f (start + 1) k
  end.

Definition all_below (n : Z) (f : Z -> bool) : bool :=
  all_from f 0 (Z.to_nat n).

(** ** Integrity constraints

    The table declarations ([database/schema.sql]) are not available.  The
    constraints below are the ones the data model states; a theorem that
    depends on one names it as a hypothesis. *)

Module Schema.

Fixpoint unique (l : list Z) : bool :=
  match l with
  | [] => true
  | x :: r => negb (existsb (Z.eqb x) r) && unique r
  end.

(** Modelled from the spec: the declaration of [discharges.outcome_code]
    is missing; a closed episode carries an outcome code (NOT NULL). *)
Definition outcome_code_not_null (db : Database) : bool :=
  forallb (fun d => match Discharge.outcome_code d with
                    | Some _ => true
                    | None => false
                    end)
    (discharges db).

(** Modelled from the spec: the declaration of [readmissions] is missing;
    a readmission links a prior episode that was discharged to a later one. *)
Definition readmission_follows_discharge (db : Database) : bool :=
  forallb (fun r =>
             existsb (fun d => Discharge.admission_id d
                               =? Readmission.previous_admission_id r)
               (discharges db))
    (readmissions db).

(** Modelled from the spec: the declaration of [hospital_branches] is
    missing; [branch_id] identifies a branch (primary key). *)
Definition branch_pk (db : Database) : bool :=
  unique (map Branch.branch_id (hospital_branches db)).

(** Modelled from the spec: the declaration of [departments] is missing;
    [department_id] identifies a department (primary key). *)
Definition department_pk (db : Database) : bool :=
  unique (map Department.department_id (departments db)).

(** Modelled from the spec: the declaration of [admissions] is missing;
    an episode belongs to an existing branch and department (foreign
    keys). *)
Definition admission_fk (db : Database) : bool :=
  forallb (fun a =>
             existsb (fun b => Branch.branch_id b =? Admission.branch_id a)
               (hospital_branches db)
             && existsb (fun dp => Department.department_id dp
                                   =? Admission.department_id a)
                  (departments db))
    (admissions db).

End Schema.

(** ** Plausible facts

    Conditions on the rows that no statement checks.  The seed script
    ([database/seed_data.py]) clamps every occupancy count between zero and
    the capacity of the branch ([min(beds, max(0, ...))]), and discharges
    an episode a positive number of days after its admission. *)

Module Facts.

(** Every snapshot reports between zero and [bed_count] occupied beds of
    its branch. *)
Definition beds_within_capacity (db : Database) : bool :=
  forallb (fun ra =>
             forallb (fun b =>
                        negb (Branch.branch_id b
                              =? ResourceAllocation.branch_id ra)
                        || ((0 <=? ResourceAllocation.beds_occupied ra)
                            && (ResourceAllocation.beds_occupied ra
                                <=? Branch.bed_count b)))
               (hospital_branches db))
    (resource_allocation db).

(** No episode is discharged before it was admitted. *)
Definition discharged_after_admission (db : Database) : bool :=
  forallb (fun a =>
             forallb (fun d =>
                        negb (Discharge.admission_id d
                              =? Admission.admission_id a)
                        || (Admission.admission_at a
                            <=? Discharge.discharge_at d))
               (discharges db))
    (admissions db).

(** The session after one more row was inserted into [admissions]. *)
Definition with_admission (a : Admission.row) (db : Database) : Database :=
  {| admissions := a :: admissions db;
     discharges := discharges db;
     hospital_branches := hospital_branches db;
     departments := departments db;
     doctors := doctors db;
     doctor_schedules := doctor_schedules db;
     procedures := procedures db;
     readmissions := readmissions db;
     billing := billing db;
     resource_allocation := resource_allocation db;
     fails := fails db |}.

End Facts.

(** ** SQL clauses *)

Module Sql.

(** [l JOIN r ON on]. *)
Definition join {A B} (on : A -> B -> bool) (l : list A) (r : list B)
  : list (A * B) :=
  flat_map (fun a => map (pair a) (filter (on a) r)) l.

(** A row count with [FILTER (WHERE f)]. *)
Definition count_where {A} (f : A -> bool) (l : list A) : Z :=
  count (filter f l).

(** [COUNT(DISTINCT e)] over integer values. *)
Definition count_distinct (l : list Z) : Z := count (nodup Z.eq_dec l).

(** Three-valued comparisons on a nullable text column. *)
Definition eq_text (c : option string) (s : string) : option bool :=
  option_map (fun x => String.eqb x s) c.
Definition in_text (c : option string) (l : list string) : option bool :=
  option_map (fun x => existsb (String.eqb x) l) c.
Definition not3 (b : option bool) : option bool := option_map negb b.

(** A WHERE or FILTER keeps a row only when the condition is true. *)
Definition holds (b : option bool) : bool :=
  match b with
  | Some true => true
  | _ => false
  end.

(** [x = ANY(:ids)]. *)
Definition any (x : Z) (ids : list Z) : bool := existsb (Z.eqb x) ids.

(** [a * 100.0 / NULLIF(b, 0)]. *)
Definition pct_of (a b : Z) : option Q :=
  if b =? 0 then None else Some (inject_Z a * 100 / inject_Z b)%Q.

(** GROUP BY: one group per distinct key, holding the rows with that key. *)
Section GroupBy.
Context {A K : Type} (key : A -> K) (eqb : K -> K -> bool).

Fixpoint distinct (ks : list K) : list K :=
  match ks with
  | [] => []
  | k :: r => k :: filter (fun k' => negb (eqb k k')) (distinct r)
  end.

Definition group_by (l : list A) : list (K * list A) :=
  map (fun k => (k, filter (fun a => eqb k (key a)) l))
      (distinct (map key l)).
End GroupBy.

(** ORDER BY: a stable insertion sort; [before x y] says that [x] must
    come strictly before [y]. *)
Section OrderBy.
Context {A : Type} (before : A -> A -> bool).

Fixpoint insert (x : A) (l : list A) : list A :=
  match l with
  | [] => [x]
  | y :: r => if before y x then y :: insert x r else x :: l
  end.

Fixpoint order_by (l : list A) : list A :=
  match l with
  | [] => []
  | x :: r => insert x (order_by r)
  end.
End OrderBy.

(** [ORDER BY key] and [ORDER BY key DESC] on an integer column. *)
Definition asc {A} (key : A -> Z) (x y : A) : bool := key x <? key y.
Definition desc {A} (key : A -> Z) (x y : A) : bool := key y <? key x.

(** [l LEFT JOIN r ON on]: a row of [l] without a match is kept once,
    with NULLs for the columns of [r]. *)
Definition left_join {A B} (on : A -> B -> bool) (l : list A) (r : list B)
  : list (A * option B) :=
  flat_map (fun a =>
              match filter (on a) r with
              | [] => [(a, None)]
              | m => map (fun b => (a, Some b)) m
              end)
    l.

(** Strict comparison of numerics. *)
Definition Qlt_bool (x y : Q) : bool := negb (Qle_bool y x).

End Sql.

(** ** Python truthiness of the filter arguments *)

(** [if branch_ids] is false for [None] and for the empty list. *)
Definition truthy {A} (ids : option (list A)) : bool :=
  match ids with
  | Some (_ :: _) => true
  | _ => false
  end.

(** [" AND col = ANY(:ids)" if ids else ""]. *)
Definition any_clause (ids : option (list Z)) (x : Z) : bool :=
  match ids with
  | Some (i :: l) => Sql.any x (i :: l)
  | _ => true
  end.

(** ** app/services/kpis.py *)

Module Kpis.

(** [date_clause]: present only when both bounds are given. *)
Definition date_clause (date_from date_to : option Z) (a : Admission.row)
  : bool :=
  match date_from, date_to with
  | Some f, Some t =>
      (midnight f <=? Admission.admission_at a)
      && (Admission.admission_at a <? midnight t + usecs_per_day)
  | _, _ => true
  end.

(** [WHERE 1=1 {date_clause} {branch_clause} {dept_clause}] on [admissions a]. *)
Definition where_clause (branch_ids department_ids : option (list Z))
    (date_from date_to : option Z) (a : Admission.row) : bool :=
  date_clause date_from date_to a
  && any_clause branch_ids (Admission.branch_id a)
  && any_clause department_ids (Admission.department_id a).

(** The [adm] common table expression: admissions joined to their
    discharges, restricted to the cohort. *)
Definition adm (db : Database) (branch_ids department_ids : option (list Z))
    (date_from date_to : option Z) : list (Admission.row * Discharge.row) :=
  filter (fun ad => where_clause branch_ids department_ids date_from date_to
                      (fst ad))
    (Sql.join (fun a d => Discharge.admission_id d =? Admission.admission_id a)
       (admissions db) (discharges db)).

Definition los_days (ad : Admission.row * Discharge.row) : Q :=
  interval_days (Discharge.discharge_at (snd ad))
                (Admission.admission_at (fst ad)).

Definition known_outcomes : list string :=
  ["Recovered"; "Improved"; "Transferred"; "Deceased"]%string.

Definition outcome_is (code : string) (ad : Admission.row * Discharge.row)
  : bool :=
  Sql.holds (Sql.eq_text (Discharge.outcome_code (snd ad)) code).

Definition outcome_is_other (ad : Admission.row * Discharge.row) : bool :=
  Sql.holds (Sql.not3 (Sql.in_text (Discharge.outcome_code (snd ad))
                         known_outcomes)).

Definition type_is (ty : string) (ad : Admission.row * Discharge.row) : bool :=
  String.eqb (Admission.admission_type (fst ad)) ty.

Module CoreRow.
Record t : Type := {
  total_admissions : Z;
  total_discharges : Z;
  avg_los_days : Q;
  outcome_recovered : Z;
  outcome_improved : Z;
  outcome_transferred : Z;
  outcome_deceased : Z;
  outcome_other : Z;
  emergency_cases : Z;
  scheduled_cases : Z
}.
End CoreRow.

(** The single row of the core aggregate over [adm]. *)
Definition core_query (db : Database) (branch_ids department_ids : option (list Z))
    (date_from date_to : option Z) : CoreRow.t :=
  let rows := adm db branch_ids department_ids date_from date_to in
  {| CoreRow.total_admissions := count rows;
     CoreRow.total_discharges := count rows;
     CoreRow.avg_los_days := or_default (avg (map los_days rows)) 0%Q;
     CoreRow.outcome_recovered := Sql.count_where (outcome_is "Recovered") rows;
     CoreRow.outcome_improved := Sql.count_where (outcome_is "Improved") rows;
     CoreRow.outcome_transferred :=
       Sql.count_where (outcome_is "Transferred") rows;
     CoreRow.outcome_deceased := Sql.count_where (outcome_is "Deceased") rows;
     CoreRow.outcome_other := Sql.count_where outcome_is_other rows;
     CoreRow.emergency_cases := Sql.count_where (type_is "Emergency") rows;
     CoreRow.scheduled_cases :=
       Sql.count_where (fun ad => type_is "Scheduled" ad || type_is "Transfer" ad)
         rows |}.

(** [proc_q]: procedures of cohort admissions. *)
Definition proc_query (db : Database) (branch_ids department_ids : option (list Z))
    (date_from date_to : option Z) : Z :=
  count
    (filter (fun pa => where_clause branch_ids department_ids date_from date_to
                         (snd pa))
       (Sql.join (fun p a => Admission.admission_id a =? Procedure.admission_id p)
          (procedures db) (admissions db))).

(** [readm_q]: distinct prior admissions of the cohort that were readmitted. *)
Definition readm_query (db : Database) (branch_ids department_ids : option (list Z))
    (date_from date_to : option Z) : Z :=
  Sql.count_distinct
    (map (fun ra => Readmission.previous_admission_id (fst ra))
       (filter (fun ra => where_clause branch_ids department_ids date_from
                            date_to (snd ra))
          (Sql.join (fun r a => Admission.admission_id a
                                =? Readmission.previous_admission_id r)
             (readmissions db) (admissions db)))).

(** The inclusive date range on a [date] column, present only when both
    bounds are given. *)
Definition between_clause (date_from date_to : option Z) (d : Z) : bool :=
  match date_from, date_to with
  | Some f, Some t => (f <=? d) && (d <=? t)
  | _, _ => true
  end.

(** [occ_q]: mean occupancy percentage over the matching snapshots. *)
Definition occ_query (db : Database) (branch_ids : option (list Z))
    (date_from date_to : option Z) : option Q :=
  avg (non_null
    (map (fun rb => Sql.pct_of (ResourceAllocation.beds_occupied (fst rb))
                               (Branch.bed_count (snd rb)))
       (filter (fun rb =>
                  any_clause branch_ids (ResourceAllocation.branch_id (fst rb))
                  && between_clause date_from date_to
                       (ResourceAllocation.record_date (fst rb)))
          (Sql.join (fun ra b => Branch.branch_id b
                                 =? ResourceAllocation.branch_id ra)
             (resource_allocation db) (hospital_branches db))))).

(** [util_q]: the schedule rows it ranges over.  The joins to [doctors] and
    [departments] are added only under a branch filter. *)
Definition util_rows (db : Database) (branch_ids : option (list Z))
    (date_from date_to : option Z) : list DoctorSchedule.row :=
  let scoped :=
    if truthy branch_ids then
      map (fun x => fst (fst x))
        (filter (fun x => any_clause branch_ids (Department.branch_id (snd x)))
           (Sql.join (fun sd dp => Department.department_id dp
                                   =? Doctor.department_id (snd sd))
              (Sql.join (fun ds d => Doctor.doctor_id d
                                     =? DoctorSchedule.doctor_id ds)
                 (doctor_schedules db) (doctors db))
              (departments db)))
    else doctor_schedules db in
  filter (fun ds => between_clause date_from date_to
                      (DoctorSchedule.slot_date ds)) scoped.

Definition util_query (db : Database) (branch_ids : option (list Z))
    (date_from date_to : option Z) : option Q :=
  let rows := util_rows db branch_ids date_from date_to in
  Sql.pct_of (Sql.count_where DoctorSchedule.is_booked rows) (count rows).

(** [cost_q]: billed total per distinct billed admission of the cohort. *)
Definition cost_query (db : Database) (branch_ids department_ids : option (list Z))
    (date_from date_to : option Z) : Q :=
  let rows :=
    filter (fun ba => where_clause branch_ids department_ids date_from date_to
                        (snd ba))
      (Sql.join (fun b a => Admission.admission_id a =? Billing.admission_id b)
         (billing db) (admissions db)) in
  let billed := Sql.count_distinct
                  (map (fun ba => Billing.admission_id (fst ba)) rows) in
  if billed =? 0 then 0%Q
  else (Qsum (map (fun ba => Billing.total_amount (fst ba)) rows)
        / inject_Z billed)%Q.

Record KpiSummary : Type := {
  avg_length_of_stay_days : Q;
  bed_occupancy_rate_pct : Q;
  total_admissions : Z;
  total_discharges : Z;
  readmission_rate_30d_pct : Q;
  procedure_volume : Z;
  emergency_cases_count : Z;
  scheduled_cases_count : Z;
  doctor_utilization_pct : Q;
  cost_per_discharge_inr : Q;
  outcome_recovered : Z;
  outcome_improved : Z;
  outcome_transferred : Z;
  outcome_deceased : Z;
  outcome_other : Z
}.

Definition _empty_kpi : KpiSummary :=
  {| avg_length_of_stay_days := 0;
     bed_occupancy_rate_pct := 0;
     total_admissions := 0;
     total_discharges := 0;
     readmission_rate_30d_pct := 0;
     procedure_volume := 0;
     emergency_cases_count := 0;
     scheduled_cases_count := 0;
     doctor_utilization_pct := 0;
     cost_per_discharge_inr := 0;
     outcome_recovered := 0;
     outcome_improved := 0;
     outcome_transferred := 0;
     outcome_deceased := 0;
     outcome_other := 0 |}.

Definition get_kpi_summary (db : Database)
    (branch_ids department_ids : option (list Z))
    (date_from date_to : option Z) : result KpiSummary :=
  let* r := execute db KpiCore
              (core_query db branch_ids department_ids date_from date_to) in
  if CoreRow.total_admissions r =? 0 then Ok _empty_kpi
  else
    let proc_count :=
      try_except
        (execute db KpiProcedures
           (proc_query db branch_ids department_ids date_from date_to)) 0 in
    let readm_count :=
      try_except
        (execute db KpiReadmissions
           (readm_query db branch_ids department_ids date_from date_to)) 0 in
    let total_disch := or_one (CoreRow.total_discharges r) in
    let readm_rate :=
      (inject_Z readm_count / inject_Z total_disch * 100)%Q in
    let bed_occ :=
      try_except
        (let* v := execute db KpiOccupancy
                     (occ_query db branch_ids date_from date_to) in
         Ok (or_default v 0%Q)) 0%Q in
    let doc_util :=
      try_except
        (let* v := execute db KpiUtilization
                     (util_query db branch_ids date_from date_to) in
         Ok (or_default v 0%Q)) 0%Q in
    let cost_per :=
      try_except
        (execute db KpiBilling
           (cost_query db branch_ids department_ids date_from date_to)) 0%Q in
    Ok {| avg_length_of_stay_days := py_round2 (CoreRow.avg_los_days r);
          bed_occupancy_rate_pct := py_round2 bed_occ;
          total_admissions := CoreRow.total_admissions r;
          total_discharges := CoreRow.total_discharges r;
          readmission_rate_30d_pct := py_round2 readm_rate;
          procedure_volume := proc_count;
          emergency_cases_count := CoreRow.emergency_cases r;
          scheduled_cases_count := CoreRow.scheduled_cases r;
          doctor_utilization_pct := py_round2 doc_util;
          cost_per_discharge_inr := py_round2 cost_per;
          outcome_recovered := CoreRow.outcome_recovered r;
          outcome_improved := CoreRow.outcome_improved r;
          outcome_transferred := CoreRow.outcome_transferred r;
          outcome_deceased := CoreRow.outcome_deceased r;
          outcome_other := CoreRow.outcome_other r |}.

End Kpis.

(** ** Calendar

    PostgreSQL's [date_trunc] and [to_char] and Python's [str(date)] work on
    the proleptic Gregorian calendar.  Day 0 is 0001-01-01, a Monday. *)

Module Calendar.

Record civil : Type := { year : Z; month : Z; day : Z }.

Definition days_per_era : Z := 146097.

(** Days from 0000-03-01 (the start of a 400-year era whose leap day comes
    last) to 0001-01-01. *)
Definition era_shift : Z := 306.

(** Day of era to (year of era, month, day); the year counts from January. *)
Definition civil_of_doe (doe : Z) : civil :=
  let yoe := (doe - doe / 1460 + doe / 36524 - doe / 146096) / 365 in
  let doy := doe - (365 * yoe + yoe / 4 - yoe / 100) in
  let mp := (5 * doy + 2) / 153 in
  let d := doy - (153 * mp + 2) / 5 + 1 in
  let m := if mp <? 10 then mp + 3 else mp - 9 in
  {| year := if m <=? 2 then yoe + 1 else yoe; month := m; day := d |}.

Definition civil_from_days (z : Z) : civil :=
  let era := (z + era_shift) / days_per_era in
  let c := civil_of_doe ((z + era_shift) mod days_per_era) in
  {| year := year c + 400 * era; month := month c; day := day c |}.

(** (March-based year of era, month, day) to day of era. *)
Definition doe_of_civil (yoe m d : Z) : Z :=
  let mp := if 2 <? m then m - 3 else m + 9 in
  let doy := (153 * mp + 2) / 5 + d - 1 in
  365 * yoe + yoe / 4 - yoe / 100 + doy.

Definition days_from_civil (y m d : Z) : Z :=
  let y' := if m <=? 2 then y - 1 else y in
  (y' / 400) * days_per_era + doe_of_civil (y' mod 400) m d - era_shift.

(** Python's [date.min] and [date.max] (0001-01-01 and 9999-12-31). *)
Definition date_min : Z := 0.
Definition date_max : Z := 3652058.

Definition quarter_of (m : Z) : Z := (m - 1) / 3 + 1.

(** [date_trunc(field, ts)] for the fields the services use; the result
    is a timestamp at midnight. *)
Inductive field : Type := Day | Week | Month | Quarter.

Definition date_trunc (f : field) (ts : Z) : Z :=
  let z := date_of ts in
  let c := civil_from_days z in
  midnight
    match f with
    | Day => z
    | Week => z - z mod 7
    | Month => days_from_civil (year c) (month c) 1
    | Quarter =>
        days_from_civil (year c) (3 * (quarter_of (month c) - 1) + 1) 1
    end.

(** Decimal digits of a non-negative integer. *)
Definition digit (d : Z) : ascii := ascii_of_nat (48 + Z.to_nat d).

Fixpoint digits (fuel : nat) (n : Z) (acc : string) : string :=
  match fuel with
  | O => acc
  | S fuel' =>
      let acc' := String (digit (n mod 10)) acc in
      if n <? 10 then acc' else digits fuel' (n / 10) acc'
  end.

Definition decimal (n : Z) : string :=
  digits (S (Z.to_nat (Z.log2 n))) n EmptyString.

Fixpoint zeros (n : nat) : string :=
  match n with
  | O => EmptyString
  | S n' => String "0" (zeros n')
  end.

(** ["%0*d"]: zero-padded to at least [width] characters. *)
Definition zero_pad (width : nat) (n : Z) : string :=
  let s := decimal n in
  (zeros (width - String.length s) ++ s)%string.

(** The year as [to_char] shows it: years before 1 are shown as their
    BC number, without sign. *)
Definition display_year (y : Z) : Z := if y <=? 0 then 1 - y else y.

(** [to_char(ts, fmt)]: template patterns [YYYY], [MM], [DD] and [Q]
    (quarter) are replaced; any other character is copied. *)
Section ToChar.
Variable c : civil.

Fixpoint render (fmt : string) : string :=
  match fmt with
  | String "Y" (String "Y" (String "Y" (String "Y" rest))) =>
      zero_pad 4 (display_year (year c)) ++ render rest
  | String "M" (String "M" rest) => zero_pad 2 (month c) ++ render rest
  | String "D" (String "D" rest) => zero_pad 2 (day c) ++ render rest
  | String "Q" rest => decimal (quarter_of (month c)) ++ render rest
  | String ch rest => String ch (render rest)
  | EmptyString => EmptyString
  end%string.
End ToChar.

Definition to_char (ts : Z) (fmt : string) : string :=
  render (civil_from_days (date_of ts)) fmt.

(** Python's [str(d)] on a [date]: ISO format. *)
Definition isoformat (d : Z) : string :=
  let c := civil_from_days d in
  (zero_pad 4 (year c) ++ "-" ++ zero_pad 2 (month c) ++ "-"
   ++ zero_pad 2 (day c))%string.

End Calendar.

(** ** app/services/trends.py *)

Module Trends.
Import Calendar.

(** The branch of the [if granularity == ...] chain; anything that is not
    daily, weekly or monthly is treated as quarterly. *)
Definition period_expr (granularity : string) (admission_at : Z) : Z :=
  if (granularity =? "daily")%string then
    date_of (date_trunc Day admission_at)
  else if (granularity =? "weekly")%string then
    date_of (date_trunc Week admission_at)
  else if (granularity =? "monthly")%string then
    date_of (date_trunc Month admission_at)
  else
    date_of (date_trunc Quarter admission_at).

Definition period_label (granularity : string) (admission_at : Z) : string :=
  if (granularity =? "daily")%string then
    to_char admission_at "YYYY-MM-DD"
  else if (granularity =? "weekly")%string then
    to_char (date_trunc Week admission_at) "YYYY-MM-DD"
  else if (granularity =? "monthly")%string then
    to_char (date_trunc Month admission_at) "YYYY-MM"
  else
    to_char (date_trunc Quarter admission_at) "YYYY-Q".

(** [occ_label], on the [date] column [ra.record_date]. *)
Definition occ_label (granularity : string) (record_date : Z) : string :=
  if (granularity =? "daily")%string then
    to_char (midnight record_date) "YYYY-MM-DD"
  else if (granularity =? "weekly")%string then
    to_char (date_trunc Week (midnight record_date)) "YYYY-MM-DD"
  else if (granularity =? "monthly")%string then
    to_char (date_trunc Month (midnight record_date)) "YYYY-MM"
  else
    to_char (date_trunc Quarter (midnight record_date)) "YYYY-Q".

(** The [adm] common table expression of [get_trends]. *)
Definition adm (db : Database) (branch_ids department_ids : option (list Z))
    (date_from date_to : Z) : list (Admission.row * Discharge.row) :=
  filter (fun ad =>
            (midnight date_from <=? Admission.admission_at (fst ad))
            && (Admission.admission_at (fst ad)
                <? midnight date_to + usecs_per_day)
            && any_clause branch_ids (Admission.branch_id (fst ad))
            && any_clause department_ids (Admission.department_id (fst ad)))
    (Sql.join (fun a d => Discharge.admission_id d =? Admission.admission_id a)
       (admissions db) (discharges db)).

Module PeriodRow.
Record t : Type := {
  period_label : string;
  period_dt : Z;
  admissions : Z;
  avg_los : option Q
}.
End PeriodRow.

Definition period_key (granularity : string)
    (ad : Admission.row * Discharge.row) : Z * string :=
  (period_expr granularity (Admission.admission_at (fst ad)),
   period_label granularity (Admission.admission_at (fst ad))).

Definition period_key_eqb (k1 k2 : Z * string) : bool :=
  (fst k1 =? fst k2) && (snd k1 =? snd k2)%string.

(** [by_period], then [ORDER BY period_dt]. *)
Definition periods_query (db : Database) (granularity : string)
    (branch_ids department_ids : option (list Z)) (date_from date_to : Z)
  : list PeriodRow.t :=
  Sql.order_by (Sql.asc PeriodRow.period_dt)
    (map (fun g =>
            {| PeriodRow.period_label := snd (fst g);
               PeriodRow.period_dt := fst (fst g);
               PeriodRow.admissions := count (snd g);
               PeriodRow.avg_los := avg (map Kpis.los_days (snd g)) |})
       (Sql.group_by (period_key granularity) period_key_eqb
          (adm db branch_ids department_ids date_from date_to))).

(** [occ_q]: mean occupancy per period label.  Its own ORDER BY is not
    kept: the rows are loaded into a dictionary. *)
Definition occupancy_query (db : Database) (granularity : string)
    (branch_ids : option (list Z)) (date_from date_to : Z)
  : list (string * option Q) :=
  map (fun g =>
         (fst g,
          avg (non_null
                 (map (fun rb =>
                         Sql.pct_of (ResourceAllocation.beds_occupied (fst rb))
                                    (Branch.bed_count (snd rb)))
                    (snd g)))))
    (Sql.group_by
       (fun rb => occ_label granularity
                    (ResourceAllocation.record_date (fst rb)))
       String.eqb
       (filter (fun rb =>
                  (date_from <=? ResourceAllocation.record_date (fst rb))
                  && (ResourceAllocation.record_date (fst rb) <=? date_to)
                  && any_clause branch_ids
                       (ResourceAllocation.branch_id (fst rb)))
          (Sql.join (fun ra b => Branch.branch_id b
                                 =? ResourceAllocation.branch_id ra)
             (resource_allocation db) (hospital_branches db)))).

(** [occ_rows.get(label, 0)] on the dictionary built from the rows. *)
Fixpoint dict_get (d : list (string * Q)) (k : string) (default : Q) : Q :=
  match d with
  | [] => default
  | (k', v) :: r => if (k' =? k)%string then v else dict_get r k default
  end.

(** [EXTRACT(DOW FROM ts)::int]: 0 is Sunday, 6 is Saturday. *)
Definition dow_of (ts : Z) : Z := (date_of ts + 1) mod 7.

(** The WHERE clause of both statements of [get_peak_hours]. *)
Definition peak_rows (db : Database) (branch_ids : option (list Z))
    (date_from date_to : Z) : list Admission.row :=
  filter (fun a =>
            (midnight date_from <=? Admission.admission_at a)
            && (Admission.admission_at a <? midnight date_to + usecs_per_day)
            && any_clause branch_ids (Admission.branch_id a))
    (admissions db).

(** [GROUP BY 1 ORDER BY admissions_count DESC] on the hour. *)
Definition by_hour_query (db : Database) (branch_ids : option (list Z))
    (date_from date_to : Z) : list (Z * Z) :=
  Sql.order_by (Sql.desc snd)
    (map (fun g => (fst g, count (snd g)))
       (Sql.group_by (fun a => hour_of (Admission.admission_at a)) Z.eqb
          (peak_rows db branch_ids date_from date_to))).

Definition slot_key (a : Admission.row) : Z * Z :=
  (dow_of (Admission.admission_at a), hour_of (Admission.admission_at a)).

Definition slot_key_eqb (k1 k2 : Z * Z) : bool :=
  (fst k1 =? fst k2) && (snd k1 =? snd k2).

(** [GROUP BY 1, 2 ORDER BY admissions_count DESC] on day of week and
    hour. *)
Definition by_day_query (db : Database) (branch_ids : option (list Z))
    (date_from date_to : Z) : list (Z * Z * Z) :=
  Sql.order_by (Sql.desc snd)
    (map (fun g => (fst g, count (snd g)))
       (Sql.group_by slot_key slot_key_eqb
          (peak_rows db branch_ids date_from date_to))).

Record PeakHour : Type := {
  hour : Z;
  day_of_week : option Z;
  admissions_count : Z
}.

Definition get_peak_hours (s : Session) (today : Z)
    (branch_ids : option (list Z)) (date_from date_to : option Z)
    (by_day_of_week : bool) : result (list PeakHour) :=
  let date_from := or_default date_from (today - 30) in
  let date_to := or_default date_to today in
  if by_day_of_week then
    let* rows := execute_query s PeakHoursByDay
                   (by_day_query s branch_ids date_from date_to) in
    Ok (map (fun r =>
               {| hour := snd (fst r);
                  day_of_week := Some (fst (fst r));
                  admissions_count := snd r |})
          rows)
  else
    let* rows := execute_query s PeakHours
                   (by_hour_query s branch_ids date_from date_to) in
    Ok (map (fun r =>
               {| hour := fst r;
                  day_of_week := None;
                  admissions_count := snd r |})
          rows).

(** The date range and branch clause of the comparisons, on an admission. *)
Definition in_window (branch_ids : option (list Z)) (date_from date_to : Z)
    (a : Admission.row) : bool :=
  (midnight date_from <=? Admission.admission_at a)
  && (Admission.admission_at a <? midnight date_to + usecs_per_day)
  && any_clause branch_ids (Admission.branch_id a).

(** A row of [... LEFT JOIN admissions a ... LEFT JOIN discharges dis]:
    the admission and the discharge may be NULL. *)
Definition episode_of {A} (x : A * option Admission.row * option Discharge.row)
  : option Admission.row := snd (fst x).

(** [LEFT JOIN discharges dis ON dis.admission_id = a.admission_id]; on a
    NULL admission nothing matches. *)
Definition with_discharge {A} (discharges : list Discharge.row)
    (l : list (A * option Admission.row))
  : list (A * option Admission.row * option Discharge.row) :=
  Sql.left_join
    (fun x dis =>
       match snd x with
       | Some a => Discharge.admission_id dis =? Admission.admission_id a
       | None => false
       end)
    l discharges.

(** [COUNT(a.admission_id)]: the rows with an admission. *)
Definition count_admissions {A}
    (g : list (A * option Admission.row * option Discharge.row)) : Z :=
  Sql.count_where (fun x => match episode_of x with
                            | Some _ => true
                            | None => false
                            end) g.

(** [EXTRACT(EPOCH FROM (dis.discharge_at - a.admission_at))/86400], NULL
    when either side is. *)
Definition los_of {A} (x : A * option Admission.row * option Discharge.row)
  : option Q :=
  match episode_of x, snd x with
  | Some a, Some dis =>
      Some (interval_days (Discharge.discharge_at dis)
              (Admission.admission_at a))
  | _, _ => None
  end.

Module DepartmentRow.
Record t : Type := {
  code : string;
  department_name : string;
  branch_name : string;
  admissions : Z;
  avg_los : option Q;
  procedure_volume : Z;
  emergency_count : Z
}.
End DepartmentRow.

(** [GROUP BY d.department_id, d.code, d.name, b.name]. *)
Definition department_key
    (x : Full.department * Full.branch * option Admission.row
         * option Discharge.row) : Z * string * string * string :=
  let d := fst (fst (fst x)) in
  let b := snd (fst (fst x)) in
  (Department.department_id d, Full.code d, Department.name d, Branch.name b).

Definition department_key_eqb (k1 k2 : Z * string * string * string) : bool :=
  (fst (fst (fst k1)) =? fst (fst (fst k2)))
  && (snd (fst (fst k1)) =? snd (fst (fst k2)))%string
  && (snd (fst k1) =? snd (fst k2))%string
  && (snd k1 =? snd k2)%string.

(** The correlated subquery [procedure_volume] of a department. *)
Definition department_procedures (s : Full.session)
    (branch_ids : option (list Z)) (date_from date_to : Z)
    (department_id : Z) : Z :=
  count
    (filter (fun pa =>
               (Admission.department_id (snd pa) =? department_id)
               && in_window branch_ids date_from date_to (snd pa))
       (Sql.join (fun p a2 => Admission.admission_id a2
                              =? Procedure.admission_id p)
          (Full.procedures s) (Full.admissions s))).

(** The statement of [get_department_comparison], with its
    [ORDER BY admissions DESC]. *)
Definition department_query (s : Full.session)
    (branch_ids : option (list Z)) (date_from date_to : Z)
  : list DepartmentRow.t :=
  Sql.order_by (Sql.desc DepartmentRow.admissions)
    (map (fun g =>
            {| DepartmentRow.code := snd (fst (fst (fst g)));
               DepartmentRow.department_name := snd (fst (fst g));
               DepartmentRow.branch_name := snd (fst g);
               DepartmentRow.admissions := count_admissions (snd g);
               DepartmentRow.avg_los := avg (non_null (map los_of (snd g)));
               DepartmentRow.procedure_volume :=
                 department_procedures s branch_ids date_from date_to
                   (fst (fst (fst (fst g))));
               DepartmentRow.emergency_count :=
                 Sql.count_where
                   (fun x => match episode_of x with
                             | Some a => (Admission.admission_type a
                                          =? "Emergency")%string
                             | None => false
                             end)
                   (snd g) |})
       (Sql.group_by department_key department_key_eqb
          (with_discharge (Full.discharges s)
             (Sql.left_join
                (fun (db : Full.department * Full.branch) a =>
                   (Admission.department_id a
                    =? Department.department_id (fst db))
                   && in_window branch_ids date_from date_to a)
                (Sql.join (fun (d : Full.department) (b : Full.branch) =>
                             Branch.branch_id b =? Department.branch_id d)
                   (Full.departments s) (Full.hospital_branches s))
                (Full.admissions s))))).

Module DepartmentComparison.
Record t : Type := {
  department_code : string;
  department_name : string;
  branch_name : string;
  admissions : Z;
  discharges : Z;
  avg_los_days : Q;
  procedure_volume : Z;
  emergency_count : Z
}.
End DepartmentComparison.

Definition get_department_comparison (s : Full.session) (today : Z)
    (branch_ids : option (list Z)) (date_from date_to : option Z)
  : result (list DepartmentComparison.t) :=
  let date_from := or_default date_from (today - 365) in
  let date_to := or_default date_to today in
  let* rows := Full.execute s DepartmentComparison
                 (department_query s branch_ids date_from date_to) in
  Ok (map (fun r =>
             {| DepartmentComparison.department_code := DepartmentRow.code r;
                DepartmentComparison.department_name :=
                  DepartmentRow.department_name r;
                DepartmentComparison.branch_name := DepartmentRow.branch_name r;
                DepartmentComparison.admissions := DepartmentRow.admissions r;
                DepartmentComparison.discharges := DepartmentRow.admissions r;
                DepartmentComparison.avg_los_days :=
                  py_round2 (or_default (DepartmentRow.avg_los r) 0%Q);
                DepartmentComparison.procedure_volume :=
                  DepartmentRow.procedure_volume r;
                DepartmentComparison.emergency_count :=
                  DepartmentRow.emergency_count r |})
        rows).

(** The date range of [get_branch_comparison], which takes no branch
    filter. *)
Definition in_dates (date_from date_to : Z) (a : Admission.row) : bool :=
  (midnight date_from <=? Admission.admission_at a)
  && (Admission.admission_at a <? midnight date_to + usecs_per_day).

Module BranchRow.
Record t : Type := {
  branch_id : Z;
  branch_name : string;
  city : string;
  admissions : Z;
  avg_los : option Q;
  cost_per_discharge : option Q;
  readm_count : Z;
  total_adm : Z
}.
End BranchRow.

(** [GROUP BY b.branch_id, b.name, b.city]. *)
Definition branch_key
    (x : Full.branch * option Admission.row * option Discharge.row)
  : Z * string * string :=
  let b := fst (fst x) in
  (Branch.branch_id b, Branch.name b, Full.city b).

Definition branch_key_eqb (k1 k2 : Z * string * string) : bool :=
  (fst (fst k1) =? fst (fst k2))
  && (snd (fst k1) =? snd (fst k2))%string
  && (snd k1 =? snd k2)%string.

(** The admissions of a branch in the date range: the WHERE clause of the
    three correlated subqueries. *)
Definition of_branch (date_from date_to branch_id : Z) (a : Admission.row)
  : bool :=
  (Admission.branch_id a =? branch_id) && in_dates date_from date_to a.

(** [COALESCE(SUM(bill.total_amount), 0)
     / NULLIF(COUNT(DISTINCT bill.admission_id), 0)]. *)
Definition branch_cost (s : Full.session) (date_from date_to branch_id : Z)
  : option Q :=
  let rows :=
    filter (fun ba => of_branch date_from date_to branch_id (snd ba))
      (Sql.join (fun bill a2 => Admission.admission_id a2
                                =? Billing.admission_id bill)
         (Full.billing s) (Full.admissions s)) in
  let billed := Sql.count_distinct
                  (map (fun ba => Billing.admission_id (fst ba)) rows) in
  if billed =? 0 then None
  else Some (Qsum (map (fun ba => Billing.total_amount (fst ba)) rows)
             / inject_Z billed)%Q.

(** [COUNT(DISTINCT r.previous_admission_id)] over the readmitted
    admissions of the branch. *)
Definition branch_readmitted (s : Full.session)
    (date_from date_to branch_id : Z) : Z :=
  Sql.count_distinct
    (map (fun ra => Readmission.previous_admission_id (fst ra))
       (filter (fun ra => of_branch date_from date_to branch_id (snd ra))
          (Sql.join (fun r a3 => Admission.admission_id a3
                                 =? Readmission.previous_admission_id r)
             (Full.readmissions s) (Full.admissions s)))).

Definition branch_admitted (s : Full.session)
    (date_from date_to branch_id : Z) : Z :=
  count (filter (of_branch date_from date_to branch_id) (Full.admissions s)).

(** The first statement of [get_branch_comparison], with its
    [ORDER BY b.branch_id]. *)
Definition branch_query (s : Full.session) (date_from date_to : Z)
  : list BranchRow.t :=
  Sql.order_by (Sql.asc BranchRow.branch_id)
    (map (fun g =>
            let id := fst (fst (fst g)) in
            {| BranchRow.branch_id := id;
               BranchRow.branch_name := snd (fst (fst g));
               BranchRow.city := snd (fst g);
               BranchRow.admissions := count_admissions (snd g);
               BranchRow.avg_los := avg (non_null (map los_of (snd g)));
               BranchRow.cost_per_discharge :=
                 branch_cost s date_from date_to id;
               BranchRow.readm_count :=
                 branch_readmitted s date_from date_to id;
               BranchRow.total_adm := branch_admitted s date_from date_to id |})
       (Sql.group_by branch_key branch_key_eqb
          (with_discharge (Full.discharges s)
             (Sql.left_join
                (fun (b : Full.branch) a =>
                   (Admission.branch_id a =? Branch.branch_id b)
                   && in_dates date_from date_to a)
                (Full.hospital_branches s) (Full.admissions s))))).

(** [occ_q] of [get_branch_comparison]: mean occupancy per branch id. *)
Definition branch_occupancy_query (s : Full.session) (date_from date_to : Z)
  : list (Z * option Q) :=
  map (fun g =>
         (fst g,
          avg (non_null
                 (map (fun rb : Full.snapshot * Full.branch =>
                         Sql.pct_of (ResourceAllocation.beds_occupied (fst rb))
                                    (Branch.bed_count (snd rb)))
                    (snd g)))))
    (Sql.group_by
       (fun rb : Full.snapshot * Full.branch =>
          ResourceAllocation.branch_id (fst rb))
       Z.eqb
       (filter (fun rb : Full.snapshot * Full.branch =>
                  (date_from <=? ResourceAllocation.record_date (fst rb))
                  && (ResourceAllocation.record_date (fst rb) <=? date_to))
          (Sql.join (fun (ra : Full.snapshot) (b : Full.branch) =>
                       Branch.branch_id b =? ResourceAllocation.branch_id ra)
             (Full.resource_allocation s) (Full.hospital_branches s)))).

(** [occ_map.get(branch_id, 0)] on the dictionary built from the rows. *)
Fixpoint occ_get (d : list (Z * Q)) (k : Z) (default : Q) : Q :=
  match d with
  | [] => default
  | (k', v) :: r => if k' =? k then v else occ_get r k default
  end.

Module BranchComparison.
Record t : Type := {
  branch_id : Z;
  branch_name : string;
  city : string;
  admissions : Z;
  discharges : Z;
  avg_los_days : Q;
  cost_per_discharge_inr : Q;
  readmission_rate_pct : Q;
  bed_occupancy_pct : Q
}.
End BranchComparison.

Definition get_branch_comparison (s : Full.session) (today : Z)
    (date_from date_to : option Z) : result (list BranchComparison.t) :=
  let date_from := or_default date_from (today - 365) in
  let date_to := or_default date_to today in
  let* rows := Full.execute s BranchComparison
                 (branch_query s date_from date_to) in
  let* occ := Full.execute s BranchOccupancy
                (branch_occupancy_query s date_from date_to) in
  let occ_map := map (fun r => (fst r, or_default (snd r) 0%Q)) occ in
  Ok (map (fun r =>
             let total_adm := or_one (BranchRow.total_adm r) in
             let readm_rate :=
               (inject_Z (BranchRow.readm_count r) / inject_Z total_adm
                * 100)%Q in
             let cost := or_default (BranchRow.cost_per_discharge r) 0%Q in
             {| BranchComparison.branch_id := BranchRow.branch_id r;
                BranchComparison.branch_name := BranchRow.branch_name r;
                BranchComparison.city := BranchRow.city r;
                BranchComparison.admissions := BranchRow.admissions r;
                BranchComparison.discharges := BranchRow.admissions r;
                BranchComparison.avg_los_days :=
                  py_round2 (or_default (BranchRow.avg_los r) 0%Q);
                BranchComparison.cost_per_discharge_inr := py_round2 cost;
                BranchComparison.readmission_rate_pct := py_round2 readm_rate;
                BranchComparison.bed_occupancy_pct :=
                  py_round2 (occ_get occ_map (BranchRow.branch_id r) 0%Q) |})
        rows).

Record TrendPoint : Type := {
  period : string;
  period_dt : option string;
  admissions : Z;
  discharges : Z;
  avg_los_days : Q;
  occupancy_pct : Q
}.

Definition get_trends (db : Database) (today : Z) (granularity : string)
    (branch_ids department_ids : option (list Z))
    (date_from date_to : option Z) : result (list TrendPoint) :=
  let date_from := or_default date_from (today - 90) in
  let date_to := or_default date_to today in
  let* rows := execute db TrendPeriods
                 (periods_query db granularity branch_ids department_ids
                    date_from date_to) in
  let occ_rows :=
    try_except
      (let* occ := execute db TrendOccupancy
                     (occupancy_query db granularity branch_ids
                        date_from date_to) in
       Ok (map (fun r => (fst r, or_default (snd r) 0%Q)) occ))
      [] in
  Ok (map (fun r =>
             {| period := PeriodRow.period_label r;
                period_dt := Some (isoformat (PeriodRow.period_dt r));
                admissions := PeriodRow.admissions r;
                discharges := PeriodRow.admissions r;
                avg_los_days :=
                  py_round2 (or_default (PeriodRow.avg_los r) 0%Q);
                occupancy_pct :=
                  py_round2 (dict_get occ_rows (PeriodRow.period_label r) 0%Q)
             |})
        rows).

End Trends.

(** ** app/services/predictive.py *)

Module Predictive.
Import Calendar.

(** The [daily] common table expression: admissions per calendar day since
    [CURRENT_DATE - :days], days without admissions having no row. *)
Definition daily (db : Database) (today : Z) (branch_ids : option (list Z))
    (days : Z) : list (Z * Z) :=
  map (fun g => (fst g, count (snd g)))
    (Sql.group_by (fun a => date_of (Admission.admission_at a)) Z.eqb
       (filter (fun a =>
                  (midnight (today - days) <=? Admission.admission_at a)
                  && any_clause branch_ids (Admission.branch_id a))
          (admissions db))).

(** The window frame [ROWS BETWEEN n PRECEDING AND CURRENT ROW] of the row
    at position [i] of an ordered partition. *)
Definition rows_preceding {A} (n i : nat) (l : list A) : list A :=
  skipn (i - n) (firstn (S i) l).

Module MaRow.
Record t : Type := { dt : Z; admissions : Z; moving_avg : option Q }.
End MaRow.

(** [with_ma], rounded and ordered by day.  The frame is the literal
    [6 PRECEDING] of the statement. *)
Definition moving_avg_query (db : Database) (today : Z)
    (branch_ids : option (list Z)) (days : Z) : list MaRow.t :=
  let ordered := Sql.order_by (Sql.asc fst) (daily db today branch_ids days) in
  map (fun i =>
         let r := nth i ordered (0, 0) in
         {| MaRow.dt := fst r;
            MaRow.admissions := snd r;
            MaRow.moving_avg :=
              option_map pg_round2
                (avg (map (fun x => inject_Z (snd x))
                        (rows_preceding 6 i ordered))) |})
    (seq 0 (List.length ordered)).

Record TrendMa : Type := {
  date : string;
  admissions : Z;
  moving_avg_7d : Q
}.

(** [window_days] is bound as a statement parameter, but the statement
    text has no [:window_days] placeholder. *)
Definition get_admission_trend_with_moving_avg (db : Database) (today : Z)
    (branch_ids : option (list Z)) (days window_days : Z)
  : result (list TrendMa) :=
  let* rows := execute db MovingAverage
                 (moving_avg_query db today branch_ids days) in
  Ok (map (fun r =>
             {| date := isoformat (MaRow.dt r);
                admissions := MaRow.admissions r;
                moving_avg_7d := or_default (MaRow.moving_avg r) 0%Q |})
        rows).

(** An alert.  The rendered [message] text is not modelled; keys absent
    from a kind of alert are [None]. *)
Record Alert : Type := {
  alert_type : string;
  severity : string;
  branch_id : Z;
  branch_name : string;
  record_date : option string;
  value_pct : Q;
  threshold_pct : Q
}.

(** Snapshots joined to their branch, in the date range and branch filter. *)
Definition snapshots (db : Database) (branch_ids : option (list Z))
    (date_from date_to : Z) : list (ResourceAllocation.row * Branch.row) :=
  filter (fun rb =>
            (date_from <=? ResourceAllocation.record_date (fst rb))
            && (ResourceAllocation.record_date (fst rb) <=? date_to)
            && any_clause branch_ids (ResourceAllocation.branch_id (fst rb)))
    (Sql.join (fun ra b => Branch.branch_id b
                           =? ResourceAllocation.branch_id ra)
       (resource_allocation db) (hospital_branches db)).

(** [GROUP BY ra.branch_id, b.name, ra.record_date]. *)
Definition day_key (rb : ResourceAllocation.row * Branch.row)
  : Z * string * Z :=
  (ResourceAllocation.branch_id (fst rb), Branch.name (snd rb),
   ResourceAllocation.record_date (fst rb)).

Definition day_key_eqb (k1 k2 : Z * string * Z) : bool :=
  (fst (fst k1) =? fst (fst k2))
  && (snd (fst k1) =? snd (fst k2))%string
  && (snd k1 =? snd k2).

Definition bed_pct (rb : ResourceAllocation.row * Branch.row) : option Q :=
  Sql.pct_of (ResourceAllocation.beds_occupied (fst rb))
             (Branch.bed_count (snd rb)).

Definition icu_pct (rb : ResourceAllocation.row * Branch.row) : option Q :=
  Sql.pct_of (ResourceAllocation.icu_occupied (fst rb))
             (Branch.icu_beds (snd rb)).

(** [HAVING AVG(...) >= :threshold]; a NULL average is not kept. *)
Definition having_at_least (v : option Q) (threshold : Q) : bool :=
  match v with
  | Some x => Qle_bool threshold x
  | None => false
  end.

Module DayRow.
Record t : Type := {
  branch_id : Z;
  branch_name : string;
  record_date : Z;
  pct : option Q
}.
End DayRow.

Definition day_rows (pct : ResourceAllocation.row * Branch.row -> option Q)
    (rows : list (ResourceAllocation.row * Branch.row)) : list DayRow.t :=
  map (fun g =>
         {| DayRow.branch_id := fst (fst (fst g));
            DayRow.branch_name := snd (fst (fst g));
            DayRow.record_date := snd (fst g);
            DayRow.pct := avg (non_null (map pct (snd g))) |})
    (Sql.group_by day_key day_key_eqb rows).

(** [q_bed], with its [ORDER BY occ_pct DESC]. *)
Definition bed_query (db : Database) (branch_ids : option (list Z))
    (date_from date_to : Z) (bed_threshold : Q) : list DayRow.t :=
  Sql.order_by
    (fun x y => Sql.Qlt_bool (or_default (DayRow.pct y) 0%Q)
                             (or_default (DayRow.pct x) 0%Q))
    (filter (fun r => having_at_least (DayRow.pct r) bed_threshold)
       (day_rows bed_pct (snapshots db branch_ids date_from date_to))).

(** [q_icu]: branches without ICU beds are left out by the WHERE clause. *)
Definition icu_query (db : Database) (branch_ids : option (list Z))
    (date_from date_to : Z) (icu_threshold : Q) : list DayRow.t :=
  filter (fun r => having_at_least (DayRow.pct r) icu_threshold)
    (day_rows icu_pct
       (filter (fun rb => 0 <? Branch.icu_beds (snd rb))
          (snapshots db branch_ids date_from date_to))).

(** The [util] subquery of [q_doc]: booked share per doctor. *)
Definition doctor_util (db : Database) (date_from date_to : Z)
  : list (Z * option Q) :=
  map (fun g =>
         (snd (fst g),
          Sql.pct_of
            (Sql.count_where (fun sd => DoctorSchedule.is_booked (fst sd))
               (snd g))
            (count (snd g))))
    (Sql.group_by
       (fun sd => (Doctor.doctor_id (snd sd), Doctor.department_id (snd sd)))
       (fun k1 k2 => (fst k1 =? fst k2) && (snd k1 =? snd k2))
       (filter (fun sd =>
                  (date_from <=? DoctorSchedule.slot_date (fst sd))
                  && (DoctorSchedule.slot_date (fst sd) <=? date_to))
          (Sql.join (fun ds doc => Doctor.doctor_id doc
                                   =? DoctorSchedule.doctor_id ds)
             (doctor_schedules db) (doctors db)))).

(** [q_doc]: mean of the per-doctor shares per branch. *)
Definition doctor_query (db : Database) (branch_ids : option (list Z))
    (date_from date_to : Z) (doc_threshold : Q)
  : list (Z * string * option Q) :=
  filter (fun r => having_at_least (snd r) doc_threshold)
    (map (fun g =>
            (fst (fst g), snd (fst g),
             avg (non_null (map (fun x => snd (fst (fst x))) (snd g)))))
       (Sql.group_by
          (fun x => (Department.branch_id (snd (fst x)), Branch.name (snd x)))
          (fun k1 k2 => (fst k1 =? fst k2) && (snd k1 =? snd k2)%string)
          (filter (fun x => any_clause branch_ids
                              (Department.branch_id (snd (fst x))))
             (Sql.join (fun ud b => Branch.branch_id b
                                    =? Department.branch_id (snd ud))
                (Sql.join (fun u d => Department.department_id d =? fst u)
                   (doctor_util db date_from date_to) (departments db))
                (hospital_branches db))))).

Definition day_alert (kind : string) (threshold : Q) (r : DayRow.t) : Alert :=
  {| alert_type := kind;
     severity := "warning";
     branch_id := DayRow.branch_id r;
     branch_name := DayRow.branch_name r;
     record_date := Some (isoformat (DayRow.record_date r));
     value_pct := or_default (DayRow.pct r) 0%Q;
     threshold_pct := threshold |}.

Definition get_threshold_alerts (db : Database) (today : Z)
    (branch_ids : option (list Z))
    (bed_occupancy_threshold_pct icu_occupancy_threshold_pct
       doctor_utilization_threshold_pct : Q)
    (date_from date_to : option Z) : result (list Alert) :=
  let date_to := or_default date_to today in
  let date_from := or_default date_from (date_to - 7) in
  let* bed := execute db AlertBed
                (bed_query db branch_ids date_from date_to
                   bed_occupancy_threshold_pct) in
  let* icu := execute db AlertIcu
                (icu_query db branch_ids date_from date_to
                   icu_occupancy_threshold_pct) in
  let* doc := execute db AlertDoctor
                (doctor_query db branch_ids date_from date_to
                   doctor_utilization_threshold_pct) in
  Ok (map (day_alert "high_bed_occupancy" bed_occupancy_threshold_pct) bed
      ++ map (day_alert "high_icu_utilization" icu_occupancy_threshold_pct) icu
      ++ map (fun r =>
                {| alert_type := "doctor_overutilization";
                   severity := "info";
                   branch_id := fst (fst r);
                   branch_name := snd (fst r);
                   record_date := None;
                   value_pct := or_default (snd r) 0%Q;
                   threshold_pct := doctor_utilization_threshold_pct |})
           doc).


(** [" AND ra.branch_id = :branch_id" if branch_id else ""]: [None] and 0
    are both falsy. *)
Definition branch_clause (branch_id : option Z) (x : Z) : bool :=
  match branch_id with
  | Some b => if b =? 0 then true else x =? b
  | None => true
  end.

(** The [daily_occ] common table expression. *)
Definition daily_occ (db : Database) (today : Z) (branch_id : option Z)
    (days_lookback : Z) : list DayRow.t :=
  day_rows bed_pct
    (filter (fun rb =>
               (today - days_lookback
                <=? ResourceAllocation.record_date (fst rb))
               && branch_clause branch_id
                    (ResourceAllocation.branch_id (fst rb)))
       (Sql.join (fun ra b => Branch.branch_id b
                              =? ResourceAllocation.branch_id ra)
          (resource_allocation db) (hospital_branches db))).

Definition blank : DayRow.t :=
  {| DayRow.branch_id := 0; DayRow.branch_name := "";
     DayRow.record_date := 0; DayRow.pct := None |}.

(** Each row of an ordered partition with the mean over its frame
    [ROWS BETWEEN 6 PRECEDING AND CURRENT ROW]. *)
Definition framed_means (part : list DayRow.t) : list (DayRow.t * option Q) :=
  map (fun i =>
         (nth i part blank,
          avg (non_null (map DayRow.pct (rows_preceding 6 i part)))))
    (seq 0 (List.length part)).

(** [with_ma]: [PARTITION BY branch_id ORDER BY record_date]. *)
Definition with_ma (rows : list DayRow.t) : list (DayRow.t * option Q) :=
  flat_map (fun g =>
              framed_means
                (Sql.order_by (Sql.asc DayRow.record_date) (snd g)))
    (Sql.group_by DayRow.branch_id Z.eqb rows).

Module ForecastRow.
Record t : Type := {
  branch_name : string;
  record_date : Z;
  occupancy_pct : option Q;
  moving_avg_7d : option Q;
  above_threshold : bool
}.
End ForecastRow.

(** [ORDER BY branch_id, record_date]. *)
Definition branch_then_day (x y : DayRow.t * option Q) : bool :=
  (DayRow.branch_id (fst x) <? DayRow.branch_id (fst y))
  || ((DayRow.branch_id (fst x) =? DayRow.branch_id (fst y))
      && (DayRow.record_date (fst x) <? DayRow.record_date (fst y))).

(** The statement of [get_occupancy_forecast_simple]; the CASE is false
    on a NULL average. *)
Definition forecast_query (db : Database) (today : Z) (branch_id : option Z)
    (days_lookback : Z) (threshold : Q) : list ForecastRow.t :=
  map (fun r =>
         {| ForecastRow.branch_name := DayRow.branch_name (fst r);
            ForecastRow.record_date := DayRow.record_date (fst r);
            ForecastRow.occupancy_pct :=
              option_map pg_round2 (DayRow.pct (fst r));
            ForecastRow.moving_avg_7d := option_map pg_round2 (snd r);
            ForecastRow.above_threshold :=
              having_at_least (DayRow.pct (fst r)) threshold |})
    (Sql.order_by branch_then_day
       (with_ma (daily_occ db today branch_id days_lookback))).

Module Forecast.
Record t : Type := {
  branch_name : string;
  record_date : string;
  occupancy_pct : Q;
  moving_avg_7d : Q;
  above_threshold : bool
}.
End Forecast.

Definition get_occupancy_forecast_simple (s : Session) (today : Z)
    (branch_id : option Z) (days_lookback : Z) (occupancy_threshold_pct : Q)
  : result (list Forecast.t) :=
  let* rows := execute_query s OccupancyForecast
                 (forecast_query s today branch_id days_lookback
                    occupancy_threshold_pct) in
  Ok (map (fun r =>
             {| Forecast.branch_name := ForecastRow.branch_name r;
                Forecast.record_date := isoformat (ForecastRow.record_date r);
                Forecast.occupancy_pct :=
                  or_default (ForecastRow.occupancy_pct r) 0%Q;
                Forecast.moving_avg_7d :=
                  or_default (ForecastRow.moving_avg_7d r) 0%Q;
                Forecast.above_threshold := ForecastRow.above_threshold r |})
        rows).

End Predictive.

(** ** app/services/predictions.py *)

Module Predictions.
Import Calendar.

(** A bottleneck flag; the two kinds of dictionary carry different keys. *)
Inductive Bottleneck : Type :=
| delayed_discharge (branch_id : Z) (branch_name : string)
    (department_id : Z) (department_name : string)
    (count : Z) (avg_los_days : Q)
| peak_hour_surplus (hour : Z) (admissions_count : Z).

Definition flag_type (b : Bottleneck) : string :=
  match b with
  | delayed_discharge _ _ _ _ _ _ => "delayed_discharge"
  | peak_hour_surplus _ _ => "peak_hour_surplus"
  end.

Definition root_cause (b : Bottleneck) : string :=
  match b with
  | delayed_discharge _ _ _ _ _ _ =>
      "High proportion of long-stay (>14 days) patients."
  | peak_hour_surplus h n =>
      "Hour " ++ decimal h ++ " has " ++ decimal n
      ++ " admissions (2x average). Consider staffing."
  end%string.

(** [a.admission_at >= :date_from AND a.admission_at < :date_to + 1 day]
    and the branch clause. *)
Definition in_range (branch_ids : option (list Z)) (date_from date_to : Z)
    (a : Admission.row) : bool :=
  (midnight date_from <=? Admission.admission_at a)
  && (Admission.admission_at a <? midnight date_to + usecs_per_day)
  && any_clause branch_ids (Admission.branch_id a).

(** One row of the four-way join of [delay_q]. *)
Definition Stay : Type :=
  Admission.row * Discharge.row * Branch.row * Department.row.

Definition stay_admission (s : Stay) : Admission.row := fst (fst (fst s)).
Definition stay_discharge (s : Stay) : Discharge.row := snd (fst (fst s)).
Definition stay_branch (s : Stay) : Branch.row := snd (fst s).
Definition stay_department (s : Stay) : Department.row := snd s.

(** The closed episode (admission and discharge) of a joined row. *)
Definition stay_episode (s : Stay) : Admission.row * Discharge.row :=
  fst (fst s).

Definition stay_los (s : Stay) : Q :=
  interval_days (Discharge.discharge_at (stay_discharge s))
                (Admission.admission_at (stay_admission s)).

Definition stays (db : Database) : list Stay :=
  Sql.join (fun adb dp => Department.department_id dp
                          =? Admission.department_id (fst (fst adb)))
    (Sql.join (fun ad b => Branch.branch_id b
                           =? Admission.branch_id (fst ad))
       (Sql.join (fun a dis => Discharge.admission_id dis
                               =? Admission.admission_id a)
          (admissions db) (discharges db))
       (hospital_branches db))
    (departments db).

(** [GROUP BY a.branch_id, b.name, a.department_id, dp.name]. *)
Definition delay_key (s : Stay) : Z * string * Z * string :=
  (Admission.branch_id (stay_admission s), Branch.name (stay_branch s),
   Admission.department_id (stay_admission s),
   Department.name (stay_department s)).

Definition delay_key_eqb (k1 k2 : Z * string * Z * string) : bool :=
  (fst (fst (fst k1)) =? fst (fst (fst k2)))
  && (snd (fst (fst k1)) =? snd (fst (fst k2)))%string
  && (snd (fst k1) =? snd (fst k2))
  && (snd k1 =? snd k2)%string.

Module DelayRow.
Record t : Type := {
  branch_id : Z;
  branch_name : string;
  department_id : Z;
  dept_name : string;
  long_stay_count : Z;
  avg_los : option Q
}.
End DelayRow.

Definition delay_query (db : Database) (branch_ids : option (list Z))
    (date_from date_to : Z) : list DelayRow.t :=
  Sql.order_by (Sql.desc DelayRow.long_stay_count)
    (filter (fun r => 5 <=? DelayRow.long_stay_count r)
       (map (fun g =>
               {| DelayRow.branch_id := fst (fst (fst (fst g)));
                  DelayRow.branch_name := snd (fst (fst (fst g)));
                  DelayRow.department_id := snd (fst (fst g));
                  DelayRow.dept_name := snd (fst g);
                  DelayRow.long_stay_count := count (snd g);
                  DelayRow.avg_los := avg (map stay_los (snd g)) |})
          (Sql.group_by delay_key delay_key_eqb
             (filter (fun s =>
                        in_range branch_ids date_from date_to
                          (stay_admission s)
                        && Sql.Qlt_bool 14 (stay_los s))
                (stays db))))).

(** The [hourly] common table expression: admissions per hour of day. *)
Definition hourly (db : Database) (branch_ids : option (list Z))
    (date_from date_to : Z) : list (Z * Z) :=
  map (fun g => (fst g, count (snd g)))
    (Sql.group_by (fun a => hour_of (Admission.admission_at a)) Z.eqb
       (filter (in_range branch_ids date_from date_to) (admissions db))).

(** [avg_daily]: [SUM(cnt) / 24.0], NULL when [hourly] is empty. *)
Definition avg_per_hour (h : list (Z * Z)) : option Q :=
  match h with
  | [] => None
  | _ => Some (Qsum (map (fun r => inject_Z (snd r)) h) / 24)%Q
  end.

Definition peak_query (db : Database) (branch_ids : option (list Z))
    (date_from date_to : Z) : list (Z * Z) :=
  let h := hourly db branch_ids date_from date_to in
  Sql.order_by (Sql.desc snd)
    (filter (fun r =>
               match avg_per_hour h with
               | Some a => Sql.Qlt_bool (2 * a) (inject_Z (snd r))
               | None => false
               end)
       h).

Definition get_bottlenecks (db : Database) (today : Z)
    (branch_ids : option (list Z)) (date_from date_to : option Z)
  : list Bottleneck :=
  let date_from := or_default date_from (today - 30) in
  let date_to := or_default date_to today in
  let delayed :=
    try_except
      (let* rows := execute db BottleneckDelay
                      (delay_query db branch_ids date_from date_to) in
       Ok (map (fun r =>
                  delayed_discharge (DelayRow.branch_id r)
                    (DelayRow.branch_name r) (DelayRow.department_id r)
                    (DelayRow.dept_name r) (DelayRow.long_stay_count r)
                    (py_round2 (or_default (DelayRow.avg_los r) 0%Q)))
             rows))
      [] in
  let peaks :=
    try_except
      (let* rows := execute db BottleneckPeak
                      (peak_query db branch_ids date_from date_to) in
       Ok (map (fun r => peak_hour_surplus (fst r) (snd r)) rows))
      [] in
  delayed ++ peaks.


(** The count a flag carries: its [count] or [admissions_count] key. *)
Definition flagged_count (b : Bottleneck) : Z :=
  match b with
  | delayed_discharge _ _ _ _ n _ => n
  | peak_hour_surplus _ n => n
  end.


(** ** [get_resource_alerts] *)

Module ResourceRow.
Record t : Type := {
  branch_id : Z;
  name : string;
  bed_occ_pct : option Q;
  icu_occ_pct : option Q;
  vent_occ_pct : option Q
}.
End ResourceRow.

(** [GROUP BY ra.branch_id, b.name, b.bed_count, b.icu_beds,
    b.ventilator_count]. *)
Definition resource_key (rb : Full.snapshot * Full.branch)
  : Z * string * Z * Z * Z :=
  (ResourceAllocation.branch_id (fst rb), Branch.name (snd rb),
   Branch.bed_count (snd rb), Branch.icu_beds (snd rb),
   Full.ventilator_count (snd rb)).

Definition resource_key_eqb (k1 k2 : Z * string * Z * Z * Z) : bool :=
  (fst (fst (fst (fst k1))) =? fst (fst (fst (fst k2))))
  && (snd (fst (fst (fst k1))) =? snd (fst (fst (fst k2))))%string
  && (snd (fst (fst k1)) =? snd (fst (fst k2)))
  && (snd (fst k1) =? snd (fst k2))
  && (snd k1 =? snd k2).

(** The snapshots of the last 14 days, joined to their branch. *)
Definition recent_snapshots (s : Full.session) (today : Z)
    (branch_ids : option (list Z)) : list (Full.snapshot * Full.branch) :=
  filter (fun rb : Full.snapshot * Full.branch =>
            (today - 14 <=? ResourceAllocation.record_date (fst rb))
            && (ResourceAllocation.record_date (fst rb) <=? today)
            && any_clause branch_ids (ResourceAllocation.branch_id (fst rb)))
    (Sql.join (fun (ra : Full.snapshot) (b : Full.branch) =>
                 Branch.branch_id b =? ResourceAllocation.branch_id ra)
       (Full.resource_allocation s) (Full.hospital_branches s)).

(** [occ_q]; the plain averages it also selects are not read. *)
Definition resource_query (s : Full.session) (today : Z)
    (branch_ids : option (list Z)) : list ResourceRow.t :=
  map (fun g =>
         {| ResourceRow.branch_id := fst (fst (fst (fst (fst g))));
            ResourceRow.name := snd (fst (fst (fst (fst g))));
            ResourceRow.bed_occ_pct :=
              avg (non_null
                     (map (fun rb : Full.snapshot * Full.branch =>
                             Sql.pct_of
                               (ResourceAllocation.beds_occupied (fst rb))
                               (Branch.bed_count (snd rb)))
                        (snd g)));
            ResourceRow.icu_occ_pct :=
              avg (non_null
                     (map (fun rb : Full.snapshot * Full.branch =>
                             Sql.pct_of
                               (ResourceAllocation.icu_occupied (fst rb))
                               (Branch.icu_beds (snd rb)))
                        (snd g)));
            ResourceRow.vent_occ_pct :=
              avg (non_null
                     (map (fun rb : Full.snapshot * Full.branch =>
                             Sql.pct_of (Full.ventilators_used (fst rb))
                                        (Full.ventilator_count (snd rb)))
                        (snd g))) |})
    (Sql.group_by resource_key resource_key_eqb
       (recent_snapshots s today branch_ids)).

(** [if pct and float(pct) >= threshold]: NULL and zero are falsy. *)
Definition exceeds (pct : option Q) (threshold : Q) : bool :=
  match pct with
  | Some v => negb (Qeq_bool v 0) && Qle_bool threshold v
  | None => false
  end.

(** An alert of [get_resource_alerts]; the rendered [message] is not
    modelled. *)
Record ResourceAlert : Type := {
  alert_type : string;
  severity : string;
  branch_id : Z;
  department_id : option Z;
  predicted_shortage : string;
  period_start : Z;
  period_end : Z
}.

(** The body of the loop over the rows. *)
Definition row_alerts (today days_ahead : Z)
    (occupancy_threshold_pct utilization_threshold_pct : Q)
    (r : ResourceRow.t) : list ResourceAlert :=
  (if exceeds (ResourceRow.bed_occ_pct r) occupancy_threshold_pct then
     [{| alert_type := "high_bed_occupancy";
         severity :=
           if Sql.Qlt_bool (or_default (ResourceRow.bed_occ_pct r) 0%Q) 95
           then "warning" else "critical";
         branch_id := ResourceRow.branch_id r;
         department_id := None;
         predicted_shortage := "general beds";
         period_start := today;
         period_end := today + days_ahead |}]
   else [])
  ++ (if exceeds (ResourceRow.icu_occ_pct r) utilization_threshold_pct then
        [{| alert_type := "icu_shortage_risk";
            severity := "warning";
            branch_id := ResourceRow.branch_id r;
            department_id := None;
            predicted_shortage := "ICU beds";
            period_start := today;
            period_end := today + days_ahead |}]
      else [])
  ++ (if exceeds (ResourceRow.vent_occ_pct r) utilization_threshold_pct then
        [{| alert_type := "ventilator_shortage_risk";
            severity := "warning";
            branch_id := ResourceRow.branch_id r;
            department_id := None;
            predicted_shortage := "ventilators";
            period_start := today;
            period_end := today + days_ahead |}]
      else []).

Definition get_resource_alerts (s : Full.session) (today : Z)
    (branch_ids : option (list Z)) (days_ahead : Z)
    (occupancy_threshold_pct utilization_threshold_pct : Q)
  : result (list ResourceAlert) :=
  let* rows := Full.execute s ResourceOccupancy
                 (resource_query s today branch_ids) in
  Ok (flat_map (row_alerts today days_ahead occupancy_threshold_pct
                  utilization_threshold_pct)
        rows).

End Predictions.

(** ** app/routers/reports.py *)

Module Reports.
Import Calendar.

Definition is_leap (y : Z) : bool :=
  (y mod 4 =? 0) && (negb (y mod 100 =? 0) || (y mod 400 =? 0)).

Definition days_in_month (y m : Z) : Z :=
  if m =? 2 then (if is_leap y then 29 else 28)
  else if (m =? 4) || (m =? 6) || (m =? 9) || (m =? 11) then 30
  else 31.

(** Python's [date(y, m, d)]: a ValueError outside the calendar. *)
Definition date (y m d : Z) : result Z :=
  if (1 <=? y) && (y <=? 9999) && (1 <=? m) && (m <=? 12)
     && (1 <=? d) && (d <=? days_in_month y m)
  then Ok (days_from_civil y m d)
  else Raised.

(** [d + timedelta(days=n)]: an OverflowError outside [date.min] to
    [date.max]. *)
Definition plus_days (d n : Z) : result Z :=
  if (date_min <=? d + n) && (d + n <=? date_max) then Ok (d + n)
  else Raised.

(** Truthiness of an optional integer: [None] and 0 are falsy. *)
Definition given (x : option Z) : bool :=
  match x with
  | Some v => negb (v =? 0)
  | None => false
  end.

(** The reporting period of [monthly_summary]: the requested month, or
    the month so far (the whole previous month on the first of a month). *)
Definition period (today : Z) (year month : option Z) : result (Z * Z) :=
  if given year && given month then
    let y := or_default year 0 in
    let m := or_default month 0 in
    let* date_from := date y m 1 in
    let* date_to :=
      if m =? 12 then date y 12 31
      else let* next := date y (m + 1) 1 in plus_days next (-1) in
    Ok (date_from, date_to)
  else
    let date_to := today in
    let c := civil_from_days date_to in
    let* date_from :=
      if 1 <? Calendar.day c then date (Calendar.year c) (Calendar.month c) 1
      else if 1 <? Calendar.month c then
        date (Calendar.year c) (Calendar.month c - 1) 1
      else date (Calendar.year c - 1) 12 1 in
    let cf := civil_from_days date_from in
    if (Calendar.month cf =? Calendar.month c)
       && (Calendar.year cf =? Calendar.year c)
    then Ok (date_from, date_to)
    else
      let* later := plus_days date_from 32 in
      let cl := civil_from_days later in
      let* first := date (Calendar.year cl) (Calendar.month cl) 1 in
      let* date_to := plus_days first (-1) in
      Ok (date_from, date_to).

End Reports.

(** ** Sample databases *)

Module Examples.

(** 2024-01-01, a Monday. *)
Definition new_year_2024 : Z := 738885.

Definition at_hour (day hour : Z) : Z := midnight day + hour * usecs_per_hour.

Definition admitted (id branch dept : Z) (ty : string) (day hour : Z)
  : Admission.row :=
  {| Admission.admission_id := id;
     Admission.branch_id := branch;
     Admission.department_id := dept;
     Admission.admission_type := ty;
     Admission.admission_at := at_hour day hour |}.

Definition discharged (id day hour : Z) (outcome : string) : Discharge.row :=
  {| Discharge.admission_id := id;
     Discharge.discharge_at := at_hour day hour;
     Discharge.outcome_code := Some outcome |}.

Definition snapshot (branch day beds icu : Z) : ResourceAllocation.row :=
  {| ResourceAllocation.branch_id := branch;
     ResourceAllocation.record_date := day;
     ResourceAllocation.beds_occupied := beds;
     ResourceAllocation.icu_occupied := icu |}.

(** [n] emergency arrivals at branch 1, department 10, on one day and
    hour, numbered from [first_id]. *)
Fixpoint arrivals (n : nat) (first_id day hour : Z) : list Admission.row :=
  match n with
  | O => []
  | S k => admitted first_id 1 10 "Emergency" day hour
           :: arrivals k (first_id + 1) day hour
  end.

Definition no_faults (s : Stmt) : bool := false.

Definition city_general : Branch.row :=
  {| Branch.branch_id := 1; Branch.name := "City General Hospital";
     Branch.bed_count := 200; Branch.icu_beds := 20 |}.

Definition metro_care : Branch.row :=
  {| Branch.branch_id := 2; Branch.name := "Metro Care Hospital";
     Branch.bed_count := 150; Branch.icu_beds := 0 |}.

(** Two branches; five stays of more than 14 days and a short one in
    cardiology at the first branch, two short stays at the second, in two
    different quarters of 2024. *)
Definition hospital : Database :=
  let d := new_year_2024 in
  {| admissions :=
       [admitted 1 1 10 "Emergency" d 8;
        admitted 2 1 10 "Scheduled" (d + 1) 9;
        admitted 3 1 10 "Scheduled" (d + 2) 9;
        admitted 4 1 10 "Emergency" (d + 3) 22;
        admitted 5 1 10 "Transfer" (d + 4) 8;
        admitted 6 1 10 "Scheduled" (d + 5) 10;
        admitted 7 2 20 "Emergency" (d + 45) 14;
        admitted 8 2 20 "Emergency" (d + 93) 3];
     discharges :=
       [discharged 1 (d + 15) 8 "Recovered";
        discharged 2 (d + 17) 9 "Improved";
        discharged 3 (d + 22) 9 "Deceased";
        discharged 4 (d + 18) 23 "Transferred";
        discharged 5 (d + 34) 8 "LAMA";
        discharged 6 (d + 8) 10 "Recovered";
        discharged 7 (d + 47) 14 "Recovered";
        discharged 8 (d + 94) 3 "Improved"];
     hospital_branches := [city_general; metro_care];
     departments :=
       [{| Department.department_id := 10; Department.name := "Cardiology";
           Department.branch_id := 1 |};
        {| Department.department_id := 20; Department.name := "Emergency";
           Department.branch_id := 2 |}];
     doctors :=
       [{| Doctor.doctor_id := 100; Doctor.department_id := 10 |};
        {| Doctor.doctor_id := 200; Doctor.department_id := 20 |}];
     doctor_schedules :=
       [{| DoctorSchedule.doctor_id := 100; DoctorSchedule.slot_date := d;
           DoctorSchedule.is_booked := true |};
        {| DoctorSchedule.doctor_id := 100; DoctorSchedule.slot_date := d + 1;
           DoctorSchedule.is_booked := false |};
        {| DoctorSchedule.doctor_id := 200; DoctorSchedule.slot_date := d;
           DoctorSchedule.is_booked := true |}];
     procedures :=
       [{| Procedure.admission_id := 1 |}; {| Procedure.admission_id := 1 |};
        {| Procedure.admission_id := 7 |}];
     readmissions := [{| Readmission.previous_admission_id := 6 |}];
     billing :=
       [{| Billing.admission_id := 1; Billing.total_amount := 250000 |};
        {| Billing.admission_id := 6; Billing.total_amount := 40000 |}];
     resource_allocation :=
       [snapshot 1 d 180 14; snapshot 1 d 160 15;
        snapshot 1 (d + 1) 120 10;
        snapshot 2 d 150 0];
     fails := no_faults |}.

(** The same facts on a session where only the core KPI statement can be
    run. *)
Definition degraded : Database :=
  {| admissions := admissions hospital;
     discharges := discharges hospital;
     hospital_branches := hospital_branches hospital;
     departments := departments hospital;
     doctors := doctors hospital;
     doctor_schedules := doctor_schedules hospital;
     procedures := procedures hospital;
     readmissions := readmissions hospital;
     billing := billing hospital;
     resource_allocation := resource_allocation hospital;
     fails := fun s => match s with
                       | KpiCore => false
                       | _ => true
                       end |}.

Definition only_admissions (l : list Admission.row) : Database :=
  {| admissions := l;
     discharges := [];
     hospital_branches := [];
     departments := [];
     doctors := [];
     doctor_schedules := [];
     procedures := [];
     readmissions := [];
     billing := [];
     resource_allocation := [];
     fails := no_faults |}.

(** 3, 6, 9 and 12 admissions on four consecutive days. *)
Definition rising : Database :=
  let d := new_year_2024 in
  only_admissions
    (arrivals 3 1 d 3 ++ arrivals 6 4 (d + 1) 3 ++ arrivals 9 10 (d + 2) 3
     ++ arrivals 12 19 (d + 3) 3).

(** Twelve admissions in a day, one in each of twelve hours: every such
    hour holds exactly twice the mean per hour. *)
Definition even_hours : Database :=
  let d := new_year_2024 in
  only_admissions
    (map (fun h => admitted (h + 1) 1 10 "Emergency" d h)
       [0; 2; 4; 6; 8; 10; 12; 14; 16; 18; 20; 22]).


(** The same facts on a session where the occupancy statement of the
    trend series cannot be run. *)
Definition without_occupancy : Database :=
  {| admissions := admissions hospital;
     discharges := discharges hospital;
     hospital_branches := hospital_branches hospital;
     departments := departments hospital;
     doctors := doctors hospital;
     doctor_schedules := doctor_schedules hospital;
     procedures := procedures hospital;
     readmissions := readmissions hospital;
     billing := billing hospital;
     resource_allocation := resource_allocation hospital;
     fails := fun s => match s with
                       | TrendOccupancy => true
                       | _ => false
                       end |}.

(** A session on which every further statement runs. *)
Definition session (db : Database) : Session :=
  {| tables := db; rejects := fun _ => false |}.

Definition south_star : Branch.row :=
  {| Branch.branch_id := 3; Branch.name := "South Star Hospital";
     Branch.bed_count := 180; Branch.icu_beds := 18 |}.

(** The sample hospital with the further columns, and a third branch
    that has neither admissions nor snapshots. *)
Definition full_hospital : Full.session :=
  let d := new_year_2024 in
  {| Full.admissions := admissions hospital;
     Full.discharges := discharges hospital;
     Full.hospital_branches :=
       [{| Full.branch_row := city_general; Full.city := "Mumbai";
           Full.ventilator_count := 15 |};
        {| Full.branch_row := metro_care; Full.city := "Delhi";
           Full.ventilator_count := 12 |};
        {| Full.branch_row := south_star; Full.city := "Chennai";
           Full.ventilator_count := 14 |}];
     Full.departments :=
       [{| Full.department_row :=
             {| Department.department_id := 10;
                Department.name := "Cardiology";
                Department.branch_id := 1 |};
           Full.code := "CARD" |};
        {| Full.department_row :=
             {| Department.department_id := 20;
                Department.name := "Emergency";
                Department.branch_id := 2 |};
           Full.code := "EMER" |};
        {| Full.department_row :=
             {| Department.department_id := 30;
                Department.name := "Oncology";
                Department.branch_id := 3 |};
           Full.code := "ONC" |}];
     Full.procedures := procedures hospital;
     Full.readmissions := readmissions hospital;
     Full.billing := billing hospital;
     Full.resource_allocation :=
       [{| Full.snapshot_row := snapshot 1 d 196 14;
           Full.ventilators_used := 9 |};
        {| Full.snapshot_row := snapshot 1 (d + 1) 192 19;
           Full.ventilators_used := 14 |};
        {| Full.snapshot_row := snapshot 2 d 130 0;
           Full.ventilators_used := 12 |}];
     Full.rejects := fun _ => false |}.

End Examples.

(** * Properties *)

(** ** Results *)

Lemma execute_ok {A} (db : Database) (s : Stmt) (rows : A) :
  fails db s = false -> execute db s rows = Ok rows.
Proof. unfold execute. now intros ->. Qed.

Lemma execute_raised {A} (db : Database) (s : Stmt) (rows : A) :
  fails db s = true -> execute db s rows = Raised.
Proof. unfold execute. now intros ->. Qed.

(** ** Rounding *)

Lemma round_half_even_comp (p q : Q) :
  (p == q)%Q -> round_half_even p = round_half_even q.
Proof.
  intros H. unfold round_half_even.
  rewrite (Qfloor_comp _ _ H).
  assert (E : (p - inject_Z (Qfloor q) == q - inject_Z (Qfloor q))%Q)
    by now rewrite H.
  now rewrite (Qcompare_comp _ _ E _ _ (Qeq_refl (1 # 2))).
Qed.

Lemma py_round2_comp (p q : Q) : (p == q)%Q -> py_round2 p = py_round2 q.
Proof.
  intros H. unfold py_round2.
  now rewrite (round_half_even_comp (p * 100) (q * 100)) by now rewrite H.
Qed.

(** Rounding to the nearest integer moves a number by at most a half. *)
Lemma round_half_even_near (q : Q) :
  (Qabs (inject_Z (round_half_even q) - q) <= 1 # 2)%Q.
Proof.
  apply Qabs_Qle_condition. unfold round_half_even.
  assert (Hlo := Qfloor_le q). assert (Hhi := Qlt_floor q).
  set (f := Qfloor q) in *.
  assert (Hf : (inject_Z (f + 1) == inject_Z f + 1)%Q)
    by (rewrite inject_Z_plus; reflexivity).
  rewrite Hf in Hhi.
  destruct (q - inject_Z f ?= 1 # 2)%Q eqn:C.
  - apply Qeq_alt in C. destruct (Z.even f); [| rewrite Hf]; lra.
  - apply Qlt_alt in C. lra.
  - apply Qgt_alt in C. rewrite Hf. lra.
Qed.

(** [py_round2] gives a hundredth, at most half a hundredth away. *)
Lemma py_round2_near (q : Q) :
  (exists k : Z, (py_round2 q == inject_Z k / 100)%Q)
  /\ (Qabs (py_round2 q - q) <= 1 # 200)%Q.
Proof.
  unfold py_round2. split.
  - exists (round_half_even (q * 100)). rewrite Qred_correct.
    unfold Qeq, Qdiv. simpl. lia.
  - rewrite Qred_correct.
    assert (H := round_half_even_near (q * 100)).
    apply Qabs_Qle_condition in H. apply Qabs_Qle_condition.
    set (z := round_half_even (q * 100)) in *.
    assert (E : (z # 100 == inject_Z z * (1 # 100))%Q)
      by (unfold Qeq; simpl; lia).
    rewrite E. lra.
Qed.

Lemma round_half_even_le (q : Q) (n : Z) :
  (q <= inject_Z n)%Q -> round_half_even q <= n.
Proof.
  intros H. unfold round_half_even.
  assert (Hf : Qfloor q <= n).
  { apply Qfloor_resp_le in H. now rewrite Qfloor_Z in H. }
  destruct (Z.eq_dec (Qfloor q) n) as [E | E].
  - assert (Hq : (q == inject_Z n)%Q).
    { apply Qle_antisym; [exact H |]. rewrite <- E. apply Qfloor_le. }
    assert (Hc : (q - inject_Z (Qfloor q) ?= 1 # 2)%Q = Lt).
    { rewrite <- Qlt_alt. rewrite E, Hq. now ring_simplify. }
    now rewrite Hc.
  - destruct (_ ?= _)%Q; [destruct (Z.even _) | |]; lia.
Qed.

Lemma round_half_even_ge (q : Q) (n : Z) :
  (inject_Z n <= q)%Q -> n <= round_half_even q.
Proof.
  intros H. unfold round_half_even.
  assert (Hf : n <= Qfloor q).
  { apply Qfloor_resp_le in H. now rewrite Qfloor_Z in H. }
  destruct (_ ?= _)%Q; [destruct (Z.even _) | |]; lia.
Qed.

Lemma py_round2_bounds (q : Q) :
  (0 <= q)%Q -> (q <= 100)%Q ->
  (0 <= py_round2 q)%Q /\ (py_round2 q <= 100)%Q.
Proof.
  intros H0 H1. unfold py_round2. rewrite Qred_correct.
  assert (L : 0 <= round_half_even (q * 100)).
  { apply round_half_even_ge. change (inject_Z 0) with 0%Q.
    apply Qmult_le_0_compat; [exact H0 | discriminate]. }
  assert (U : round_half_even (q * 100) <= 10000).
  { apply round_half_even_le. change (inject_Z 10000) with (100 * 100)%Q.
    apply Qmult_le_compat_r; [exact H1 | discriminate]. }
  unfold Qle; simpl. lia.
Qed.

(** ** Joins, groups and orderings *)

Lemma in_join {A B} (on : A -> B -> bool) (l : list A) (r : list B) a b :
  In (a, b) (Sql.join on l r) <-> In a l /\ In b r /\ on a b = true.
Proof.
  unfold Sql.join. rewrite in_flat_map. split.
  - intros (x & Hx & Hin). apply in_map_iff in Hin as (y & E & Hy).
    inversion E; subst. apply filter_In in Hy. tauto.
  - intros (Ha & Hb & Hon). exists a. split; [exact Ha |].
    apply in_map. apply filter_In. tauto.
Qed.

Lemma count_nonneg {A} (l : list A) : 0 <= count l.
Proof. unfold count. lia. Qed.

Lemma count_nil_iff {A} (l : list A) : count l = 0 <-> l = [].
Proof.
  unfold count. destruct l; simpl; split; intros H; try reflexivity;
    try discriminate; lia.
Qed.

Lemma count_pos_in {A} (l : list A) : 1 <= count l -> exists a, In a l.
Proof.
  destruct l as [| a l]; [unfold count; simpl; lia |].
  intros _. exists a. now left.
Qed.

Lemma count_cons {A} (x : A) (l : list A) : count (x :: l) = 1 + count l.
Proof. unfold count. simpl List.length. lia. Qed.

Lemma count_map {A B} (f : A -> B) (l : list A) : count (map f l) = count l.
Proof. unfold count. now rewrite length_map. Qed.

Lemma avg_some (l : list Q) :
  1 <= count l -> avg l = Some (Qsum l / inject_Z (count l))%Q.
Proof.
  destruct l; [unfold count; simpl; lia | reflexivity].
Qed.

Section GroupByFacts.
Context {A K : Type} (key : A -> K) (eqb : K -> K -> bool).
Hypothesis eqb_eq : forall x y, eqb x y = true <-> x = y.

Lemma eqb_refl_true (x : K) : eqb x x = true.
Proof. now apply eqb_eq. Qed.

Lemma in_distinct (ks : list K) (k : K) :
  In k (Sql.distinct eqb ks) <-> In k ks.
Proof.
  induction ks as [| x r IH]; simpl; [tauto |].
  rewrite filter_In, IH. split.
  - intros [-> | [H _]]; auto.
  - intros [-> | H]; [now left |].
    destruct (eqb x k) eqn:E.
    + left. now apply eqb_eq.
    + right. now split.
Qed.

Lemma NoDup_distinct (ks : list K) : NoDup (Sql.distinct eqb ks).
Proof.
  induction ks as [| x r IH]; simpl; constructor.
  - rewrite filter_In. intros [_ H]. now rewrite eqb_refl_true in H.
  - now apply NoDup_filter.
Qed.

Lemma group_by_keys (l : list A) :
  map fst (Sql.group_by key eqb l) = Sql.distinct eqb (map key l).
Proof.
  unfold Sql.group_by. rewrite map_map. simpl. apply map_id.
Qed.

Lemma NoDup_group_keys (l : list A) :
  NoDup (map fst (Sql.group_by key eqb l)).
Proof. rewrite group_by_keys. apply NoDup_distinct. Qed.

(** A group exists exactly for the keys that occur, and holds the rows
    with that key. *)
Lemma in_group_by (l : list A) (k : K) (rows : list A) :
  In (k, rows) (Sql.group_by key eqb l) <->
  In k (map key l) /\ rows = filter (fun a => eqb k (key a)) l.
Proof.
  unfold Sql.group_by. rewrite in_map_iff. split.
  - intros (k' & E & Hin). inversion E; subst.
    split; [| reflexivity]. exact (proj1 (in_distinct _ _) Hin).
  - intros [Hin ->]. exists k. split; [reflexivity |].
    exact (proj2 (in_distinct _ _) Hin).
Qed.

End GroupByFacts.

Section OrderByFacts.
Context {A : Type} (before : A -> A -> bool).

Lemma insert_perm (x : A) (l : list A) :
  Permutation (Sql.insert before x l) (x :: l).
Proof.
  induction l as [| y r IH]; simpl; [reflexivity |].
  destruct (before y x); [| reflexivity].
  rewrite IH. apply perm_swap.
Qed.

Lemma order_by_perm (l : list A) : Permutation (Sql.order_by before l) l.
Proof.
  induction l as [| x r IH]; simpl; [constructor |].
  rewrite insert_perm. now constructor.
Qed.

Lemma in_order_by (l : list A) (x : A) :
  In x (Sql.order_by before l) <-> In x l.
Proof.
  split; apply Permutation_in;
    [apply order_by_perm | symmetry; apply order_by_perm].
Qed.

End OrderByFacts.

Section AscendingFacts.
Context {A : Type} (key : A -> Z).

Let le (x y : A) : Prop := key x <= key y.

Lemma insert_sorted (x : A) (l : list A) :
  StronglySorted le l -> StronglySorted le (Sql.insert (Sql.asc key) x l).
Proof.
  induction 1 as [| y r Hs IH Hall]; simpl.
  - repeat constructor.
  - unfold Sql.asc at 1. destruct (key y <? key x) eqn:E.
    + apply Z.ltb_lt in E. constructor; [exact IH |].
      apply Forall_forall. intros z Hz.
      apply (Permutation_in _ (insert_perm _ x r)) in Hz.
      destruct Hz as [<- | Hz]; [unfold le; lia |].
      rewrite Forall_forall in Hall. now apply Hall.
    + apply Z.ltb_ge in E. constructor; [now constructor |].
      constructor; [exact E |].
      eapply Forall_impl; [| exact Hall]. unfold le. intros; lia.
Qed.

Lemma order_by_sorted (l : list A) :
  StronglySorted le (Sql.order_by (Sql.asc key) l).
Proof.
  induction l as [| x r IH]; simpl; [constructor |].
  now apply insert_sorted.
Qed.

(** Ordered and without repeated keys is strictly ordered. *)
Lemma sorted_nodup_strict (l : list A) :
  StronglySorted le l -> NoDup (map key l) ->
  StronglySorted Z.lt (map key l).
Proof.
  induction 1 as [| y r Hs IH Hall]; simpl; intros Hnd; constructor.
  - apply IH. now inversion Hnd.
  - inversion Hnd as [| ? ? Hnotin _]; subst.
    apply Forall_forall. intros k Hk.
    apply in_map_iff in Hk as (z & <- & Hz).
    rewrite Forall_forall in Hall. specialize (Hall z Hz). unfold le in Hall.
    assert (key y <> key z) by (intros E; apply Hnotin; rewrite E;
                                now apply in_map).
    lia.
Qed.
End AscendingFacts.

(** ** Keys: joins along a primary key *)

Lemma unique_NoDup (l : list Z) : Schema.unique l = true -> NoDup l.
Proof.
  induction l as [| x r IH]; simpl; intros H; constructor.
  - apply andb_prop in H as [H _]. apply negb_true_iff in H.
    intros Hin. assert (E : existsb (Z.eqb x) r = true).
    { apply existsb_exists. exists x. split; [exact Hin | apply Z.eqb_refl]. }
    congruence.
  - apply IH. now apply andb_prop in H as [_ H].
Qed.

Lemma filter_none {A} (p : A -> bool) (l : list A) :
  (forall a, In a l -> p a = false) -> filter p l = [].
Proof.
  induction l as [| a l IH]; simpl; intros H; [reflexivity |].
  rewrite (H a (or_introl eq_refl)). apply IH. intros; apply H. now right.
Qed.

Section PrimaryKey.
Context {B : Type} (key : B -> Z) (r : list B).
Hypothesis pk : NoDup (map key r).

Lemma pk_inj (x y : B) : In x r -> In y r -> key x = key y -> x = y.
Proof.
  clear -pk. induction r as [| z l IH]; simpl; [tauto |].
  inversion pk as [| ? ? Hnot Hnd]; subst.
  intros [-> | Hx] [-> | Hy] E; try reflexivity.
  - elim Hnot. rewrite E. now apply in_map.
  - elim Hnot. rewrite <- E. now apply in_map.
  - now apply IH.
Qed.

Lemma pk_lookup (b : B) :
  In b r -> filter (fun x => key x =? key b) r = [b].
Proof.
  clear -pk. induction r as [| z l IH]; simpl; [tauto |].
  inversion pk as [| ? ? Hnot Hnd]; subst.
  intros [-> | Hb].
  - rewrite Z.eqb_refl. f_equal.
    apply filter_none. intros x Hx. apply Z.eqb_neq. intros E. apply Hnot. rewrite <- E.
    now apply in_map.
  - destruct (key z =? key b) eqn:E.
    + apply Z.eqb_eq in E. elim Hnot. rewrite E. now apply in_map.
    + now apply IH.
Qed.
End PrimaryKey.

(** Joining to a table along a foreign key into its primary key neither
    drops nor repeats a row. *)
Lemma join_fk_fst {A B} (fk : A -> Z) (key : B -> Z) (l : list A) (r : list B) :
  NoDup (map key r) ->
  (forall a, In a l -> exists b, In b r /\ key b = fk a) ->
  map fst (Sql.join (fun a b => key b =? fk a) l r) = l.
Proof.
  intros pk Hfk. unfold Sql.join.
  induction l as [| a l IH]; simpl; [reflexivity |].
  rewrite map_app, IH by (intros; apply Hfk; now right).
  destruct (Hfk a (or_introl eq_refl)) as (b & Hb & E).
  rewrite <- E, (pk_lookup key r pk b Hb). reflexivity.
Qed.

Lemma map_filter_comm {A B} (f : A -> B) (p : B -> bool) (l : list A) :
  map f (filter (fun a => p (f a)) l) = filter p (map f l).
Proof.
  induction l as [| a l IH]; simpl; [reflexivity |].
  destruct (p (f a)); simpl; now rewrite IH.
Qed.

Lemma filter_filter {A} (p q : A -> bool) (l : list A) :
  filter q (filter p l) = filter (fun a => p a && q a) l.
Proof.
  induction l as [| a l IH]; simpl; [reflexivity |].
  destruct (p a); simpl; [destruct (q a) |]; now rewrite IH.
Qed.

(** ** KPI aggregator *)

Section KpiSummary.
Variable db : Database.
Variables branch_ids department_ids : option (list Z).
Variables date_from date_to : option Z.

Local Abbreviation cohort :=
  (Kpis.adm db branch_ids department_ids date_from date_to).

Lemma adm_in (ad : Admission.row * Discharge.row) :
  In ad cohort ->
  In (fst ad) (admissions db) /\ In (snd ad) (discharges db)
  /\ Discharge.admission_id (snd ad) = Admission.admission_id (fst ad)
  /\ Kpis.where_clause branch_ids department_ids date_from date_to (fst ad)
     = true.
Proof.
  unfold Kpis.adm. intros H. apply filter_In in H as [Hj Hw].
  destruct ad as [a d]. apply in_join in Hj as (Ha & Hd & E).
  apply Z.eqb_eq in E. simpl in *. tauto.
Qed.

Lemma count_where_cons {A} (f : A -> bool) (x : A) (l : list A) :
  Sql.count_where f (x :: l)
  = (if f x then 1 else 0) + Sql.count_where f l.
Proof.
  unfold Sql.count_where. simpl. destruct (f x); [apply count_cons | lia].
Qed.

(** A non-null outcome code falls in exactly one bucket. *)
Lemma one_bucket (c : string) :
  (if (c =? "Recovered")%string then 1 else 0)
  + (if (c =? "Improved")%string then 1 else 0)
  + (if (c =? "Transferred")%string then 1 else 0)
  + (if (c =? "Deceased")%string then 1 else 0)
  + (if negb (existsb (String.eqb c) Kpis.known_outcomes) then 1 else 0)
  = 1.
Proof.
  unfold Kpis.known_outcomes, existsb.
  destruct (String.eqb_spec c "Recovered") as [-> | _]; [reflexivity |].
  destruct (String.eqb_spec c "Improved") as [-> | _]; [reflexivity |].
  destruct (String.eqb_spec c "Transferred") as [-> | _]; [reflexivity |].
  destruct (String.eqb_spec c "Deceased") as [-> | _]; reflexivity.
Qed.

Lemma outcome_partition (rows : list (Admission.row * Discharge.row)) :
  (forall ad, In ad rows -> Discharge.outcome_code (snd ad) <> None) ->
  Sql.count_where (Kpis.outcome_is "Recovered") rows
  + Sql.count_where (Kpis.outcome_is "Improved") rows
  + Sql.count_where (Kpis.outcome_is "Transferred") rows
  + Sql.count_where (Kpis.outcome_is "Deceased") rows
  + Sql.count_where Kpis.outcome_is_other rows
  = count rows.
Proof.
  induction rows as [| ad r IH]; intros Hnn; [reflexivity |].
  assert (Hr := IH (fun x Hx => Hnn x (or_intror Hx))).
  specialize (Hnn ad (or_introl eq_refl)).
  rewrite !count_where_cons, count_cons.
  unfold Kpis.outcome_is at 1 3 5 7.
  unfold Kpis.outcome_is_other at 1.
  destruct (Discharge.outcome_code (snd ad)) as [c |]; [| congruence].
  assert (H1 := one_bucket c). simpl Sql.holds.
  unfold Sql.holds, Sql.eq_text, Sql.not3, Sql.in_text, option_map.
  clear IH. unfold Kpis.known_outcomes, existsb in H1 |- *.
  destruct (c =? "Recovered")%string, (c =? "Improved")%string,
    (c =? "Transferred")%string, (c =? "Deceased")%string;
    cbv [negb orb] in H1 |- *; lia.
Qed.

(** C2: the five outcome buckets of the summary add up to its
    [total_discharges], for every cohort filter, provided every discharge
    row carries an outcome code. *)
Theorem outcome_buckets_sum_to_discharges :
  fails db KpiCore = false ->
  Schema.outcome_code_not_null db = true ->
  exists s,
    Kpis.get_kpi_summary db branch_ids department_ids date_from date_to
    = Ok s
    /\ Kpis.outcome_recovered s + Kpis.outcome_improved s
       + Kpis.outcome_transferred s + Kpis.outcome_deceased s
       + Kpis.outcome_other s
       = Kpis.total_discharges s.
Proof.
  intros Hc Hnn. unfold Kpis.get_kpi_summary.
  rewrite (execute_ok _ _ _ Hc). simpl bind.
  destruct (_ =? 0) eqn:E; eexists; (split; [reflexivity |]);
    [reflexivity |].
  simpl. apply outcome_partition.
  intros ad Had. apply adm_in in Had as (_ & Hd & _).
  unfold Schema.outcome_code_not_null in Hnn.
  rewrite forallb_forall in Hnn. specialize (Hnn _ Hd).
  destruct (Discharge.outcome_code (snd ad)); congruence.
Qed.

(** C3: a filter that matches no closed episode yields the all-zero
    summary, not an error. *)
Theorem empty_cohort_all_zero :
  fails db KpiCore = false ->
  Kpis.adm db branch_ids department_ids date_from date_to = [] ->
  exists s,
    Kpis.get_kpi_summary db branch_ids department_ids date_from date_to
    = Ok s
    /\ Kpis.avg_length_of_stay_days s = 0%Q
    /\ Kpis.bed_occupancy_rate_pct s = 0%Q
    /\ Kpis.total_admissions s = 0
    /\ Kpis.total_discharges s = 0
    /\ Kpis.readmission_rate_30d_pct s = 0%Q
    /\ Kpis.procedure_volume s = 0
    /\ Kpis.emergency_cases_count s = 0
    /\ Kpis.scheduled_cases_count s = 0
    /\ Kpis.doctor_utilization_pct s = 0%Q
    /\ Kpis.cost_per_discharge_inr s = 0%Q
    /\ Kpis.outcome_recovered s = 0
    /\ Kpis.outcome_improved s = 0
    /\ Kpis.outcome_transferred s = 0
    /\ Kpis.outcome_deceased s = 0
    /\ Kpis.outcome_other s = 0.
Proof.
  intros Hc He. unfold Kpis.get_kpi_summary.
  rewrite (execute_ok _ _ _ Hc). simpl bind.
  destruct (_ =? 0) eqn:E.
  - exists Kpis._empty_kpi. repeat split.
  - apply Z.eqb_neq in E. simpl in E.
    rewrite He in E. now elim E.
Qed.

(** C4: with a non-empty cohort, a secondary statement that raises
    leaves its field at zero and the summary is still returned. *)
Theorem secondary_failures_degrade_to_zero :
  fails db KpiCore = false ->
  Kpis.adm db branch_ids department_ids date_from date_to <> [] ->
  exists s,
    Kpis.get_kpi_summary db branch_ids department_ids date_from date_to
    = Ok s
    /\ (fails db KpiProcedures = true -> Kpis.procedure_volume s = 0)
    /\ (fails db KpiReadmissions = true ->
        Kpis.readmission_rate_30d_pct s = 0%Q)
    /\ (fails db KpiOccupancy = true -> Kpis.bed_occupancy_rate_pct s = 0%Q)
    /\ (fails db KpiUtilization = true ->
        Kpis.doctor_utilization_pct s = 0%Q)
    /\ (fails db KpiBilling = true -> Kpis.cost_per_discharge_inr s = 0%Q).
Proof.
  intros Hc Hne. unfold Kpis.get_kpi_summary.
  rewrite (execute_ok _ _ _ Hc). simpl bind.
  destruct (_ =? 0) eqn:E.
  { apply Z.eqb_eq in E. simpl in E.
    now apply count_nil_iff in E. }
  eexists. split; [reflexivity |]. simpl.
  repeat split; intros Hf; rewrite (execute_raised _ _ _ Hf); simpl;
    reflexivity.
Qed.

(** Every readmitted prior episode of the cohort is one of its closed
    episodes, so there are no more of them than discharges. *)
Lemma readmitted_le_discharged :
  Schema.readmission_follows_discharge db = true ->
  0 <= Kpis.readm_query db branch_ids department_ids date_from date_to
    <= count cohort.
Proof.
  intros Hfk. unfold Kpis.readm_query, Sql.count_distinct.
  split; [apply count_nonneg |].
  rewrite <- (count_map (fun ad => Admission.admission_id (fst ad)) cohort).
  unfold count. apply inj_le. apply NoDup_incl_length; [apply NoDup_nodup |].
  intros id Hid. apply nodup_In in Hid.
  apply in_map_iff in Hid as ([r a] & <- & Hin).
  apply filter_In in Hin as [Hj Hw]. simpl in Hw.
  apply in_join in Hj as (Hr & Ha & E). apply Z.eqb_eq in E.
  unfold Schema.readmission_follows_discharge in Hfk.
  rewrite forallb_forall in Hfk. specialize (Hfk _ Hr).
  apply existsb_exists in Hfk as (d & Hd & Ed). apply Z.eqb_eq in Ed.
  simpl. rewrite <- E.
  change (Admission.admission_id a)
    with ((fun ad : Admission.row * Discharge.row =>
             Admission.admission_id (fst ad)) (a, d)).
  apply in_map. unfold Kpis.adm. apply filter_In. split.
  - apply in_join. repeat split; [exact Ha | exact Hd |].
    apply Z.eqb_eq. congruence.
  - exact Hw.
Qed.

Lemma rate_bounds (n t : Z) :
  0 <= n <= t -> 1 <= t ->
  (0 <= inject_Z n / inject_Z t * 100)%Q
  /\ (inject_Z n / inject_Z t * 100 <= 100)%Q.
Proof.
  intros Hn Ht.
  assert (Hpos : (0 < inject_Z t)%Q).
  { change 0%Q with (inject_Z 0). rewrite <- Zlt_Qlt. lia. }
  split.
  - apply Qmult_le_0_compat; [| discriminate].
    apply Qle_shift_div_l; [exact Hpos |]. rewrite Qmult_0_l.
    change 0%Q with (inject_Z 0). rewrite <- Zle_Qle. lia.
  - rewrite <- (Qmult_1_l 100) at 2.
    apply Qmult_le_compat_r; [| discriminate].
    apply Qle_shift_div_r; [exact Hpos |]. rewrite Qmult_1_l.
    rewrite <- Zle_Qle. lia.
Qed.

(** C8: the readmission rate of the summary lies in [0, 100] when the
    cohort has a discharge, and is 0 when it has none. *)
Theorem readmission_rate_in_range :
  fails db KpiCore = false ->
  Schema.readmission_follows_discharge db = true ->
  exists s,
    Kpis.get_kpi_summary db branch_ids department_ids date_from date_to
    = Ok s
    /\ Kpis.total_discharges s
       = count (Kpis.adm db branch_ids department_ids date_from date_to)
    /\ (1 <= Kpis.total_discharges s ->
        (0 <= Kpis.readmission_rate_30d_pct s)%Q
        /\ (Kpis.readmission_rate_30d_pct s <= 100)%Q)
    /\ (Kpis.total_discharges s = 0 ->
        Kpis.readmission_rate_30d_pct s = 0%Q).
Proof.
  intros Hc Hfk. unfold Kpis.get_kpi_summary.
  rewrite (execute_ok _ _ _ Hc). simpl bind.
  destruct (_ =? 0) eqn:E.
  - apply Z.eqb_eq in E. simpl in E.
    exists Kpis._empty_kpi. simpl. rewrite E.
    repeat split; try discriminate; lia.
  - apply Z.eqb_neq in E. simpl in E.
    eexists. split; [reflexivity |]. simpl.
    split; [reflexivity |]. split; [| intros H0; contradiction].
    intros H1.
    assert (Ht : or_one (count cohort) = count cohort).
    { unfold or_one. destruct (count cohort =? 0) eqn:E0;
        [apply Z.eqb_eq in E0; contradiction | reflexivity]. }
    rewrite Ht.
    assert (Hn : 0 <= try_except
                        (execute db KpiReadmissions
                           (Kpis.readm_query db branch_ids department_ids
                              date_from date_to)) 0
                 <= count cohort).
    { unfold execute. destruct (fails db KpiReadmissions); simpl;
        [lia | now apply readmitted_le_discharged]. }
    destruct (rate_bounds _ _ Hn H1) as [L U].
    now apply py_round2_bounds.
Qed.
End KpiSummary.

(** ** Bottleneck detector *)

Lemma Qsum_inject (l : list Z) : (Qsum (map inject_Z l) == inject_Z (Zsum l))%Q.
Proof.
  induction l as [| x r IH]; simpl; [reflexivity |].
  rewrite IH. now rewrite inject_Z_plus.
Qed.

Section GroupSizes.
Context {A K : Type} (key : A -> K) (eqb : K -> K -> bool).
Hypothesis eqb_eq : forall x y, eqb x y = true <-> x = y.

Lemma indicator_sum (ks : list K) (x : K) :
  NoDup ks -> In x ks ->
  Zsum (map (fun k => if eqb k x then 1 else 0) ks) = 1.
Proof.
  induction 1 as [| k r Hk Hnd IH]; simpl; [tauto |].
  intros [-> | Hin].
  - rewrite (eqb_refl_true eqb eqb_eq).
    assert (Z0 : Zsum (map (fun k => if eqb k x then 1 else 0) r) = 0).
    { clear IH Hnd. induction r as [| y r IHr]; simpl; [reflexivity |].
      destruct (eqb y x) eqn:E.
      - apply eqb_eq in E. subst. elim Hk. now left.
      - apply IHr. intros H. apply Hk. now right. }
    lia.
  - destruct (eqb k x) eqn:E.
    + apply eqb_eq in E. subst. contradiction.
    + now rewrite IH.
Qed.

Lemma Zsum_map_add (f g : K -> Z) (ks : list K) :
  Zsum (map (fun k => f k + g k) ks) = Zsum (map f ks) + Zsum (map g ks).
Proof. induction ks as [| k r IH]; simpl; [reflexivity | lia]. Qed.

Lemma filter_sizes_sum (ks : list K) (l : list A) :
  NoDup ks -> (forall a, In a l -> In (key a) ks) ->
  Zsum (map (fun k => count (filter (fun a => eqb k (key a)) l)) ks)
  = count l.
Proof.
  intros Hnd. induction l as [| a l IH]; intros Hin.
  - clear. induction ks as [| k r IHr]; [reflexivity |].
    change (0 + Zsum (map (fun k => count (filter (fun a => eqb k (key a))
                                             (@nil A))) r) = 0).
    change (@count A []) with 0 in IHr. now rewrite IHr.
  - rewrite (map_ext _
               (fun k => (if eqb k (key a) then 1 else 0)
                         + count (filter (fun a => eqb k (key a)) l))).
    + rewrite Zsum_map_add, IH by (intros; apply Hin; now right).
      rewrite (indicator_sum ks (key a) Hnd (Hin a (or_introl eq_refl))).
      now rewrite count_cons.
    + intros k. simpl. destruct (eqb k (key a)); [apply count_cons | lia].
Qed.

(** The groups partition the rows. *)
Lemma group_sizes_sum (l : list A) :
  Zsum (map (fun g => count (snd g)) (Sql.group_by key eqb l)) = count l.
Proof.
  unfold Sql.group_by. rewrite map_map. simpl.
  apply filter_sizes_sum.
  - now apply NoDup_distinct.
  - intros a Ha. apply (in_distinct eqb eqb_eq). now apply in_map.
Qed.
End GroupSizes.

Lemma Qlt_bool_iff (x y : Q) : Sql.Qlt_bool x y = true <-> (x < y)%Q.
Proof.
  unfold Sql.Qlt_bool. rewrite negb_true_iff. split.
  - intros H. apply Qnot_le_lt. intros L. apply Qle_bool_iff in L. congruence.
  - intros H. destruct (Qle_bool y x) eqn:E; [| reflexivity].
    apply Qle_bool_iff in E. now apply Qlt_not_le in H.
Qed.

Lemma Zeqb_eq_sym (x y : Z) : (x =? y) = true <-> x = y.
Proof. apply Z.eqb_eq. Qed.

Section PeakHours.
Variable db : Database.
Variable today : Z.
Variable branch_ids : option (list Z).
Variables date_from date_to : option Z.

(** The admissions in the date range, after the defaults are applied. *)
Local Abbreviation ranged :=
  (filter (Predictions.in_range branch_ids
             (or_default date_from (today - 30)) (or_default date_to today))
     (admissions db)).

Local Abbreviation flags :=
  (Predictions.get_bottlenecks db today branch_ids date_from date_to).

Local Abbreviation hourly :=
  (Predictions.hourly db branch_ids
     (or_default date_from (today - 30)) (or_default date_to today)).

Lemma in_hourly (h n : Z) :
  In (h, n) hourly <->
  In h (map (fun a => hour_of (Admission.admission_at a)) ranged)
  /\ n = Sql.count_where
           (fun a => h =? hour_of (Admission.admission_at a)) ranged.
Proof.
  unfold Predictions.hourly. rewrite in_map_iff. split.
  - intros ([k rows] & E & Hg). inversion E; subst. simpl.
    apply (in_group_by _ Z.eqb Zeqb_eq_sym) in Hg as [Hk ->]. now split.
  - intros [Hk ->].
    exists (h, filter (fun a => h =? hour_of (Admission.admission_at a))
                 ranged).
    split; [reflexivity |].
    now apply (in_group_by _ Z.eqb Zeqb_eq_sym).
Qed.

Lemma hourly_total :
  (Qsum (map (fun r => inject_Z (snd r)) hourly)
   == inject_Z (count ranged))%Q.
Proof.
  rewrite <- (map_map snd inject_Z), Qsum_inject.
  unfold Predictions.hourly. rewrite map_map. simpl.
  now rewrite (group_sizes_sum _ Z.eqb Zeqb_eq_sym).
Qed.

Lemma count_where_zero {A} (f : A -> bool) (l : list A) :
  (forall a, In a l -> f a = false) -> Sql.count_where f l = 0.
Proof.
  intros H. unfold Sql.count_where.
  induction l as [| a l IH]; simpl; [reflexivity |].
  rewrite (H a (or_introl eq_refl)). apply IH. intros; apply H. now right.
Qed.

(** C5: a peak-hour surplus flag is emitted for hour [h] exactly when
    the admissions of that hour exceed twice the total divided by 24;
    the flag carries that count, and a count equal to twice the mean is
    not flagged. *)
Theorem peak_hour_flag_iff (h : Z) :
  fails db BottleneckPeak = false ->
  let at_hour := Sql.count_where
                   (fun a => h =? hour_of (Admission.admission_at a))
                   ranged in
  let mean := (inject_Z (count ranged) / 24)%Q in
  (forall n, In (Predictions.peak_hour_surplus h n) flags <->
             n = at_hour /\ (2 * mean < inject_Z at_hour)%Q)
  /\ ((inject_Z at_hour == 2 * mean)%Q ->
      forall n, ~ In (Predictions.peak_hour_surplus h n) flags).
Proof.
  intros Hok at_hour mean.
  assert (Hflags : forall n,
    In (Predictions.peak_hour_surplus h n) flags <->
    n = at_hour /\ (2 * mean < inject_Z at_hour)%Q).
  { intros n. unfold Predictions.get_bottlenecks.
    rewrite in_app_iff. rewrite (execute_ok _ _ _ Hok). simpl bind.
    simpl try_except at 2.
    split.
    - intros [Hd | Hp].
      + exfalso. unfold try_except, execute in Hd.
        destruct (fails db BottleneckDelay); simpl in Hd; [tauto |].
        apply in_map_iff in Hd as (r & E & _). discriminate.
      + apply in_map_iff in Hp as ([h' n'] & E & Hin). inversion E; subst.
        unfold Predictions.peak_query in Hin.
        apply in_order_by in Hin. apply filter_In in Hin as [Hin Hc].
        apply in_hourly in Hin as [Hk ->]. split; [reflexivity |].
        unfold Predictions.avg_per_hour in Hc.
        destruct hourly eqn:Eh.
        * discriminate.
        * rewrite <- Eh in Hc. simpl snd in Hc.
          apply Qlt_bool_iff in Hc. unfold mean.
          now rewrite <- hourly_total.
    - intros [-> Hlt]. right.
      apply in_map_iff. exists (h, at_hour). split; [reflexivity |].
      assert (Hk : In h (map (fun a => hour_of (Admission.admission_at a))
                           ranged)).
      { destruct (in_dec Z.eq_dec h
                    (map (fun a => hour_of (Admission.admission_at a))
                       ranged)) as [Hin | Hnot]; [exact Hin |].
        exfalso.
        assert (Z0 : at_hour = 0).
        { apply count_where_zero. intros a Ha. apply Z.eqb_neq.
          intros ->. apply Hnot.
          now apply (in_map (fun a => hour_of (Admission.admission_at a))). }
        rewrite Z0 in Hlt. apply (Qlt_not_le _ _ Hlt).
        apply Qmult_le_0_compat; [discriminate |]. unfold mean.
        apply Qle_shift_div_l; [reflexivity |]. rewrite Qmult_0_l.
        change 0%Q with (inject_Z 0). rewrite <- Zle_Qle.
        apply count_nonneg. }
      assert (Hin : In (h, at_hour) hourly) by now apply in_hourly.
      unfold Predictions.peak_query. apply in_order_by. apply filter_In.
      split; [exact Hin |].
      unfold Predictions.avg_per_hour.
      destruct hourly eqn:Eh; [contradiction |].
      rewrite <- Eh. simpl snd. apply Qlt_bool_iff.
      rewrite hourly_total. exact Hlt. }
  split; [exact Hflags |].
  intros Heq n Hin. apply Hflags in Hin as [_ Hlt].
  rewrite Heq in Hlt. now apply Qlt_irrefl in Hlt.
Qed.
End PeakHours.

Section DelayedDischarge.
Variable db : Database.
Variable today : Z.
Variable branch_ids : option (list Z).
Variables date_from date_to : option Z.

Hypothesis branch_pk : Schema.branch_pk db = true.
Hypothesis department_pk : Schema.department_pk db = true.
Hypothesis admission_fk : Schema.admission_fk db = true.

Local Abbreviation from_ := (or_default date_from (today - 30)).
Local Abbreviation to_ := (or_default date_to today).

(** The closed episodes: admissions joined to their discharge. *)
Local Abbreviation episodes :=
  (Sql.join (fun a dis => Discharge.admission_id dis
                          =? Admission.admission_id a)
     (admissions db) (discharges db)).

Lemma fk_of_admission (a : Admission.row) :
  In a (admissions db) ->
  (exists b, In b (hospital_branches db)
             /\ Branch.branch_id b = Admission.branch_id a)
  /\ (exists dp, In dp (departments db)
                 /\ Department.department_id dp = Admission.department_id a).
Proof.
  intros Ha. unfold Schema.admission_fk in admission_fk.
  rewrite forallb_forall in admission_fk.
  specialize (admission_fk a Ha). apply andb_prop in admission_fk as [H1 H2].
  apply existsb_exists in H1 as (b & Hb & E1).
  apply existsb_exists in H2 as (dp & Hdp & E2).
  apply Z.eqb_eq in E1, E2. split; eauto.
Qed.

Lemma stays_episodes :
  map Predictions.stay_episode (Predictions.stays db) = episodes.
Proof.
  transitivity (map fst (map fst (Predictions.stays db)));
    [now rewrite map_map |].
  unfold Predictions.stays.
  rewrite (join_fk_fst (fun adb : Admission.row * Discharge.row * Branch.row =>
                          Admission.department_id (fst (fst adb)))
             Department.department_id).
  - apply (join_fk_fst (fun ad : Admission.row * Discharge.row =>
                          Admission.branch_id (fst ad))
             Branch.branch_id).
    + now apply unique_NoDup.
    + intros [a d] Hin. apply in_join in Hin as (Ha & _).
      now apply fk_of_admission.
  - now apply unique_NoDup.
  - intros [[a d] b] Hin. apply in_join in Hin as (Hin & _).
    apply in_join in Hin as (Ha & _). now apply fk_of_admission.
Qed.

Lemma in_stays (s : Predictions.Stay) :
  In s (Predictions.stays db) ->
  In (Predictions.stay_branch s) (hospital_branches db)
  /\ Branch.branch_id (Predictions.stay_branch s)
     = Admission.branch_id (Predictions.stay_admission s)
  /\ In (Predictions.stay_department s) (departments db)
  /\ Department.department_id (Predictions.stay_department s)
     = Admission.department_id (Predictions.stay_admission s).
Proof.
  destruct s as [[[a d] b] dp]. unfold Predictions.stays. intros H.
  apply in_join in H as (H & Hdp & E2). apply in_join in H as (_ & Hb & E1).
  apply Z.eqb_eq in E1, E2. simpl in *. tauto.
Qed.

(** Among the joined rows, the grouping key is decided by the branch and
    department identifiers: the names follow from them. *)
Lemma delay_key_ids (s s0 : Predictions.Stay) :
  In s (Predictions.stays db) -> In s0 (Predictions.stays db) ->
  Predictions.delay_key_eqb (Predictions.delay_key s0)
    (Predictions.delay_key s)
  = (Admission.branch_id (Predictions.stay_admission s0)
     =? Admission.branch_id (Predictions.stay_admission s))
    && (Admission.department_id (Predictions.stay_admission s0)
        =? Admission.department_id (Predictions.stay_admission s)).
Proof.
  intros Hs Hs0.
  apply in_stays in Hs as (Hb & Eb & Hd & Ed).
  apply in_stays in Hs0 as (Hb0 & Eb0 & Hd0 & Ed0).
  unfold Predictions.delay_key_eqb, Predictions.delay_key. simpl.
  destruct (Z.eqb_spec (Admission.branch_id (Predictions.stay_admission s0))
              (Admission.branch_id (Predictions.stay_admission s)))
    as [E1 | N1]; [| reflexivity].
  destruct (Z.eqb_spec
              (Admission.department_id (Predictions.stay_admission s0))
              (Admission.department_id (Predictions.stay_admission s)))
    as [E2 | N2]; [| now rewrite !andb_false_r].
  assert (Predictions.stay_branch s = Predictions.stay_branch s0) as ->.
  { apply (pk_inj Branch.branch_id (hospital_branches db));
      [now apply unique_NoDup | assumption | assumption | congruence]. }
  assert (Predictions.stay_department s
          = Predictions.stay_department s0) as ->.
  { apply (pk_inj Department.department_id (departments db));
      [now apply unique_NoDup | assumption | assumption | congruence]. }
  now rewrite !String.eqb_refl.
Qed.

Local Abbreviation long_cond :=
  (fun e : Admission.row * Discharge.row =>
     Predictions.in_range branch_ids from_ to_ (fst e)
     && Sql.Qlt_bool 14 (Kpis.los_days e)).

Local Abbreviation long_rows :=
  (filter (fun s => Predictions.in_range branch_ids from_ to_
                      (Predictions.stay_admission s)
                    && Sql.Qlt_bool 14 (Predictions.stay_los s))
     (Predictions.stays db)).

Local Abbreviation group_cond b d :=
  (fun e : Admission.row * Discharge.row =>
     (b =? Admission.branch_id (fst e))
     && (d =? Admission.department_id (fst e))).

(** The rows of one group are the long stays of its branch and
    department. *)
Lemma group_rows_episodes (s0 : Predictions.Stay) :
  In s0 long_rows ->
  map Predictions.stay_episode
    (filter (fun s => Predictions.delay_key_eqb (Predictions.delay_key s0)
                        (Predictions.delay_key s))
       long_rows)
  = filter (fun e =>
              long_cond e
              && group_cond
                   (Admission.branch_id (Predictions.stay_admission s0))
                   (Admission.department_id (Predictions.stay_admission s0))
                   e)
      episodes.
Proof.
  intros H0. apply filter_In in H0 as [H0 _].
  rewrite (filter_ext_in _
             (fun s => group_cond
                         (Admission.branch_id (Predictions.stay_admission s0))
                         (Admission.department_id
                            (Predictions.stay_admission s0))
                         (Predictions.stay_episode s))).
  - rewrite filter_filter.
    rewrite (map_filter_comm Predictions.stay_episode
               (fun e => long_cond e
                         && group_cond
                              (Admission.branch_id
                                 (Predictions.stay_admission s0))
                              (Admission.department_id
                                 (Predictions.stay_admission s0)) e)).
    now rewrite stays_episodes.
  - intros s Hs. apply filter_In in Hs as [Hs _].
    now apply delay_key_ids.
Qed.

Lemma delay_key_eqb_eq (k1 k2 : Z * string * Z * string) :
  Predictions.delay_key_eqb k1 k2 = true <-> k1 = k2.
Proof.
  destruct k1 as [[[b1 n1] d1] m1], k2 as [[[b2 n2] d2] m2].
  unfold Predictions.delay_key_eqb. simpl.
  rewrite !andb_true_iff, !Z.eqb_eq, !String.eqb_eq. split.
  - intros [[[-> ->] ->] ->]. reflexivity.
  - intros E. inversion E. tauto.
Qed.

Local Abbreviation group_of s0 :=
  (filter (fun s => Predictions.delay_key_eqb (Predictions.delay_key s0)
                      (Predictions.delay_key s))
     long_rows).

Lemma in_delay_query (r : Predictions.DelayRow.t) :
  In r (Predictions.delay_query db branch_ids from_ to_) <->
  exists s0,
    In s0 long_rows
    /\ 5 <= count (group_of s0)
    /\ r = {| Predictions.DelayRow.branch_id :=
                Admission.branch_id (Predictions.stay_admission s0);
              Predictions.DelayRow.branch_name :=
                Branch.name (Predictions.stay_branch s0);
              Predictions.DelayRow.department_id :=
                Admission.department_id (Predictions.stay_admission s0);
              Predictions.DelayRow.dept_name :=
                Department.name (Predictions.stay_department s0);
              Predictions.DelayRow.long_stay_count := count (group_of s0);
              Predictions.DelayRow.avg_los :=
                avg (map Predictions.stay_los (group_of s0)) |}.
Proof.
  unfold Predictions.delay_query. rewrite in_order_by, filter_In, in_map_iff.
  split.
  - intros [([k rows] & <- & Hg) H5].
    apply (in_group_by _ _ delay_key_eqb_eq) in Hg as [Hk ->].
    apply in_map_iff in Hk as (s0 & <- & Hs0).
    exists s0. simpl in H5. apply Z.leb_le in H5.
    repeat split; assumption.
  - intros (s0 & Hs0 & H5 & ->). split.
    + exists (Predictions.delay_key s0, group_of s0). split; [reflexivity |].
      apply (in_group_by _ _ delay_key_eqb_eq). split; [| reflexivity].
      now apply in_map.
    + simpl. now apply Z.leb_le.
Qed.

Lemma in_episodes_stay (e : Admission.row * Discharge.row) :
  In e episodes ->
  exists s, In s (Predictions.stays db) /\ Predictions.stay_episode s = e.
Proof.
  rewrite <- stays_episodes. intros H.
  apply in_map_iff in H as (s & E & Hs). eauto.
Qed.

End DelayedDischarge.

(** ** Calendar *)

Lemma all_from_spec (f : Z -> bool) (n : nat) (start : Z) :
  all_from f start n = true ->
  forall z, start <= z < start + Z.of_nat n -> f z = true.
Proof.
  revert start. induction n as [| k IH]; intros start H z Hz; [lia |].
  simpl in H. apply andb_prop in H as [H0 H1].
  destruct (Z.eq_dec z start) as [-> | N]; [exact H0 |].
  apply (IH (start + 1) H1). lia.
Qed.

Lemma all_below_spec (n : Z) (f : Z -> bool) :
  all_below n f = true -> forall z, 0 <= z < n -> f z = true.
Proof.
  unfold all_below. intros H z Hz. apply (all_from_spec f _ 0 H). lia.
Qed.

Import Calendar.

(** Every day of a 400-year era converts to a calendar date that converts
    back to it. *)
Lemma era_days_check :
  all_below 146097 (fun doe =>
    let c := civil_of_doe doe in
    let yoe := if month c <=? 2 then year c - 1 else year c in
    (doe_of_civil yoe (month c) (day c) =? doe)
    && (0 <=? yoe) && (yoe <? 400)
    && (1 <=? month c) && (month c <=? 12)
    && (1 <=? day c) && (day c <=? 31)
    && (if year c =? 0 then doe <? 306 else true)
    && (if year c =? 400 then 146037 <=? doe else true)) = true.
Proof. vm_cast_no_check (eq_refl true). Qed.

(** The first day of every month of an era converts back to that month. *)
Lemma era_months_check :
  all_below 400 (fun yoe =>
    all_below 12 (fun m' =>
      let m := m' + 1 in
      let doe := doe_of_civil yoe m 1 in
      let c := civil_of_doe doe in
      (0 <=? doe) && (doe <? 146097)
      && (year c =? (if m <=? 2 then yoe + 1 else yoe))
      && (month c =? m) && (day c =? 1))) = true.
Proof. vm_cast_no_check (eq_refl true). Qed.


(** Zero-padded years and two-digit fields have a fixed width and read
    back as the number they show. *)
Lemma year_digits_check :
  all_below 10000 (fun y =>
    (String.length (zero_pad 4 y) =? 4)%nat
    && match NilZero.uint_of_string (zero_pad 4 y) with
       | Some u => Z.of_uint u =? y
       | None => false
       end) = true.
Proof. vm_cast_no_check (eq_refl true). Qed.

Lemma two_digits_check :
  all_below 100 (fun n =>
    (String.length (zero_pad 2 n) =? 2)%nat
    && match NilZero.uint_of_string (zero_pad 2 n) with
       | Some u => Z.of_uint u =? n
       | None => false
       end) = true.
Proof. vm_cast_no_check (eq_refl true). Qed.

Lemma civil_of_doe_facts (doe : Z) :
  0 <= doe < 146097 ->
  let c := civil_of_doe doe in
  let yoe := if month c <=? 2 then year c - 1 else year c in
  doe_of_civil yoe (month c) (day c) = doe
  /\ 0 <= yoe < 400
  /\ 1 <= month c <= 12
  /\ 1 <= day c <= 31
  /\ (year c = 0 -> doe < 306)
  /\ (year c = 400 -> 146037 <= doe).
Proof.
  intros H. assert (C := all_below_spec _ _ era_days_check doe H).
  cbv beta zeta in C |- *.
  repeat (apply andb_prop in C as [C ?]).
  repeat match goal with
         | H : (_ =? _) = true |- _ => apply Z.eqb_eq in H
         | H : (_ <=? _) = true |- _ => apply Z.leb_le in H
         | H : (_ <? _) = true |- _ => apply Z.ltb_lt in H
         end.
  repeat split; try lia.
  - intros E. rewrite E in *. simpl in *. lia.
  - intros E. rewrite E in *. simpl in *. lia.
Qed.

(** [days_from_civil] inverts [civil_from_days]. *)
Lemma days_from_civil_from_days (z : Z) :
  let c := civil_from_days z in
  days_from_civil (year c) (month c) (day c) = z.
Proof.
  unfold civil_from_days, days_from_civil, days_per_era, era_shift.
  cbv zeta. cbn [year month day].
  assert (Hm : 0 <= (z + 306) mod 146097 < 146097)
    by (apply Z.mod_pos_bound; lia).
  assert (Hd := Z.div_mod (z + 306) 146097 ltac:(lia)).
  destruct (civil_of_doe_facts _ Hm) as (Hr & Hy & _).
  cbv zeta in Hr, Hy.
  set (c := civil_of_doe ((z + 306) mod 146097)) in *.
  set (era := (z + 306) / 146097) in *.
  set (yoe := if month c <=? 2 then year c - 1 else year c) in *.
  assert (E : (if month c <=? 2 then year c + 400 * era - 1
               else year c + 400 * era) = 400 * era + yoe).
  { unfold yoe. destruct (month c <=? 2); lia. }
  rewrite E.
  rewrite <- (Z.div_unique (400 * era + yoe) 400 era yoe) by lia.
  rewrite <- (Z.mod_unique (400 * era + yoe) 400 era yoe) by lia.
  rewrite Hr. lia.
Qed.

Lemma civil_from_days_inj (z1 z2 : Z) :
  civil_from_days z1 = civil_from_days z2 -> z1 = z2.
Proof.
  intros E. rewrite <- (days_from_civil_from_days z1),
    <- (days_from_civil_from_days z2). cbv zeta. now rewrite E.
Qed.

(** Dates a Python [date] can hold have a year from 1 to 9999. *)
Lemma civil_from_days_range (z : Z) :
  date_min <= z <= date_max ->
  let c := civil_from_days z in
  1 <= year c <= 9999 /\ 1 <= month c <= 12 /\ 1 <= day c <= 31.
Proof.
  unfold date_min, date_max, civil_from_days, days_per_era, era_shift.
  intros Hz. cbv zeta. cbn [year month day].
  assert (Hm : 0 <= (z + 306) mod 146097 < 146097)
    by (apply Z.mod_pos_bound; lia).
  assert (Hd := Z.div_mod (z + 306) 146097 ltac:(lia)).
  destruct (civil_of_doe_facts _ Hm) as (_ & Hy & Hmo & Hda & H0 & H400).
  cbv zeta in Hy, Hmo, Hda, H0, H400.
  set (c := civil_of_doe ((z + 306) mod 146097)) in *.
  set (era := (z + 306) / 146097) in *.
  assert (He : 0 <= era <= 24).
  { split.
    - apply Z.div_pos; lia.
    - apply Z.lt_succ_r. apply Z.div_lt_upper_bound; lia. }
  assert (Hyc : 0 <= year c <= 400) by (destruct (month c <=? 2); lia).
  repeat split; lia.
Qed.

(** The first of a month converts back to that month. *)
Lemma civil_of_month_start (y m : Z) :
  1 <= m <= 12 ->
  civil_from_days (days_from_civil y m 1)
  = {| year := y; month := m; day := 1 |}.
Proof.
  intros Hm. unfold civil_from_days, days_from_civil, days_per_era, era_shift.
  set (y' := if m <=? 2 then y - 1 else y).
  assert (Hy : 0 <= y' mod 400 < 400) by (apply Z.mod_pos_bound; lia).
  assert (C := all_below_spec _ _ era_months_check _ Hy).
  cbv beta in C.
  assert (C' := all_below_spec _ _ C (m - 1) ltac:(lia)).
  cbv beta zeta in C'. replace (m - 1 + 1) with m in C' by lia.
  repeat (apply andb_prop in C' as [C' ?]).
  repeat match goal with
         | H : (_ =? _) = true |- _ => apply Z.eqb_eq in H
         | H : (_ <=? _) = true |- _ => apply Z.leb_le in H
         | H : (_ <? _) = true |- _ => apply Z.ltb_lt in H
         end.
  set (doe := doe_of_civil (y' mod 400) m 1) in *.
  replace (y' / 400 * 146097 + doe - 306 + 306)
    with (146097 * (y' / 400) + doe) by lia.
  rewrite <- (Z.div_unique (146097 * (y' / 400) + doe) 146097 (y' / 400) doe)
    by lia.
  rewrite <- (Z.mod_unique (146097 * (y' / 400) + doe) 146097 (y' / 400) doe)
    by lia.
  assert (Hd := Z.div_mod y' 400 ltac:(lia)).
  f_equal; try assumption.
  unfold y' in *. destruct (m <=? 2); lia.
Qed.

(** ** Rendering of dates *)

Lemma string_app_inj (a1 a2 b1 b2 : string) :
  String.length a1 = String.length a2 ->
  (a1 ++ b1)%string = (a2 ++ b2)%string -> a1 = a2 /\ b1 = b2.
Proof.
  revert a2. induction a1 as [| c a1 IH]; intros [| c2 a2] Hl E;
    try discriminate.
  - now split.
  - simpl in *. inversion E; subst. inversion Hl as [Hl'].
    destruct (IH a2 Hl' H1) as [-> ->]. now split.
Qed.

Lemma zero_pad_reads_back (w : nat) (bound n : Z) :
  all_below bound (fun n =>
    (String.length (zero_pad w n) =? w)%nat
    && match NilZero.uint_of_string (zero_pad w n) with
       | Some u => Z.of_uint u =? n
       | None => false
       end) = true ->
  0 <= n < bound ->
  String.length (zero_pad w n) = w
  /\ exists u, NilZero.uint_of_string (zero_pad w n) = Some u
               /\ Z.of_uint u = n.
Proof.
  intros C Hn. assert (H := all_below_spec _ _ C n Hn). cbv beta in H.
  apply andb_prop in H as [Hl Hu]. apply Nat.eqb_eq in Hl.
  split; [exact Hl |].
  destruct (NilZero.uint_of_string (zero_pad w n)) as [u |]; [| discriminate].
  exists u. split; [reflexivity |]. now apply Z.eqb_eq.
Qed.

Lemma zero_pad_inj (w : nat) (bound n1 n2 : Z) :
  all_below bound (fun n =>
    (String.length (zero_pad w n) =? w)%nat
    && match NilZero.uint_of_string (zero_pad w n) with
       | Some u => Z.of_uint u =? n
       | None => false
       end) = true ->
  0 <= n1 < bound -> 0 <= n2 < bound ->
  zero_pad w n1 = zero_pad w n2 -> n1 = n2.
Proof.
  intros C H1 H2 E.
  destruct (zero_pad_reads_back w bound n1 C H1) as (_ & u1 & E1 & <-).
  destruct (zero_pad_reads_back w bound n2 C H2) as (_ & u2 & E2 & <-).
  rewrite E in E1. congruence.
Qed.

Lemma year_length (y : Z) :
  0 <= y < 10000 -> String.length (zero_pad 4 y) = 4%nat.
Proof. intros H. apply (zero_pad_reads_back 4 10000 y year_digits_check H). Qed.

Lemma year_inj (y1 y2 : Z) :
  0 <= y1 < 10000 -> 0 <= y2 < 10000 ->
  zero_pad 4 y1 = zero_pad 4 y2 -> y1 = y2.
Proof. apply (zero_pad_inj 4 10000 y1 y2 year_digits_check). Qed.

Lemma two_length (n : Z) :
  0 <= n < 100 -> String.length (zero_pad 2 n) = 2%nat.
Proof. intros H. apply (zero_pad_reads_back 2 100 n two_digits_check H). Qed.

Lemma two_inj (n1 n2 : Z) :
  0 <= n1 < 100 -> 0 <= n2 < 100 ->
  zero_pad 2 n1 = zero_pad 2 n2 -> n1 = n2.
Proof. apply (zero_pad_inj 2 100 n1 n2 two_digits_check). Qed.

(** The quarter number is a single digit from 1 to 4. *)
Lemma quarter_digit (q : Z) :
  1 <= q <= 4 ->
  decimal q = "1"%string \/ decimal q = "2"%string
  \/ decimal q = "3"%string \/ decimal q = "4"%string.
Proof.
  intros H.
  assert (q = 1 \/ q = 2 \/ q = 3 \/ q = 4) as [-> | [-> | [-> | ->]]] by lia;
    vm_compute; tauto.
Qed.

Lemma quarter_inj (q1 q2 : Z) :
  1 <= q1 <= 4 -> 1 <= q2 <= 4 -> decimal q1 = decimal q2 -> q1 = q2.
Proof.
  intros H1 H2.
  assert (q1 = 1 \/ q1 = 2 \/ q1 = 3 \/ q1 = 4) as [-> | [-> | [-> | ->]]]
    by lia;
    assert (q2 = 1 \/ q2 = 2 \/ q2 = 3 \/ q2 = 4) as [-> | [-> | [-> | ->]]]
      by lia;
    vm_compute; intros E; try reflexivity; discriminate.
Qed.

Lemma quarter_of_range (m : Z) : 1 <= m <= 12 -> 1 <= quarter_of m <= 4.
Proof.
  intros H. unfold quarter_of.
  assert (0 <= (m - 1) / 3 <= 3); [| lia].
  split; [apply Z.div_pos; lia |].
  apply Z.lt_succ_r. apply Z.div_lt_upper_bound; lia.
Qed.

Lemma quarter_of_start (q : Z) : quarter_of (3 * (q - 1) + 1) = q.
Proof.
  unfold quarter_of. replace (3 * (q - 1) + 1 - 1) with ((q - 1) * 3) by lia.
  rewrite Z.div_mul; lia.
Qed.

Lemma date_of_midnight (d : Z) : date_of (midnight d) = d.
Proof. unfold date_of, midnight. apply Z.div_mul. discriminate. Qed.

Lemma display_year_ce (y : Z) : 1 <= y -> display_year y = y.
Proof.
  intros H. unfold display_year. destruct (y <=? 0) eqn:E; [| reflexivity].
  apply Z.leb_le in E. lia.
Qed.

(** The three templates, on a date. *)
Lemma to_char_ymd (d : Z) :
  to_char (midnight d) "YYYY-MM-DD"
  = (zero_pad 4 (display_year (year (civil_from_days d)))
     ++ "-" ++ zero_pad 2 (month (civil_from_days d))
     ++ "-" ++ zero_pad 2 (day (civil_from_days d)) ++ "")%string.
Proof. unfold to_char. rewrite date_of_midnight. reflexivity. Qed.

Lemma to_char_ym (d : Z) :
  to_char (midnight d) "YYYY-MM"
  = (zero_pad 4 (display_year (year (civil_from_days d)))
     ++ "-" ++ zero_pad 2 (month (civil_from_days d)) ++ "")%string.
Proof. unfold to_char. rewrite date_of_midnight. reflexivity. Qed.

Lemma to_char_yq (d : Z) :
  to_char (midnight d) "YYYY-Q"
  = (zero_pad 4 (display_year (year (civil_from_days d)))
     ++ "-" ++ decimal (quarter_of (month (civil_from_days d))) ++ "")%string.
Proof. unfold to_char. rewrite date_of_midnight. reflexivity. Qed.

Lemma NoDup_map_inj_in {A B C} (f : A -> B) (g : A -> C) (l : list A) :
  NoDup (map f l) ->
  (forall x y, In x l -> In y l -> g x = g y -> f x = f y) ->
  NoDup (map g l).
Proof.
  induction l as [| a l IH]; simpl; intros Hnd Hinj; constructor.
  - inversion Hnd as [| ? ? Hnot _]; subst. intros Hin.
    apply in_map_iff in Hin as (y & E & Hy). apply Hnot.
    rewrite <- (Hinj y a (or_intror Hy) (or_introl eq_refl) E).
    now apply in_map.
  - apply IH; [now inversion Hnd |]. intros x y Hx Hy. apply Hinj; now right.
Qed.

Lemma dash_inj (a b : string) :
  ("-" ++ a)%string = ("-" ++ b)%string -> a = b.
Proof. simpl. intros E. now inversion E. Qed.

(** A date in the range of Python's [date]. *)
Local Abbreviation valid_date d := (date_min <= d <= date_max).

Lemma ymd_inj (d1 d2 : Z) :
  valid_date d1 -> valid_date d2 ->
  to_char (midnight d1) "YYYY-MM-DD" = to_char (midnight d2) "YYYY-MM-DD" ->
  d1 = d2.
Proof.
  intros V1 V2. rewrite !to_char_ymd.
  destruct (civil_from_days_range d1 V1) as (Y1 & M1 & D1).
  destruct (civil_from_days_range d2 V2) as (Y2 & M2 & D2).
  cbv zeta in *. rewrite !display_year_ce by lia. intros E.
  apply string_app_inj in E as [Ey E]; [| rewrite !year_length; lia].
  apply year_inj in Ey; [| lia | lia].
  apply dash_inj in E.
  apply string_app_inj in E as [Em E]; [| rewrite !two_length; lia].
  apply two_inj in Em; [| lia | lia].
  apply dash_inj in E.
  apply string_app_inj in E as [Ed _]; [| rewrite !two_length; lia].
  apply two_inj in Ed; [| lia | lia].
  apply civil_from_days_inj.
  destruct (civil_from_days d1), (civil_from_days d2). simpl in *. congruence.
Qed.

Lemma string_app_nil (a : string) : (a ++ "")%string = a.
Proof. induction a as [| c a IH]; simpl; [reflexivity | now rewrite IH]. Qed.

(** [str] of a date is the [YYYY-MM-DD] rendering. *)
Lemma isoformat_to_char (d : Z) :
  valid_date d -> isoformat d = to_char (midnight d) "YYYY-MM-DD".
Proof.
  intros V. rewrite to_char_ymd.
  destruct (civil_from_days_range d V) as (Y & _). cbv zeta in Y.
  rewrite display_year_ce by lia. unfold isoformat. cbv zeta.
  now rewrite string_app_nil.
Qed.

Lemma isoformat_inj (d1 d2 : Z) :
  valid_date d1 -> valid_date d2 -> isoformat d1 = isoformat d2 -> d1 = d2.
Proof.
  intros V1 V2. rewrite !isoformat_to_char by assumption.
  now apply ymd_inj.
Qed.

Lemma month_start_label (y m : Z) :
  1 <= y -> 1 <= m <= 12 ->
  to_char (midnight (days_from_civil y m 1)) "YYYY-MM"
  = (zero_pad 4 y ++ "-" ++ zero_pad 2 m ++ "")%string.
Proof.
  intros Hy Hm. rewrite to_char_ym, civil_of_month_start by exact Hm.
  cbn [year month]. now rewrite display_year_ce.
Qed.

Lemma quarter_start_label (y q : Z) :
  1 <= y -> 1 <= q <= 4 ->
  to_char (midnight (days_from_civil y (3 * (q - 1) + 1) 1)) "YYYY-Q"
  = (zero_pad 4 y ++ "-" ++ decimal q ++ "")%string.
Proof.
  intros Hy Hq. rewrite to_char_yq, civil_of_month_start by lia.
  cbn [year month]. now rewrite display_year_ce, quarter_of_start.
Qed.

Section TrendPeriods.
Variable granularity : string.

(** The template the chosen branch renders the period with. *)
Local Abbreviation template :=
  (if (granularity =? "daily")%string then "YYYY-MM-DD"
   else if (granularity =? "weekly")%string then "YYYY-MM-DD"
   else if (granularity =? "monthly")%string then "YYYY-MM"
   else "YYYY-Q")%string.

(** The label is a function of the period start. *)
Lemma period_label_of_expr (ts : Z) :
  Trends.period_label granularity ts
  = to_char (midnight (Trends.period_expr granularity ts)) template.
Proof.
  unfold Trends.period_label, Trends.period_expr.
  destruct (granularity =? "daily")%string.
  { unfold to_char, date_trunc. now rewrite !date_of_midnight. }
  destruct (granularity =? "weekly")%string.
  { unfold date_trunc. now rewrite !date_of_midnight. }
  destruct (granularity =? "monthly")%string;
    unfold date_trunc; now rewrite !date_of_midnight.
Qed.

Lemma period_expr_valid (ts : Z) :
  valid_date (date_of ts) ->
  Trends.period_expr granularity ts
  = (if (granularity =? "daily")%string then date_of ts
     else if (granularity =? "weekly")%string
          then date_of ts - date_of ts mod 7
     else if (granularity =? "monthly")%string
          then days_from_civil (year (civil_from_days (date_of ts)))
                 (month (civil_from_days (date_of ts))) 1
     else days_from_civil (year (civil_from_days (date_of ts)))
            (3 * (quarter_of (month (civil_from_days (date_of ts))) - 1) + 1)
            1).
Proof.
  intros _. unfold Trends.period_expr, date_trunc.
  destruct (granularity =? "daily")%string;
    [now rewrite date_of_midnight |].
  destruct (granularity =? "weekly")%string;
    [now rewrite date_of_midnight |].
  destruct (granularity =? "monthly")%string;
    now rewrite date_of_midnight.
Qed.

(** Distinct period starts of valid dates have distinct labels. *)
Lemma period_label_inj (ts1 ts2 : Z) :
  valid_date (date_of ts1) -> valid_date (date_of ts2) ->
  Trends.period_label granularity ts1 = Trends.period_label granularity ts2 ->
  Trends.period_expr granularity ts1 = Trends.period_expr granularity ts2.
Proof.
  intros V1 V2. rewrite !period_label_of_expr.
  rewrite (period_expr_valid ts1 V1), (period_expr_valid ts2 V2).
  destruct (civil_from_days_range _ V1) as (Y1 & M1 & D1).
  destruct (civil_from_days_range _ V2) as (Y2 & M2 & D2).
  cbv zeta in *.
  destruct (granularity =? "daily")%string; [now apply ymd_inj |].
  destruct (granularity =? "weekly")%string.
  { assert (0 <= date_of ts1 mod 7 < 7) by (apply Z.mod_pos_bound; lia).
    assert (0 <= date_of ts2 mod 7 < 7) by (apply Z.mod_pos_bound; lia).
    assert (W1 := Z.div_mod (date_of ts1) 7 ltac:(lia)).
    assert (W2 := Z.div_mod (date_of ts2) 7 ltac:(lia)).
    unfold date_min, date_max in *.
    apply ymd_inj; unfold date_min, date_max; lia. }
  destruct (granularity =? "monthly")%string.
  - rewrite !month_start_label by lia. intros E.
    apply string_app_inj in E as [Ey E]; [| rewrite !year_length; lia].
    apply year_inj in Ey; [| lia | lia].
    apply dash_inj in E.
    apply string_app_inj in E as [Em _]; [| rewrite !two_length; lia].
    apply two_inj in Em; [| lia | lia]. now rewrite Ey, Em.
  - assert (Q1 := quarter_of_range _ M1). assert (Q2 := quarter_of_range _ M2).
    rewrite !quarter_start_label by lia. intros E.
    apply string_app_inj in E as [Ey E]; [| rewrite !year_length; lia].
    apply year_inj in Ey; [| lia | lia].
    apply dash_inj in E.
    assert (Eq : decimal (quarter_of (month (civil_from_days (date_of ts1))))
                 = decimal (quarter_of
                              (month (civil_from_days (date_of ts2))))).
    { destruct (quarter_digit _ Q1) as [R1 | [R1 | [R1 | R1]]];
        destruct (quarter_digit _ Q2) as [R2 | [R2 | [R2 | R2]]];
        rewrite R1, R2 in E |- *; simpl in E; congruence. }
    apply quarter_inj in Eq; [| lia | lia]. now rewrite Ey, Eq.
Qed.
End TrendPeriods.

(** ** Trend engine *)

Lemma period_key_eqb_eq (k1 k2 : Z * string) :
  Trends.period_key_eqb k1 k2 = true <-> k1 = k2.
Proof.
  destruct k1 as [p1 l1], k2 as [p2 l2]. unfold Trends.period_key_eqb. simpl.
  rewrite andb_true_iff, Z.eqb_eq, String.eqb_eq. split.
  - intros [-> ->]. reflexivity.
  - intros E. inversion E. tauto.
Qed.

(** Truncating a period start again gives the same period start. *)
Lemma period_expr_idem (granularity : string) (ts : Z) :
  valid_date (date_of ts) ->
  Trends.period_expr granularity
    (midnight (Trends.period_expr granularity ts))
  = Trends.period_expr granularity ts.
Proof.
  intros V. destruct (civil_from_days_range _ V) as (Y & M & D).
  cbv zeta in *.
  unfold Trends.period_expr, date_trunc.
  destruct (granularity =? "daily")%string;
    [now rewrite !date_of_midnight |].
  destruct (granularity =? "weekly")%string.
  { rewrite !date_of_midnight.
    assert (E : (date_of ts - date_of ts mod 7) mod 7 = 0).
    { rewrite Zminus_mod_idemp_r, Z.sub_diag. reflexivity. }
    rewrite E. lia. }
  destruct (granularity =? "monthly")%string.
  - rewrite !date_of_midnight, civil_of_month_start by lia. reflexivity.
  - assert (Q := quarter_of_range _ M).
    rewrite !date_of_midnight, civil_of_month_start by lia.
    cbn [year month]. now rewrite quarter_of_start.
Qed.

Section TrendEngine.
Variable db : Database.
Variable today : Z.
Variable granularity : string.
Variables branch_ids department_ids : option (list Z).
Variables date_from date_to : option Z.

Local Abbreviation from_ := (or_default date_from (today - 90)).
Local Abbreviation to_ := (or_default date_to today).
Local Abbreviation cohort :=
  (Trends.adm db branch_ids department_ids from_ to_).
Local Abbreviation rows :=
  (Trends.periods_query db granularity branch_ids department_ids from_ to_).

Hypothesis from_valid : date_min <= from_.
Hypothesis to_valid : to_ <= date_max.

Lemma cohort_valid (ad : Admission.row * Discharge.row) :
  In ad cohort -> valid_date (date_of (Admission.admission_at (fst ad))).
Proof.
  unfold Trends.adm. intros H. apply filter_In in H as [_ H].
  repeat (apply andb_prop in H as [H ?]).
  apply Z.leb_le in H. apply Z.ltb_lt in H2.
  unfold midnight, date_of, usecs_per_day, usecs_per_sec in *.
  set (ts := Admission.admission_at (fst ad)) in *.
  assert (Hd := Z.div_mod ts (86400 * 1000000) ltac:(lia)).
  assert (Hm := Z.mod_pos_bound ts (86400 * 1000000) ltac:(lia)).
  split; nia.
Qed.

Lemma in_rows (r : Trends.PeriodRow.t) :
  In r rows ->
  exists ad,
    In ad cohort
    /\ Trends.PeriodRow.period_dt r
       = Trends.period_expr granularity (Admission.admission_at (fst ad))
    /\ Trends.PeriodRow.period_label r
       = Trends.period_label granularity (Admission.admission_at (fst ad)).
Proof.
  unfold Trends.periods_query. rewrite in_order_by, in_map_iff.
  intros ([k g] & <- & Hg).
  apply (in_group_by _ _ period_key_eqb_eq) in Hg as [Hk _].
  apply in_map_iff in Hk as (ad & <- & Had). exists ad. now split.
Qed.

Lemma rows_dt_nodup : NoDup (map Trends.PeriodRow.period_dt rows).
Proof.
  unfold Trends.periods_query.
  apply (Permutation_NoDup
           (Permutation_map _ (Permutation_sym (order_by_perm _ _)))).
  rewrite map_map. cbn [Trends.PeriodRow.period_dt].
  apply (NoDup_map_inj_in fst).
  - apply (NoDup_group_keys _ _ period_key_eqb_eq).
  - intros [k1 g1] [k2 g2] H1 H2 E. simpl in *.
    apply (in_group_by _ _ period_key_eqb_eq) in H1 as [H1 _].
    apply (in_group_by _ _ period_key_eqb_eq) in H2 as [H2 _].
    apply in_map_iff in H1 as (a1 & <- & _).
    apply in_map_iff in H2 as (a2 & <- & _).
    unfold Trends.period_key in *. simpl in E.
    now rewrite !period_label_of_expr, E.
Qed.

Lemma rows_sorted :
  StronglySorted Z.lt (map Trends.PeriodRow.period_dt rows).
Proof.
  apply sorted_nodup_strict; [| exact rows_dt_nodup].
  apply order_by_sorted.
Qed.

Lemma rows_label_nodup : NoDup (map Trends.PeriodRow.period_label rows).
Proof.
  apply (NoDup_map_inj_in Trends.PeriodRow.period_dt);
    [exact rows_dt_nodup |].
  intros r1 r2 H1 H2 E.
  apply in_rows in H1 as (a1 & Ha1 & -> & L1).
  apply in_rows in H2 as (a2 & Ha2 & -> & L2).
  apply period_label_inj; [now apply cohort_valid .. | congruence].
Qed.

(** C9: the trend points come in strictly increasing order of their
    period start, each labelled with its period, and no label occurs
    twice. *)
Theorem trend_points_strictly_ordered :
  fails db TrendPeriods = false ->
  exists out starts,
    Trends.get_trends db today granularity branch_ids department_ids
      date_from date_to = Ok out
    /\ StronglySorted Z.lt starts
    /\ map Trends.period_dt out = map (fun p => Some (isoformat p)) starts
    /\ map Trends.period out
       = map (fun p => Trends.period_label granularity (midnight p)) starts
    /\ NoDup (map Trends.period out).
Proof.
  intros Hok. unfold Trends.get_trends.
  rewrite (execute_ok _ _ _ Hok). cbn [bind].
  eexists. exists (map Trends.PeriodRow.period_dt rows).
  split; [reflexivity |]. split; [exact rows_sorted |].
  rewrite !map_map. cbn [Trends.period_dt Trends.period].
  split; [reflexivity |]. split; [| exact rows_label_nodup].
  apply map_ext_in. intros r Hr.
  apply in_rows in Hr as (ad & Had & -> & ->).
  rewrite (period_label_of_expr granularity (midnight _)).
  rewrite period_expr_idem by now apply cohort_valid.
  apply period_label_of_expr.
Qed.
End TrendEngine.

(** C10, as the code has it: a quarterly label is the four-digit year of
    the admissions of the period, a hyphen and their quarter number from
    1 to 4, one character; the template letter [Q] is replaced by the
    quarter number and does not appear in the label. *)
Theorem quarterly_label_is_year_dash_number
    (db : Database) (today : Z)
    (branch_ids department_ids : option (list Z))
    (date_from date_to : option Z) :
  fails db TrendPeriods = false ->
  date_min <= or_default date_from (today - 90) ->
  or_default date_to today <= date_max ->
  exists out,
    Trends.get_trends db today "quarterly" branch_ids department_ids
      date_from date_to = Ok out
    /\ forall pt, In pt out ->
       exists ad y q,
         In ad (Trends.adm db branch_ids department_ids
                  (or_default date_from (today - 90))
                  (or_default date_to today))
         /\ y = year (civil_from_days
                        (date_of (Admission.admission_at (fst ad))))
         /\ q = quarter_of
                  (month (civil_from_days
                            (date_of (Admission.admission_at (fst ad)))))
         /\ 1 <= y <= 9999 /\ 1 <= q <= 4
         /\ Trends.period pt = (zero_pad 4 y ++ "-" ++ decimal q)%string
         /\ String.length (zero_pad 4 y) = 4%nat
         /\ String.length (decimal q) = 1%nat.
Proof.
  intros Hok Hf Ht. unfold Trends.get_trends.
  rewrite (execute_ok _ _ _ Hok). cbn [bind].
  eexists. split; [reflexivity |].
  intros pt Hpt. apply in_map_iff in Hpt as (r & <- & Hr).
  cbn [Trends.period].
  apply in_rows in Hr as (ad & Had & _ & ->).
  assert (V := cohort_valid db today branch_ids department_ids date_from
                 date_to Hf Ht ad Had).
  destruct (civil_from_days_range _ V) as (Y & M & _). cbv zeta in Y, M.
  assert (Q := quarter_of_range _ M).
  exists ad, (year (civil_from_days (date_of (Admission.admission_at (fst ad))))),
    (quarter_of
       (month (civil_from_days (date_of (Admission.admission_at (fst ad)))))).
  repeat split; try lia; try assumption.
  - unfold Trends.period_label. simpl String.eqb. cbv iota.
    unfold date_trunc.
    rewrite quarter_start_label, string_app_nil by lia. reflexivity.
  - apply year_length. lia.
  - destruct (quarter_digit _ Q) as [R | [R | [R | R]]]; now rewrite R.
Qed.

(** ** Threshold alerts *)

Lemma filter_perm {A} (p : A -> bool) (l1 l2 : list A) :
  Permutation l1 l2 -> Permutation (filter p l1) (filter p l2).
Proof.
  induction 1 as [| x l1 l2 _ IH | x y l | l1 l2 l3 _ IH1 _ IH2]; simpl.
  - constructor.
  - destruct (p x); [now constructor | exact IH].
  - destruct (p x), (p y); try reflexivity. apply perm_swap.
  - now transitivity (filter p l2).
Qed.

Lemma filter_comm {A} (p q : A -> bool) (l : list A) :
  filter p (filter q l) = filter q (filter p l).
Proof.
  rewrite !filter_filter. apply filter_ext. intros a. apply andb_comm.
Qed.

Lemma filter_map_comm {A B} (f : A -> B) (p : B -> bool) (l : list A) :
  filter p (map f l) = map f (filter (fun a => p (f a)) l).
Proof. symmetry. apply map_filter_comm. Qed.

Section GroupLookup.
Context {K V : Type} (eqb : K -> K -> bool).
Hypothesis eqb_eq : forall x y, eqb x y = true <-> x = y.

(** Among groups with distinct keys, a key selects its own group. *)
Lemma filter_key_found (G : list (K * V)) (k : K) (v : V) :
  NoDup (map fst G) -> In (k, v) G ->
  filter (fun g => eqb k (fst g)) G = [(k, v)].
Proof.
  induction G as [| [k' v'] G IH]; simpl; [tauto |].
  intros Hnd [E | Hin]; inversion Hnd as [| ? ? Hnot Hnd']; subst.
  - inversion E; subst. rewrite (proj2 (eqb_eq k k) eq_refl). f_equal.
    apply filter_none. intros [k2 v2] H2. simpl.
    destruct (eqb k k2) eqn:E2; [| reflexivity].
    apply eqb_eq in E2. subst. elim Hnot.
    now apply (in_map fst) in H2.
  - destruct (eqb k k') eqn:E2.
    + apply eqb_eq in E2. subst. elim Hnot. now apply (in_map fst) in Hin.
    + now apply IH.
Qed.

Lemma filter_key_missing (G : list (K * V)) (k : K) :
  ~ In k (map fst G) -> filter (fun g => eqb k (fst g)) G = [].
Proof.
  intros Hnot. apply filter_none. intros [k2 v2] H2. simpl.
  destruct (eqb k k2) eqn:E2; [| reflexivity].
  apply eqb_eq in E2. subst. elim Hnot. now apply (in_map fst) in H2.
Qed.
End GroupLookup.

Section GroupLookupBy.
Context {A K : Type} (key : A -> K) (eqb : K -> K -> bool).
Hypothesis eqb_eq : forall x y, eqb x y = true <-> x = y.

(** Selecting a key among the groups gives the rows with that key, as
    one group, or nothing when no row has it. *)
Lemma group_lookup (l : list A) (k : K) :
  filter (fun g => eqb k (fst g)) (Sql.group_by key eqb l)
  = match filter (fun a => eqb k (key a)) l with
    | [] => []
    | grp => [(k, grp)]
    end.
Proof.
  destruct (filter (fun a => eqb k (key a)) l) as [| a grp] eqn:E.
  - apply (filter_key_missing eqb eqb_eq).
    rewrite (group_by_keys key eqb). intros Hin.
    apply (proj1 (in_distinct eqb eqb_eq _ _)) in Hin.
    apply in_map_iff in Hin as (a & Ea & Ha).
    assert (In a (filter (fun a => eqb k (key a)) l)).
    { apply filter_In. split; [exact Ha |]. now apply eqb_eq. }
    rewrite E in H. contradiction.
  - apply (filter_key_found eqb eqb_eq).
    + apply (NoDup_group_keys key eqb eqb_eq).
    + apply (in_group_by key eqb eqb_eq). split; [| now rewrite E].
      assert (Ha : In a (filter (fun a => eqb k (key a)) l))
        by (rewrite E; now left).
      apply filter_In in Ha as [Ha Ek]. apply eqb_eq in Ek. subst.
      now apply in_map.
Qed.
End GroupLookupBy.

Lemma match_nonempty {A B} (l : list A) (x y : B) :
  l <> [] -> match l with [] => x | _ :: _ => y end = y.
Proof. destruct l; [congruence | reflexivity]. Qed.

Lemma day_key_eqb_eq (k1 k2 : Z * string * Z) :
  Predictive.day_key_eqb k1 k2 = true <-> k1 = k2.
Proof.
  destruct k1 as [[b1 n1] d1], k2 as [[b2 n2] d2].
  unfold Predictive.day_key_eqb. simpl.
  rewrite !andb_true_iff, !Z.eqb_eq, String.eqb_eq. split.
  - intros [[-> ->] ->]. reflexivity.
  - intros E. inversion E. tauto.
Qed.

Section BedAlerts.
Variable db : Database.
Variable today : Z.
Variable branch_ids : option (list Z).
Variables bed_threshold icu_threshold doc_threshold : Q.
Variables date_from date_to : option Z.

Local Abbreviation to_ := (or_default date_to today).
Local Abbreviation from_ := (or_default date_from (to_ - 7)).

Hypothesis branch_pk : Schema.branch_pk db = true.

Variable br : Branch.row.
Variable d : Z.
Hypothesis br_in : In br (hospital_branches db).

Local Abbreviation in_scope :=
  (fun ra : ResourceAllocation.row =>
     (from_ <=? ResourceAllocation.record_date ra)
     && (ResourceAllocation.record_date ra <=? to_)
     && any_clause branch_ids (ResourceAllocation.branch_id ra)).

Local Abbreviation key0 := (Branch.branch_id br, Branch.name br, d).

(** The group of a branch and day holds that branch's snapshots of
    that day, each paired with the branch. *)
Lemma group_of_branch_day :
  filter (fun rb => Predictive.day_key_eqb key0 (Predictive.day_key rb))
    (Predictive.snapshots db branch_ids from_ to_)
  = map (fun ra => (ra, br))
      (filter (fun ra =>
                 in_scope ra
                 && (ResourceAllocation.branch_id ra =? Branch.branch_id br)
                 && (ResourceAllocation.record_date ra =? d))
         (resource_allocation db)).
Proof.
  unfold Predictive.snapshots, Sql.join.
  assert (pk := unique_NoDup _ branch_pk).
  induction (resource_allocation db) as [| ra l IH]; [reflexivity |].
  simpl flat_map. rewrite !filter_app, IH. clear IH.
  set (P := fun ra0 : ResourceAllocation.row =>
              in_scope ra0
              && (ResourceAllocation.branch_id ra0 =? Branch.branch_id br)
              && (ResourceAllocation.record_date ra0 =? d)).
  transitivity ((if P ra then [(ra, br)] else [])
                ++ map (fun ra0 => (ra0, br)) (filter P l));
    [| simpl; destruct (P ra); reflexivity].
  f_equal. unfold P.
  destruct (Z.eqb_spec (ResourceAllocation.branch_id ra)
              (Branch.branch_id br)) as [E | N].
  - rewrite (filter_ext (fun b => Branch.branch_id b
                                  =? ResourceAllocation.branch_id ra)
               (fun b => Branch.branch_id b =? Branch.branch_id br))
      by (intros; now rewrite E).
    rewrite (pk_lookup Branch.branch_id _ pk br br_in).
    cbn [map filter fst]. rewrite andb_true_r.
    destruct (in_scope ra); cbn [filter andb]; [| reflexivity].
    unfold Predictive.day_key_eqb, Predictive.day_key. cbn [fst snd].
    rewrite E, Z.eqb_refl, String.eqb_refl. cbn [andb].
    rewrite (Z.eqb_sym d). destruct (_ =? d); reflexivity.
  - rewrite andb_false_r. cbn [andb].
    apply filter_none.
    intros [ra' b'] H. apply filter_In in H as [H _].
    apply in_map_iff in H as (b & Eb & _). inversion Eb; subst.
    unfold Predictive.day_key_eqb, Predictive.day_key. cbn [fst snd].
    rewrite (proj2 (Z.eqb_neq _ _)) by congruence. reflexivity.
Qed.

Hypothesis from_valid : date_min <= from_.
Hypothesis to_valid : to_ <= date_max.
Hypothesis d_in_range : from_ <= d <= to_.

Local Abbreviation all_rows :=
  (Predictive.day_rows Predictive.bed_pct
     (Predictive.snapshots db branch_ids from_ to_)).

Local Abbreviation row_for :=
  (fun r : Predictive.DayRow.t =>
     (Predictive.DayRow.branch_id r =? Branch.branch_id br)
     && (isoformat (Predictive.DayRow.record_date r) =? isoformat d)%string).

Local Abbreviation row_key :=
  (fun r : Predictive.DayRow.t =>
     (Predictive.DayRow.branch_id r, Predictive.DayRow.branch_name r,
      Predictive.DayRow.record_date r)).

Lemma in_snapshots (rb : ResourceAllocation.row * Branch.row) :
  In rb (Predictive.snapshots db branch_ids from_ to_) ->
  In (snd rb) (hospital_branches db)
  /\ Branch.branch_id (snd rb) = ResourceAllocation.branch_id (fst rb)
  /\ from_ <= ResourceAllocation.record_date (fst rb) <= to_.
Proof.
  unfold Predictive.snapshots. intros H. apply filter_In in H as [H C].
  destruct rb as [ra b]. apply in_join in H as (_ & Hb & E).
  apply Z.eqb_eq in E. apply andb_prop in C as [C _].
  apply andb_prop in C as [C1 C2]. apply Z.leb_le in C1, C2.
  simpl in *. tauto.
Qed.

(** On the grouped rows, matching branch and rendered date is matching
    the whole grouping key. *)
Lemma row_for_key (r : Predictive.DayRow.t) :
  In r all_rows ->
  row_for r = Predictive.day_key_eqb key0 (row_key r).
Proof.
  unfold Predictive.day_rows. intros H.
  apply in_map_iff in H as ([k g] & <- & Hg).
  apply (in_group_by _ _ day_key_eqb_eq) in Hg as [Hk _].
  apply in_map_iff in Hk as (rb & <- & Hrb).
  apply in_snapshots in Hrb as (Hb & Eb & Hd).
  unfold Predictive.day_key_eqb, Predictive.day_key. cbn.
  rewrite (Z.eqb_sym (Branch.branch_id br)).
  destruct (Z.eqb_spec (ResourceAllocation.branch_id (fst rb))
              (Branch.branch_id br)) as [E | N]; [| reflexivity].
  assert (snd rb = br) as ->.
  { apply (pk_inj Branch.branch_id (hospital_branches db));
      [now apply unique_NoDup | assumption | assumption | congruence]. }
  rewrite String.eqb_refl. cbn [andb].
  destruct (Z.eqb_spec d (ResourceAllocation.record_date (fst rb)))
    as [<- | Nd]; [apply String.eqb_refl |].
  apply String.eqb_neq. intros Ei. apply Nd. symmetry.
  apply isoformat_inj; [unfold date_min, date_max in *; lia .. | exact Ei].
Qed.

(** The snapshots of the branch on the day, and their mean occupancy
    percentage against the branch's bed count. *)
Local Abbreviation day_snapshots :=
  (filter (fun ra =>
             (ResourceAllocation.branch_id ra =? Branch.branch_id br)
             && (ResourceAllocation.record_date ra =? d))
     (resource_allocation db)).

Local Abbreviation mean_occupancy :=
  (avg (non_null
          (map (fun ra => Sql.pct_of (ResourceAllocation.beds_occupied ra)
                            (Branch.bed_count br))
             day_snapshots))).

Local Abbreviation scoped_snapshots :=
  (filter (fun ra =>
             in_scope ra
             && (ResourceAllocation.branch_id ra =? Branch.branch_id br)
             && (ResourceAllocation.record_date ra =? d))
     (resource_allocation db)).

Lemma scoped_in_filter :
  any_clause branch_ids (Branch.branch_id br) = true ->
  scoped_snapshots = day_snapshots.
Proof.
  intros Hb. apply filter_ext. intros ra.
  destruct (Z.eqb_spec (ResourceAllocation.branch_id ra)
              (Branch.branch_id br)) as [E | N];
    [| now rewrite andb_false_r].
  destruct (Z.eqb_spec (ResourceAllocation.record_date ra) d) as [E2 | N2];
    [| now rewrite andb_false_r].
  rewrite E, E2, Hb.
  rewrite (proj2 (Z.leb_le _ _)), (proj2 (Z.leb_le _ _)) by lia.
  reflexivity.
Qed.

Lemma scoped_out_of_filter :
  any_clause branch_ids (Branch.branch_id br) = false ->
  scoped_snapshots = [].
Proof.
  intros Hb. apply filter_none. intros ra _.
  destruct (Z.eqb_spec (ResourceAllocation.branch_id ra)
              (Branch.branch_id br)) as [E | N];
    [| now rewrite andb_false_r].
  rewrite E, Hb. now rewrite andb_false_r.
Qed.

(** The rows of the branch and day among the grouped rows: at most
    one, holding the mean over the scoped snapshots. *)
Lemma rows_of_branch_day :
  filter row_for all_rows
  = match scoped_snapshots with
    | [] => []
    | _ =>
        [{| Predictive.DayRow.branch_id := Branch.branch_id br;
            Predictive.DayRow.branch_name := Branch.name br;
            Predictive.DayRow.record_date := d;
            Predictive.DayRow.pct :=
              avg (non_null
                     (map (fun ra =>
                             Sql.pct_of (ResourceAllocation.beds_occupied ra)
                               (Branch.bed_count br))
                        scoped_snapshots)) |}]
    end.
Proof.
  rewrite (filter_ext_in _ _ _ row_for_key).
  unfold Predictive.day_rows.
  rewrite (filter_map_comm _
             (fun r => Predictive.day_key_eqb key0 (row_key r))).
  cbn [Predictive.DayRow.branch_id Predictive.DayRow.branch_name
       Predictive.DayRow.record_date].
  rewrite (filter_ext _ (fun g => Predictive.day_key_eqb key0 (fst g)))
    by (intros [[[b n] dd] g]; reflexivity).
  rewrite (group_lookup _ _ day_key_eqb_eq), group_of_branch_day.
  destruct scoped_snapshots as [| ra l]; [reflexivity |].
  cbn [map fst snd]. rewrite !map_map. reflexivity.
Qed.

Local Abbreviation alerts_for out :=
  (filter (fun a =>
             (Predictive.alert_type a =? "high_bed_occupancy")%string
             && (Predictive.branch_id a =? Branch.branch_id br)
             && match Predictive.record_date a with
                | Some s => (s =? isoformat d)%string
                | None => false
                end)
     out).

Lemma alerts_of_rows (out : list Predictive.Alert) :
  Predictive.get_threshold_alerts db today branch_ids bed_threshold
    icu_threshold doc_threshold date_from date_to = Ok out ->
  Permutation (alerts_for out)
    (map (Predictive.day_alert "high_bed_occupancy" bed_threshold)
       (filter (fun r => Predictive.having_at_least
                           (Predictive.DayRow.pct r) bed_threshold)
          (filter row_for all_rows))).
Proof.
  unfold Predictive.get_threshold_alerts, execute.
  destruct (fails db AlertBed); [discriminate |].
  destruct (fails db AlertIcu); [discriminate |].
  destruct (fails db AlertDoctor); [discriminate |].
  cbn [bind]. intros E. inversion E as [E']. clear E E'.
  rewrite !filter_app.
  rewrite (filter_none _ (map (Predictive.day_alert "high_icu_utilization"
                                 _) _))
    by (intros a Ha; apply in_map_iff in Ha as (r & <- & _); reflexivity).
  rewrite (filter_none _ (map _ (Predictive.doctor_query _ _ _ _ _)))
    by (intros a Ha; apply in_map_iff in Ha as (r & <- & _); reflexivity).
  rewrite !app_nil_r.
  rewrite (filter_map_comm (Predictive.day_alert "high_bed_occupancy" _)).
  apply Permutation_map.
  rewrite (filter_ext _ row_for) by (intros r; reflexivity).
  unfold Predictive.bed_query.
  rewrite (filter_perm _ _ _ (order_by_perm _ _)).
  now rewrite filter_comm.
Qed.

End BedAlerts.

(** ** Moving average *)

(** C1: the window of the moving average is the seven rows written in the
    statement, whatever [window_days] is.  With 3, 6, 9 and 12 admissions
    on four consecutive days and [window_days = 3], the fourth point
    reports 7.5, the mean of all four days, where the trailing three days
    have mean 9; the result is the one for [window_days = 7]. *)
Theorem moving_average_ignores_window_days :
  Predictive.get_admission_trend_with_moving_avg Examples.rising
    (Examples.new_year_2024 + 4) None 90 3
  = Predictive.get_admission_trend_with_moving_avg Examples.rising
      (Examples.new_year_2024 + 4) None 90 7
  /\ (exists pts,
         Predictive.get_admission_trend_with_moving_avg Examples.rising
           (Examples.new_year_2024 + 4) None 90 3 = Ok pts
         /\ map Predictive.date pts
            = ["2024-01-01"; "2024-01-02"; "2024-01-03"; "2024-01-04"]%string
         /\ map Predictive.admissions pts = [3; 6; 9; 12]
         /\ map Predictive.moving_avg_7d pts = [3; 9 # 2; 6; 15 # 2]%Q)
  /\ avg (map inject_Z (Predictive.rows_preceding (3 - 1) 3 [3; 6; 9; 12]))
     = Some (27 / 3)%Q
  /\ ~ (15 # 2 == 27 / 3)%Q.
Proof.
  split; [reflexivity |]. split.
  - eexists. split; [vm_compute; reflexivity |]. repeat split.
  - split; [reflexivity |]. intros H. vm_compute in H. discriminate.
Qed.

(** The window never depends on [window_days]. *)
Lemma moving_average_window_unused (db : Database) (today : Z)
    (branch_ids : option (list Z)) (days w1 w2 : Z) :
  Predictive.get_admission_trend_with_moving_avg db today branch_ids days w1
  = Predictive.get_admission_trend_with_moving_avg db today branch_ids days w2.
Proof. reflexivity. Qed.

(** ** The theorems on the sample databases *)

Lemma outcome_buckets_sum_to_discharges_witness :
  fails Examples.hospital KpiCore = false
  /\ Schema.outcome_code_not_null Examples.hospital = true
  /\ exists s,
       Kpis.get_kpi_summary Examples.hospital None None
         (Some Examples.new_year_2024) (Some (Examples.new_year_2024 + 120))
       = Ok s
       /\ Kpis.outcome_recovered s + Kpis.outcome_improved s
          + Kpis.outcome_transferred s + Kpis.outcome_deceased s
          + Kpis.outcome_other s
          = Kpis.total_discharges s.
Proof.
  split; [reflexivity |]. split; [reflexivity |].
  apply (outcome_buckets_sum_to_discharges Examples.hospital None None
           (Some Examples.new_year_2024)
           (Some (Examples.new_year_2024 + 120)));
    reflexivity.
Defined.

Lemma empty_cohort_all_zero_witness :
  fails Examples.hospital KpiCore = false
  /\ Kpis.adm Examples.hospital None None (Some 0) (Some 10) = []
  /\ Kpis.get_kpi_summary Examples.hospital None None (Some 0) (Some 10)
     = Ok Kpis._empty_kpi.
Proof.
  split; [reflexivity |]. split; [reflexivity |].
  destruct (empty_cohort_all_zero Examples.hospital None None (Some 0)
              (Some 10) eq_refl eq_refl) as (s & E & _).
  reflexivity.
Defined.

Lemma secondary_failures_degrade_to_zero_witness :
  fails Examples.degraded KpiCore = false
  /\ Kpis.adm Examples.degraded None None (Some Examples.new_year_2024)
       (Some (Examples.new_year_2024 + 120)) <> []
  /\ exists s,
       Kpis.get_kpi_summary Examples.degraded None None
         (Some Examples.new_year_2024) (Some (Examples.new_year_2024 + 120))
       = Ok s
       /\ Kpis.total_discharges s = 8
       /\ Kpis.procedure_volume s = 0
       /\ Kpis.readmission_rate_30d_pct s = 0%Q
       /\ Kpis.bed_occupancy_rate_pct s = 0%Q
       /\ Kpis.doctor_utilization_pct s = 0%Q
       /\ Kpis.cost_per_discharge_inr s = 0%Q.
Proof.
  assert (Hne : Kpis.adm Examples.degraded None None
                  (Some Examples.new_year_2024)
                  (Some (Examples.new_year_2024 + 120)) <> [])
    by (vm_compute; discriminate).
  split; [reflexivity |]. split; [exact Hne |].
  destruct (secondary_failures_degrade_to_zero Examples.degraded None None
              (Some Examples.new_year_2024)
              (Some (Examples.new_year_2024 + 120)) eq_refl Hne)
    as (s & E & Hp & Hr & Ho & Hu & Hb).
  exists s. split; [exact E |].
  split; [vm_compute in E; inversion E; reflexivity |].
  repeat split; auto.
Defined.

Lemma readmission_rate_in_range_witness :
  fails Examples.hospital KpiCore = false
  /\ Schema.readmission_follows_discharge Examples.hospital = true
  /\ exists s,
       Kpis.get_kpi_summary Examples.hospital None None
         (Some Examples.new_year_2024) (Some (Examples.new_year_2024 + 120))
       = Ok s
       /\ Kpis.total_discharges s = 8
       /\ (0 <= Kpis.readmission_rate_30d_pct s)%Q
       /\ (Kpis.readmission_rate_30d_pct s <= 100)%Q.
Proof.
  split; [reflexivity |]. split; [reflexivity |].
  destruct (readmission_rate_in_range Examples.hospital None None
              (Some Examples.new_year_2024)
              (Some (Examples.new_year_2024 + 120)) eq_refl eq_refl)
    as (s & E & Et & Hr & _).
  exists s. split; [exact E |].
  assert (E8 : Kpis.total_discharges s = 8)
    by (rewrite Et; vm_compute; reflexivity).
  split; [exact E8 |]. apply Hr. rewrite E8. vm_compute. discriminate.
Defined.

Lemma peak_hour_flag_iff_witness :
  fails Examples.hospital BottleneckPeak = false
  /\ In (Predictions.peak_hour_surplus 8 2)
       (Predictions.get_bottlenecks Examples.hospital
          (Examples.new_year_2024 + 20) None None None)
  /\ forall n,
       ~ In (Predictions.peak_hour_surplus 4 n)
           (Predictions.get_bottlenecks Examples.even_hours
              (Examples.new_year_2024 + 20) None None None).
Proof.
  split; [reflexivity |]. split.
  - destruct (peak_hour_flag_iff Examples.hospital
                (Examples.new_year_2024 + 20) None None None 8 eq_refl)
      as [H _].
    apply H. split; [vm_compute; reflexivity | vm_compute; reflexivity].
  - destruct (peak_hour_flag_iff Examples.even_hours
                (Examples.new_year_2024 + 20) None None None 4 eq_refl)
      as [_ H].
    apply H. vm_compute. reflexivity.
Defined.



Lemma trend_points_strictly_ordered_witness :
  date_min <= Examples.new_year_2024
  /\ Examples.new_year_2024 + 120 <= date_max
  /\ fails Examples.hospital TrendPeriods = false
  /\ exists out,
       Trends.get_trends Examples.hospital (Examples.new_year_2024 + 120)
         "monthly" None None (Some Examples.new_year_2024)
         (Some (Examples.new_year_2024 + 120)) = Ok out
       /\ map Trends.period_dt out
          = [Some "2024-01-01"; Some "2024-02-01"; Some "2024-04-01"]%string
       /\ NoDup (map Trends.period out).
Proof.
  split; [vm_compute; discriminate |].
  split; [vm_compute; discriminate |].
  split; [reflexivity |].
  destruct (trend_points_strictly_ordered Examples.hospital
              (Examples.new_year_2024 + 120) "monthly" None None
              (Some Examples.new_year_2024)
              (Some (Examples.new_year_2024 + 120))
              ltac:(vm_compute; discriminate)
              ltac:(vm_compute; discriminate) eq_refl)
    as (out & starts & E & _ & _ & _ & Hnd).
  exists out. split; [exact E |]. split; [| exact Hnd].
  vm_compute in E. inversion E. reflexivity.
Defined.

Lemma quarterly_label_is_year_dash_number_witness :
  fails Examples.hospital TrendPeriods = false
  /\ date_min <= Examples.new_year_2024
  /\ Examples.new_year_2024 + 120 <= date_max
  /\ exists out,
       Trends.get_trends Examples.hospital (Examples.new_year_2024 + 120)
         "quarterly" None None (Some Examples.new_year_2024)
         (Some (Examples.new_year_2024 + 120)) = Ok out
       /\ map Trends.period out = ["2024-1"; "2024-2"]%string
       /\ forall pt, In pt out -> String.length (Trends.period pt) = 6%nat.
Proof.
  split; [reflexivity |].
  split; [vm_compute; discriminate |].
  split; [vm_compute; discriminate |].
  destruct (quarterly_label_is_year_dash_number Examples.hospital
              (Examples.new_year_2024 + 120) None None
              (Some Examples.new_year_2024)
              (Some (Examples.new_year_2024 + 120)) eq_refl
              ltac:(vm_compute; discriminate)
              ltac:(vm_compute; discriminate))
    as (out & E & H).
  exists out. split; [exact E |].
  split; [vm_compute in E; inversion E; reflexivity |].
  intros pt Hpt.
  destruct (H pt Hpt) as (ad & y & q & _ & _ & _ & _ & _ & -> & Ly & Lq).
  clear - Ly Lq. revert Ly Lq.
  generalize (zero_pad 4 y) (decimal q). intros s1 s2 L1 L2.
  destruct s1 as [| c1 [| c2 [| c3 [| c4 [| c5 s1]]]]]; try discriminate.
  destruct s2 as [| e1 [| e2 s2]]; try discriminate. reflexivity.
Defined.

(** C10 with the letter Q does not hold: the first quarter of 2024 is
    labelled with the quarter number alone. *)
Lemma quarterly_label_lacks_letter_q :
  exists pt rest,
    Trends.get_trends Examples.hospital (Examples.new_year_2024 + 120)
      "quarterly" None None (Some Examples.new_year_2024)
      (Some (Examples.new_year_2024 + 120)) = Ok (pt :: rest)
    /\ Trends.period pt = "2024-1"%string
    /\ Trends.period pt <> "2024-Q1"%string.
Proof.
  eexists. eexists. split; [vm_compute; reflexivity |].
  split; [reflexivity |]. discriminate.
Qed.

(** * Further properties of the services *)

(** ** Means *)

Lemma Qsum_ge (lo : Q) (l : list Q) :
  (forall x, In x l -> (lo <= x)%Q) ->
  (inject_Z (count l) * lo <= Qsum l)%Q.
Proof.
  induction l as [| x l IH]; intros H.
  - simpl. unfold count. simpl. rewrite Qmult_0_l. apply Qle_refl.
  - rewrite count_cons, inject_Z_plus. simpl Qsum.
    change (inject_Z 1) with 1%Q. rewrite Qmult_plus_distr_l, Qmult_1_l.
    apply Qplus_le_compat; [apply H; now left |].
    apply IH. intros y Hy. apply H. now right.
Qed.

Lemma Qsum_le (hi : Q) (l : list Q) :
  (forall x, In x l -> (x <= hi)%Q) ->
  (Qsum l <= inject_Z (count l) * hi)%Q.
Proof.
  induction l as [| x l IH]; intros H.
  - simpl. unfold count. simpl. rewrite Qmult_0_l. apply Qle_refl.
  - rewrite count_cons, inject_Z_plus. simpl Qsum.
    change (inject_Z 1) with 1%Q. rewrite Qmult_plus_distr_l, Qmult_1_l.
    apply Qplus_le_compat; [apply H; now left |].
    apply IH. intros y Hy. apply H. now right.
Qed.

Lemma count_pos_Q {A} (l : list A) :
  1 <= count l -> (0 < inject_Z (count l))%Q.
Proof. intros H. change 0%Q with (inject_Z 0). rewrite <- Zlt_Qlt. lia. Qed.

(** A mean over at least one value is at least a lower bound of the
    values and at most an upper bound of them. *)
Lemma avg_ge (lo : Q) (l : list Q) :
  1 <= count l ->
  (forall x, In x l -> (lo <= x)%Q) ->
  exists a, avg l = Some a /\ (lo <= a)%Q.
Proof.
  intros Hn H. rewrite (avg_some l Hn). eexists. split; [reflexivity |].
  apply Qle_shift_div_l; [now apply count_pos_Q |].
  rewrite Qmult_comm. now apply Qsum_ge.
Qed.

Lemma avg_le (hi : Q) (l : list Q) :
  1 <= count l ->
  (forall x, In x l -> (x <= hi)%Q) ->
  exists a, avg l = Some a /\ (a <= hi)%Q.
Proof.
  intros Hn H. rewrite (avg_some l Hn). eexists. split; [reflexivity |].
  apply Qle_shift_div_r; [now apply count_pos_Q |].
  rewrite Qmult_comm. now apply Qsum_le.
Qed.

Lemma py_round2_ge (n : Z) (q : Q) :
  (inject_Z n / 100 <= q)%Q -> (inject_Z n / 100 <= py_round2 q)%Q.
Proof.
  intros H. unfold py_round2. rewrite Qred_correct.
  assert (L : n <= round_half_even (q * 100)).
  { apply round_half_even_ge.
    apply (Qmult_le_compat_r _ _ 100) in H; [| discriminate].
    assert (E : (inject_Z n / 100 * 100 == inject_Z n)%Q) by field.
    now rewrite E in H. }
  unfold Qle, Qdiv. simpl. lia.
Qed.

Lemma py_round2_le (n : Z) (q : Q) :
  (q <= inject_Z n / 100)%Q -> (py_round2 q <= inject_Z n / 100)%Q.
Proof.
  intros H. unfold py_round2. rewrite Qred_correct.
  assert (L : round_half_even (q * 100) <= n).
  { apply round_half_even_le.
    apply (Qmult_le_compat_r _ _ 100) in H; [| discriminate].
    assert (E : (inject_Z n / 100 * 100 == inject_Z n)%Q) by field.
    now rewrite E in H. }
  unfold Qle, Qdiv. simpl. lia.
Qed.

(** ** Delayed-discharge flags *)

(** X1: every delayed-discharge flag reports at least five stays and a
    mean length of stay of at least 14 days, whatever the tables hold. *)
Theorem delayed_flag_count_and_mean
    (db : Database) (today : Z) (branch_ids : option (list Z))
    (date_from date_to : option Z)
    (b : Z) (bn : string) (d : Z) (dn : string) (n : Z) (v : Q) :
  In (Predictions.delayed_discharge b bn d dn n v)
     (Predictions.get_bottlenecks db today branch_ids date_from date_to) ->
  5 <= n /\ (14 <= v)%Q.
Proof.
  unfold Predictions.get_bottlenecks. intros Hin.
  apply in_app_iff in Hin as [Hin | Hin].
  2:{ exfalso. unfold try_except, execute in Hin.
      destruct (fails db BottleneckPeak); simpl in Hin; [tauto |].
      apply in_map_iff in Hin as (r & E & _). discriminate. }
  unfold try_except, execute in Hin.
  destruct (fails db BottleneckDelay); simpl in Hin; [tauto |].
  apply in_map_iff in Hin as (r & E & Hr).
  unfold Predictions.delay_query in Hr.
  apply in_order_by in Hr. apply filter_In in Hr as [Hr H5].
  apply Z.leb_le in H5.
  apply in_map_iff in Hr as ([k rows] & <- & Hg).
  apply (in_group_by _ _ delay_key_eqb_eq) in Hg as [_ Hrows].
  simpl in E, H5. inversion E; subst n v. clear E. split; [exact H5 |].
  destruct (avg_ge 14 (map Predictions.stay_los rows)) as (a & Ea & La).
  - rewrite count_map. lia.
  - intros x Hx. apply in_map_iff in Hx as (s & <- & Hs).
    rewrite Hrows in Hs. apply filter_In in Hs as [Hs _].
    apply filter_In in Hs as [_ Hc]. apply andb_prop in Hc as [_ Hc].
    apply Qlt_bool_iff in Hc. now apply Qlt_le_weak.
  - rewrite Ea. simpl or_default.
    apply Qle_trans with (inject_Z 1400 / 100)%Q; [vm_compute; discriminate |].
    apply py_round2_ge.
    apply Qle_trans with 14%Q; [vm_compute; discriminate | exact La].
Qed.

(** ** Threshold alerts *)

Lemma having_at_least_spec (v : option Q) (threshold : Q) :
  Predictive.having_at_least v threshold = true ->
  exists x, v = Some x /\ (threshold <= x)%Q.
Proof.
  unfold Predictive.having_at_least. destruct v as [x |]; [| discriminate].
  intros H. exists x. split; [reflexivity |]. now apply Qle_bool_iff.
Qed.

Lemma in_day_rows (pct : ResourceAllocation.row * Branch.row -> option Q)
    (rows : list (ResourceAllocation.row * Branch.row)) (r : Predictive.DayRow.t) :
  In r (Predictive.day_rows pct rows) ->
  exists rb,
    In rb rows
    /\ Predictive.DayRow.branch_id r = ResourceAllocation.branch_id (fst rb)
    /\ Predictive.DayRow.branch_name r = Branch.name (snd rb)
    /\ Predictive.DayRow.record_date r = ResourceAllocation.record_date (fst rb).
Proof.
  unfold Predictive.day_rows. intros H.
  apply in_map_iff in H as ([k g] & <- & Hg).
  apply (in_group_by _ _ day_key_eqb_eq) in Hg as [Hk _].
  apply in_map_iff in Hk as (rb & <- & Hrb).
  exists rb. repeat split. exact Hrb.
Qed.

(** X2: every alert that is returned carries a measured value at or above
    the threshold of its kind; bed and ICU alerts are warnings about one
    day, doctor alerts are informational and carry no day. *)
Theorem alerts_reach_their_threshold
    (db : Database) (today : Z) (branch_ids : option (list Z))
    (bed icu doc : Q) (date_from date_to : option Z)
    (out : list Predictive.Alert) (a : Predictive.Alert) :
  Predictive.get_threshold_alerts db today branch_ids bed icu doc
    date_from date_to = Ok out ->
  In a out ->
  (Predictive.threshold_pct a <= Predictive.value_pct a)%Q
  /\ ((Predictive.alert_type a = "high_bed_occupancy"%string
       /\ Predictive.severity a = "warning"%string
       /\ Predictive.threshold_pct a = bed
       /\ Predictive.record_date a <> None)
      \/ (Predictive.alert_type a = "high_icu_utilization"%string
          /\ Predictive.severity a = "warning"%string
          /\ Predictive.threshold_pct a = icu
          /\ Predictive.record_date a <> None)
      \/ (Predictive.alert_type a = "doctor_overutilization"%string
          /\ Predictive.severity a = "info"%string
          /\ Predictive.threshold_pct a = doc
          /\ Predictive.record_date a = None)).
Proof.
  unfold Predictive.get_threshold_alerts, execute.
  destruct (fails db AlertBed); [discriminate |].
  destruct (fails db AlertIcu); [discriminate |].
  destruct (fails db AlertDoctor); [discriminate |].
  cbn [bind]. intros E Hin. inversion E as [E']. clear E. subst out.
  apply in_app_iff in Hin as [Hin | Hin];
    [| apply in_app_iff in Hin as [Hin | Hin]].
  - apply in_map_iff in Hin as (r & <- & Hr).
    unfold Predictive.bed_query in Hr. apply in_order_by in Hr.
    apply filter_In in Hr as [_ Hh].
    apply having_at_least_spec in Hh as (x & Ex & Hx).
    cbn. rewrite Ex. cbn. split; [exact Hx |]. left.
    repeat split. discriminate.
  - apply in_map_iff in Hin as (r & <- & Hr).
    unfold Predictive.icu_query in Hr.
    apply filter_In in Hr as [_ Hh].
    apply having_at_least_spec in Hh as (x & Ex & Hx).
    cbn. rewrite Ex. cbn. split; [exact Hx |]. right. left.
    repeat split. discriminate.
  - apply in_map_iff in Hin as (r & <- & Hr).
    unfold Predictive.doctor_query in Hr.
    apply filter_In in Hr as [_ Hh].
    apply having_at_least_spec in Hh as (x & Ex & Hx).
    cbn. rewrite Ex. cbn. split; [exact Hx |]. right. right.
    repeat split.
Qed.

Lemma snapshot_facts (db : Database) (branch_ids : option (list Z))
    (date_from date_to : Z) (rb : ResourceAllocation.row * Branch.row) :
  In rb (Predictive.snapshots db branch_ids date_from date_to) ->
  In (fst rb) (resource_allocation db)
  /\ In (snd rb) (hospital_branches db)
  /\ Branch.branch_id (snd rb) = ResourceAllocation.branch_id (fst rb)
  /\ date_from <= ResourceAllocation.record_date (fst rb) <= date_to
  /\ any_clause branch_ids (ResourceAllocation.branch_id (fst rb)) = true.
Proof.
  unfold Predictive.snapshots. intros H. apply filter_In in H as [H C].
  destruct rb as [ra b]. apply in_join in H as (Ha & Hb & E).
  apply Z.eqb_eq in E. apply andb_prop in C as [C C3].
  apply andb_prop in C as [C1 C2]. apply Z.leb_le in C1, C2.
  cbn [fst snd] in *. tauto.
Qed.

(** X3: an ICU alert is only raised for a branch that has ICU beds, on a
    day within the requested range. *)
Theorem icu_alert_needs_icu_beds
    (db : Database) (today : Z) (branch_ids : option (list Z))
    (bed icu doc : Q) (date_from date_to : option Z)
    (out : list Predictive.Alert) (a : Predictive.Alert) :
  Predictive.get_threshold_alerts db today branch_ids bed icu doc
    date_from date_to = Ok out ->
  In a out ->
  Predictive.alert_type a = "high_icu_utilization"%string ->
  exists br day,
    In br (hospital_branches db)
    /\ Branch.branch_id br = Predictive.branch_id a
    /\ Branch.name br = Predictive.branch_name a
    /\ 0 < Branch.icu_beds br
    /\ Predictive.record_date a = Some (isoformat day)
    /\ or_default date_from (or_default date_to today - 7) <= day
       <= or_default date_to today.
Proof.
  unfold Predictive.get_threshold_alerts, execute.
  destruct (fails db AlertBed); [discriminate |].
  destruct (fails db AlertIcu); [discriminate |].
  destruct (fails db AlertDoctor); [discriminate |].
  cbn [bind]. intros E Hin Ht. inversion E as [E']. clear E. subst out.
  apply in_app_iff in Hin as [Hin | Hin];
    [| apply in_app_iff in Hin as [Hin | Hin]].
  - apply in_map_iff in Hin as (r & <- & _). discriminate Ht.
  - apply in_map_iff in Hin as (r & <- & Hr).
    unfold Predictive.icu_query in Hr.
    apply filter_In in Hr as [Hr _].
    apply in_day_rows in Hr as (rb & Hrb & Eb & En & Ed).
    apply filter_In in Hrb as [Hrb Hicu]. apply Z.ltb_lt in Hicu.
    apply snapshot_facts in Hrb as (_ & Hb & Eid & Hd & _).
    exists (snd rb), (ResourceAllocation.record_date (fst rb)).
    cbn. rewrite Eb, En, Ed. repeat split; try assumption; lia.
  - apply in_map_iff in Hin as (r & <- & _). discriminate Ht.
Qed.

(** ** Descending order *)

Lemma order_by_ext {A} (b1 b2 : A -> A -> bool) (l : list A) :
  (forall x y, b1 x y = b2 x y) -> Sql.order_by b1 l = Sql.order_by b2 l.
Proof.
  intros H. induction l as [| x l IH]; [reflexivity |].
  simpl. rewrite IH. clear IH.
  induction (Sql.order_by b2 l) as [| y r IH]; [reflexivity |].
  simpl. rewrite H, IH. reflexivity.
Qed.

Lemma StronglySorted_weaken {A} (R S : A -> A -> Prop) (l : list A) :
  (forall x y, R x y -> S x y) -> StronglySorted R l -> StronglySorted S l.
Proof.
  intros H. induction 1 as [| x l Hs IH Hf]; constructor; [exact IH |].
  eapply Forall_impl; [| exact Hf]. intros y. apply H.
Qed.

Lemma order_by_desc_sorted {A} (key : A -> Z) (l : list A) :
  StronglySorted (fun x y => key y <= key x) (Sql.order_by (Sql.desc key) l).
Proof.
  rewrite (order_by_ext (Sql.desc key) (Sql.asc (fun x => - key x))).
  - apply StronglySorted_weaken
      with (R := fun x y => (fun x => - key x) x <= (fun x => - key x) y).
    + intros x y. cbv beta. lia.
    + apply order_by_sorted.
  - intros x y. unfold Sql.desc, Sql.asc.
    destruct (Z.ltb_spec (key y) (key x)), (Z.ltb_spec (- key x) (- key y));
      (reflexivity || lia).
Qed.

Lemma StronglySorted_map {A B} (f : A -> B) (R : B -> B -> Prop) (l : list A) :
  StronglySorted (fun x y => R (f x) (f y)) l -> StronglySorted R (map f l).
Proof.
  induction 1 as [| x l Hs IH Hf]; simpl; constructor; [exact IH |].
  apply Forall_forall. intros y Hy. apply in_map_iff in Hy as (a & <- & Ha).
  rewrite Forall_forall in Hf. now apply Hf.
Qed.

(** ** Bottleneck flags *)

(** X4: the delayed-discharge flags come first, then the peak-hour flags,
    each kind with its largest count first. *)
Theorem bottlenecks_ordered
    (db : Database) (today : Z) (branch_ids : option (list Z))
    (date_from date_to : option Z) :
  exists delayed peaks,
    Predictions.get_bottlenecks db today branch_ids date_from date_to
    = delayed ++ peaks
    /\ Forall (fun f => Predictions.flag_type f = "delayed_discharge"%string)
         delayed
    /\ Forall (fun f => Predictions.flag_type f = "peak_hour_surplus"%string)
         peaks
    /\ StronglySorted
         (fun f g => Predictions.flagged_count g <= Predictions.flagged_count f)
         delayed
    /\ StronglySorted
         (fun f g => Predictions.flagged_count g <= Predictions.flagged_count f)
         peaks.
Proof.
  unfold Predictions.get_bottlenecks. eexists. eexists.
  split; [reflexivity |]. unfold try_except, execute.
  repeat split.
  - destruct (fails db BottleneckDelay); simpl; [constructor |].
    apply Forall_forall. intros f Hf.
    apply in_map_iff in Hf as (r & <- & _). reflexivity.
  - destruct (fails db BottleneckPeak); simpl; [constructor |].
    apply Forall_forall. intros f Hf.
    apply in_map_iff in Hf as (r & <- & _). reflexivity.
  - destruct (fails db BottleneckDelay); simpl; [constructor |].
    apply StronglySorted_map. simpl. unfold Predictions.delay_query.
    apply order_by_desc_sorted.
  - destruct (fails db BottleneckPeak); simpl; [constructor |].
    apply StronglySorted_map. simpl. unfold Predictions.peak_query.
    apply order_by_desc_sorted.
Qed.

Lemma Zsum_filter_le {A} (f : A -> Z) (p : A -> bool) (l : list A) :
  (forall x, In x l -> 0 <= f x) ->
  Zsum (map f (filter p l)) <= Zsum (map f l).
Proof.
  induction l as [| x l IH]; intros H; [simpl; lia |].
  assert (Hx := H x (or_introl eq_refl)).
  assert (IH' := IH (fun y Hy => H y (or_intror Hy))).
  change (Zsum (map f (x :: l))) with (f x + Zsum (map f l)).
  cbn [filter]. destruct (p x); [| lia].
  change (Zsum (map f (x :: filter p l)))
    with (f x + Zsum (map f (filter p l))). lia.
Qed.

Lemma Zsum_lower {A} (f : A -> Z) (l : list A) (c : Z) :
  (forall x, In x l -> c <= f x) -> count l * c <= Zsum (map f l).
Proof.
  induction l as [| x l IH]; intros H.
  - unfold count. simpl. lia.
  - rewrite count_cons.
    change (Zsum (map f (x :: l))) with (f x + Zsum (map f l)).
    assert (Hx := H x (or_introl eq_refl)).
    assert (IH' := IH (fun y Hy => H y (or_intror Hy))). nia.
Qed.

Lemma NoDup_map_filter {V K} (keep : V -> bool) (col : V -> K)
    (rows : list V) :
  NoDup (map col rows) -> NoDup (map col (filter keep rows)).
Proof.
  induction rows as [| x l IH]; simpl; intros H; [constructor |].
  inversion H as [| ? ? Hn Hd]; subst.
  destruct (keep x); simpl; [constructor |]; auto.
  intros Hin. apply Hn. apply in_map_iff in Hin as (a & E & Ha).
  apply filter_In in Ha as [Ha _]. apply in_map_iff. now exists a.
Qed.

Lemma hour_of_range (ts : Z) : 0 <= hour_of ts <= 23.
Proof.
  unfold hour_of, usecs_per_day, usecs_per_hour, usecs_per_sec.
  assert (H : 0 <= ts mod (86400 * 1000000) < 86400 * 1000000)
    by (apply Z.mod_pos_bound; lia).
  split.
  - apply Z.div_pos; lia.
  - apply Z.lt_succ_r. apply Z.div_lt_upper_bound; lia.
Qed.

(** Hours whose count exceeds twice the mean over 24 hours: fewer than
    twelve of them. *)
Lemma surplus_rows_bound (h : list (Z * Z)) :
  (forall r, In r h -> 0 <= snd r) ->
  count (filter (fun r =>
                   match Predictions.avg_per_hour h with
                   | Some a => Sql.Qlt_bool (2 * a) (inject_Z (snd r))
                   | None => false
                   end) h) <= 11.
Proof.
  intros Hpos.
  set (p := fun r : Z * Z =>
              match Predictions.avg_per_hour h with
              | Some a => Sql.Qlt_bool (2 * a) (inject_Z (snd r))
              | None => false
              end).
  set (T := Zsum (map snd h)).
  assert (HT : 0 <= T).
  { assert (L0 := Zsum_lower snd h 0 Hpos). fold T in L0. lia. }
  assert (Ha : forall a, Predictions.avg_per_hour h = Some a ->
                 (a == inject_Z T / 24)%Q).
  { unfold T. clear. intros a Ea. unfold Predictions.avg_per_hour in Ea.
    destruct h as [| r0 h0]; [discriminate |].
    injection Ea as <-.
    rewrite <- (map_map snd inject_Z), Qsum_inject.
    change (Zsum (map snd (r0 :: h0))) with (snd r0 + Zsum (map snd h0)).
    rewrite inject_Z_plus. reflexivity. }
  assert (Hp : forall r, In r (filter p h) -> T + 1 <= 12 * snd r).
  { intros r Hr. apply filter_In in Hr as [Hr Hc]. unfold p in Hc.
    destruct (Predictions.avg_per_hour h) as [a |] eqn:Ea; [| discriminate].
    apply Qlt_bool_iff in Hc. rewrite (Ha a eq_refl) in Hc.
    assert (L : (inject_Z T < inject_Z (12 * snd r))%Q).
    { rewrite inject_Z_mult.
      apply Qmult_lt_l with (z := 12%Q) in Hc; [| reflexivity].
      assert (E : (12 * (2 * (inject_Z T / 24)) == inject_Z T)%Q) by field.
      rewrite E in Hc. exact Hc. }
    rewrite <- Zlt_Qlt in L. lia. }
  assert (L1 := Zsum_filter_le snd p h Hpos). fold T in L1.
  assert (L2 : count (filter p h) * (T + 1)
               <= Zsum (map (fun r => 12 * snd r) (filter p h)))
    by (apply Zsum_lower; exact Hp).
  assert (E : Zsum (map (fun r => 12 * snd r) (filter p h))
              = 12 * Zsum (map snd (filter p h))).
  { clear. induction (filter p h) as [| r l IH]; [reflexivity |].
    change (Zsum (map (fun r0 => 12 * snd r0) (r :: l)))
      with (12 * snd r + Zsum (map (fun r0 => 12 * snd r0) l)).
    change (Zsum (map snd (r :: l))) with (snd r + Zsum (map snd l)).
    lia. }
  assert (Hc := count_nonneg (filter p h)).
  nia.
Qed.

(** X5: never more than eleven peak-hour flags; no hour is flagged
    twice, every flagged hour is an hour of the day and has at least one
    admission. *)
Theorem peak_flags_few_and_distinct
    (db : Database) (today : Z) (branch_ids : option (list Z))
    (date_from date_to : option Z) :
  exists peaks : list (Z * Z),
    filter (fun f => (Predictions.flag_type f =? "peak_hour_surplus")%string)
      (Predictions.get_bottlenecks db today branch_ids date_from date_to)
    = map (fun r => Predictions.peak_hour_surplus (fst r) (snd r)) peaks
    /\ count peaks <= 11
    /\ NoDup (map fst peaks)
    /\ forall r, In r peaks -> 0 <= fst r <= 23 /\ 1 <= snd r.
Proof.
  unfold Predictions.get_bottlenecks. rewrite filter_app.
  set (from_ := or_default date_from (today - 30)).
  set (to_ := or_default date_to today).
  assert (E1 : forall l : list Predictions.DelayRow.t,
    filter (fun f => (Predictions.flag_type f =? "peak_hour_surplus")%string)
      (map (fun r =>
              Predictions.delayed_discharge (Predictions.DelayRow.branch_id r)
                (Predictions.DelayRow.branch_name r)
                (Predictions.DelayRow.department_id r)
                (Predictions.DelayRow.dept_name r)
                (Predictions.DelayRow.long_stay_count r)
                (py_round2 (or_default (Predictions.DelayRow.avg_los r) 0%Q)))
         l) = []).
  { induction l as [| r l IH]; [reflexivity | exact IH]. }
  assert (E2 : forall l : list (Z * Z),
    filter (fun f => (Predictions.flag_type f =? "peak_hour_surplus")%string)
      (map (fun r => Predictions.peak_hour_surplus (fst r) (snd r)) l)
    = map (fun r => Predictions.peak_hour_surplus (fst r) (snd r)) l).
  { induction l as [| r l IH]; [reflexivity |]. simpl. now rewrite IH. }
  unfold try_except, execute.
  destruct (fails db BottleneckPeak).
  { exists []. simpl bind. cbv iota.
    destruct (fails db BottleneckDelay); simpl bind; cbv iota.
    - repeat split; try constructor; try (unfold count; simpl; lia);
        contradiction.
    - rewrite E1. repeat split; try constructor;
        try (unfold count; simpl; lia); contradiction. }
  exists (Predictions.peak_query db branch_ids from_ to_).
  assert (Hh : forall r, In r (Predictions.hourly db branch_ids from_ to_) ->
                 0 <= fst r <= 23 /\ 1 <= snd r).
  { intros [h n] Hr. unfold Predictions.hourly in Hr.
    apply in_map_iff in Hr as ([k rows] & E & Hg). inversion E; subst.
    apply (in_group_by _ Z.eqb Zeqb_eq_sym) in Hg as [Hk ->].
    apply in_map_iff in Hk as (a & <- & Ha). simpl. split.
    - apply hour_of_range.
    - assert (In a (filter (fun a0 => hour_of (Admission.admission_at a)
                                      =? hour_of (Admission.admission_at a0))
                      (filter (Predictions.in_range branch_ids from_ to_)
                         (admissions db)))).
      { apply filter_In. split; [exact Ha | apply Z.eqb_refl]. }
      destruct (filter _ (filter _ (admissions db))) as [| x l];
        [contradiction |].
      rewrite count_cons. assert (Hc := count_nonneg l). lia. }
  repeat split.
  - simpl bind. cbv iota.
    destruct (fails db BottleneckDelay); simpl bind; cbv iota.
    + simpl app. apply E2.
    + rewrite E1. simpl app. apply E2.
  - unfold Predictions.peak_query.
    unfold count. rewrite (Permutation_length (order_by_perm _ _)).
    apply surplus_rows_bound. intros r Hr. apply Hh in Hr. lia.
  - unfold Predictions.peak_query.
    apply (Permutation_NoDup
             (Permutation_sym (Permutation_map fst (order_by_perm _ _)))).
    apply NoDup_map_filter. unfold Predictions.hourly.
    rewrite map_map. simpl.
    assert (N := NoDup_group_keys
                   (fun a => hour_of (Admission.admission_at a)) Z.eqb
                   Zeqb_eq_sym
                   (filter (Predictions.in_range branch_ids from_ to_)
                      (admissions db))).
    exact N.
  - apply Hh. unfold Predictions.peak_query in H.
    apply in_order_by in H. now apply filter_In in H as [H _].
  - apply Hh. unfold Predictions.peak_query in H.
    apply in_order_by in H. now apply filter_In in H as [H _].
  - apply Hh. unfold Predictions.peak_query in H.
    apply in_order_by in H. now apply filter_In in H as [H _].
Qed.

(** ** KPI summary: ranges of the figures *)

Lemma count_where_nonneg {A} (f : A -> bool) (l : list A) :
  0 <= Sql.count_where f l.
Proof. apply count_nonneg. Qed.

Lemma count_where_le {A} (f : A -> bool) (l : list A) :
  Sql.count_where f l <= count l.
Proof.
  induction l as [| x l IH]; [unfold Sql.count_where; simpl; lia |].
  rewrite count_where_cons, count_cons. destruct (f x); lia.
Qed.

(** Two conditions that exclude each other select at most all rows, and
    all of them when every row meets one of the two. *)
Lemma disjoint_counts {A} (p q : A -> bool) (l : list A) :
  (forall x, In x l -> p x && q x = false) ->
  Sql.count_where p l + Sql.count_where q l <= count l
  /\ ((forall x, In x l -> p x || q x = true) ->
      Sql.count_where p l + Sql.count_where q l = count l).
Proof.
  induction l as [| x l IH]; intros H.
  - unfold Sql.count_where, count. simpl. split; [lia | reflexivity].
  - destruct (IH (fun y Hy => H y (or_intror Hy))) as [IH1 IH2].
    assert (Hx := H x (or_introl eq_refl)).
    rewrite !count_where_cons, count_cons. split.
    + destruct (p x), (q x); try discriminate; lia.
    + intros Hall. assert (Hx2 := Hall x (or_introl eq_refl)).
      assert (IH3 := IH2 (fun y Hy => Hall y (or_intror Hy))).
      destruct (p x), (q x); try discriminate; lia.
Qed.

(** X6: the emergency and the scheduled cases of a summary are disjoint
    parts of its admissions; together they are all of them when every
    episode is an emergency, a scheduled case or a transfer.  Discharges
    always equal admissions. *)
Theorem case_types_within_total
    (db : Database) (branch_ids department_ids : option (list Z))
    (date_from date_to : option Z) (s : Kpis.KpiSummary) :
  Kpis.get_kpi_summary db branch_ids department_ids date_from date_to = Ok s ->
  0 <= Kpis.emergency_cases_count s
  /\ 0 <= Kpis.scheduled_cases_count s
  /\ Kpis.emergency_cases_count s + Kpis.scheduled_cases_count s
     <= Kpis.total_admissions s
  /\ Kpis.total_discharges s = Kpis.total_admissions s
  /\ ((forall ad,
         In ad (Kpis.adm db branch_ids department_ids date_from date_to) ->
         In (Admission.admission_type (fst ad))
            ["Emergency"; "Scheduled"; "Transfer"]%string) ->
      Kpis.emergency_cases_count s + Kpis.scheduled_cases_count s
      = Kpis.total_admissions s).
Proof.
  unfold Kpis.get_kpi_summary, execute.
  destruct (fails db KpiCore); [discriminate |]. cbn [bind].
  set (rows := Kpis.adm db branch_ids department_ids date_from date_to).
  unfold Kpis.core_query. fold rows. cbn [Kpis.CoreRow.total_admissions].
  destruct (Z.eqb_spec (count rows) 0) as [E0 | N0].
  - intros E. inversion E; subst s. cbn.
    repeat split; lia.
  - intros E. inversion E; subst s. clear E. cbn.
    set (p := Kpis.type_is "Emergency").
    set (q := fun ad => Kpis.type_is "Scheduled" ad
                        || Kpis.type_is "Transfer" ad).
    assert (D : forall x, In x rows -> p x && q x = false).
    { intros x _. unfold p, q, Kpis.type_is.
      destruct (String.eqb_spec (Admission.admission_type (fst x))
                  "Emergency") as [-> | N]; reflexivity. }
    destruct (disjoint_counts p q rows D) as [L1 L2].
    repeat split; try apply count_where_nonneg; try exact L1.
    intros Hall. apply L2. intros x Hx. specialize (Hall x Hx).
    unfold p, q, Kpis.type_is. simpl in Hall.
    destruct Hall as [<- | [<- | [<- | []]]]; reflexivity.
Qed.

(** A percentage of a part of a whole. *)
Lemma pct_of_bounds (a b : Z) (v : Q) :
  Sql.pct_of a b = Some v -> 0 <= a <= b -> (0 <= v <= 100)%Q.
Proof.
  unfold Sql.pct_of. destruct (Z.eqb_spec b 0) as [-> | N]; [discriminate |].
  intros E H. inversion E; subst v. clear E.
  assert (Hb : (0 < inject_Z b)%Q).
  { change 0%Q with (inject_Z 0). rewrite <- Zlt_Qlt. lia. }
  split.
  - apply Qle_shift_div_l; [exact Hb |]. rewrite Qmult_0_l.
    apply Qmult_le_0_compat; [| discriminate].
    change 0%Q with (inject_Z 0). rewrite <- Zle_Qle. lia.
  - apply Qle_shift_div_r; [exact Hb |].
    rewrite (Qmult_comm 100). apply Qmult_le_compat_r; [| discriminate].
    rewrite <- Zle_Qle. lia.
Qed.

Lemma avg_or_zero_bounds (lo hi : Q) (l : list Q) :
  (lo <= 0)%Q -> (0 <= hi)%Q ->
  (forall x, In x l -> (lo <= x <= hi)%Q) ->
  (lo <= or_default (avg l) 0 <= hi)%Q.
Proof.
  intros Hlo Hhi H. destruct l as [| x l].
  - simpl. now split.
  - assert (Hn : 1 <= count (x :: l)).
    { rewrite count_cons. assert (Hc := count_nonneg l). lia. }
    destruct (avg_ge lo (x :: l) Hn (fun y Hy => proj1 (H y Hy)))
      as (a & Ea & La).
    destruct (avg_le hi (x :: l) Hn (fun y Hy => proj2 (H y Hy)))
      as (a' & Ea' & La').
    rewrite Ea in Ea'. inversion Ea'; subst a'.
    rewrite Ea. simpl. now split.
Qed.

Lemma in_non_null {A} (l : list (option A)) (x : A) :
  In x (non_null l) <-> In (Some x) l.
Proof.
  induction l as [| [a |] l IH]; simpl.
  - tauto.
  - rewrite IH. split; intros [E | H]; auto; left; congruence.
  - rewrite IH. split; [auto |]. intros [E | H]; [discriminate | exact H].
Qed.

Lemma py_round2_zero : py_round2 0 = 0%Q.
Proof. reflexivity. Qed.

(** X7: the doctor utilisation of a summary lies between 0 and 100,
    whatever the schedule holds and whether or not its statement runs. *)
Theorem doctor_utilization_in_range
    (db : Database) (branch_ids department_ids : option (list Z))
    (date_from date_to : option Z) (s : Kpis.KpiSummary) :
  Kpis.get_kpi_summary db branch_ids department_ids date_from date_to = Ok s ->
  (0 <= Kpis.doctor_utilization_pct s <= 100)%Q.
Proof.
  unfold Kpis.get_kpi_summary, execute.
  destruct (fails db KpiCore); [discriminate |]. cbn [bind].
  destruct (_ =? 0).
  - intros E. inversion E; subst s. cbn. split; discriminate.
  - intros E. inversion E; subst s. clear E.
    cbn [Kpis.doctor_utilization_pct].
    apply py_round2_bounds.
    + destruct (fails db KpiUtilization); cbn; [discriminate |].
      destruct (Kpis.util_query db branch_ids date_from date_to) as [v |] eqn:Ev;
        cbn; [| discriminate].
      unfold Kpis.util_query in Ev.
      apply pct_of_bounds in Ev; [tauto |].
      split; [apply count_where_nonneg | apply count_where_le].
    + destruct (fails db KpiUtilization); cbn; [discriminate |].
      destruct (Kpis.util_query db branch_ids date_from date_to) as [v |] eqn:Ev;
        cbn; [| discriminate].
      unfold Kpis.util_query in Ev.
      apply pct_of_bounds in Ev; [tauto |].
      split; [apply count_where_nonneg | apply count_where_le].
Qed.

Lemma beds_within_capacity_spec (db : Database)
    (ra : ResourceAllocation.row) (b : Branch.row) :
  Facts.beds_within_capacity db = true ->
  In ra (resource_allocation db) -> In b (hospital_branches db) ->
  Branch.branch_id b = ResourceAllocation.branch_id ra ->
  0 <= ResourceAllocation.beds_occupied ra <= Branch.bed_count b.
Proof.
  unfold Facts.beds_within_capacity. intros H Hra Hb E.
  rewrite forallb_forall in H. specialize (H ra Hra).
  rewrite forallb_forall in H. specialize (H b Hb).
  rewrite E, Z.eqb_refl in H. simpl in H.
  apply andb_prop in H as [H1 H2]. apply Z.leb_le in H1, H2. lia.
Qed.

(** X8: when no snapshot reports more occupied beds than its branch has
    (or fewer than none), the bed occupancy of a summary lies between 0
    and 100. *)
Theorem bed_occupancy_in_range
    (db : Database) (branch_ids department_ids : option (list Z))
    (date_from date_to : option Z) (s : Kpis.KpiSummary) :
  Facts.beds_within_capacity db = true ->
  Kpis.get_kpi_summary db branch_ids department_ids date_from date_to = Ok s ->
  (0 <= Kpis.bed_occupancy_rate_pct s <= 100)%Q.
Proof.
  intros Hcap. unfold Kpis.get_kpi_summary, execute.
  destruct (fails db KpiCore); [discriminate |]. cbn [bind].
  destruct (_ =? 0).
  - intros E. inversion E; subst s. cbn. split; discriminate.
  - intros E. inversion E; subst s. clear E.
    cbn [Kpis.bed_occupancy_rate_pct].
    assert (B : (0 <= or_default
                        (Kpis.occ_query db branch_ids date_from date_to) 0
                 <= 100)%Q).
    { unfold Kpis.occ_query.
      apply avg_or_zero_bounds; try discriminate.
      intros x Hx. apply in_non_null in Hx.
      apply in_map_iff in Hx as ([ra b] & Ev & Hrb).
      apply filter_In in Hrb as [Hrb _].
      apply in_join in Hrb as (Hra & Hb & Eb). apply Z.eqb_eq in Eb.
      cbn [fst snd] in Ev.
      apply (pct_of_bounds _ _ _ Ev).
      now apply (beds_within_capacity_spec db). }
    apply py_round2_bounds;
      (destruct (fails db KpiOccupancy); cbn; [discriminate | tauto]).
Qed.

Lemma discharged_after_admission_spec (db : Database)
    (a : Admission.row) (d : Discharge.row) :
  Facts.discharged_after_admission db = true ->
  In a (admissions db) -> In d (discharges db) ->
  Discharge.admission_id d = Admission.admission_id a ->
  Admission.admission_at a <= Discharge.discharge_at d.
Proof.
  unfold Facts.discharged_after_admission. intros H Ha Hd E.
  rewrite forallb_forall in H. specialize (H a Ha).
  rewrite forallb_forall in H. specialize (H d Hd).
  rewrite E, Z.eqb_refl in H. simpl in H. now apply Z.leb_le in H.
Qed.

Lemma interval_days_nonneg (later earlier : Z) :
  earlier <= later -> (0 <= interval_days later earlier)%Q.
Proof.
  intros H. unfold interval_days, usecs_per_sec.
  apply Qle_shift_div_l; [reflexivity |]. rewrite Qmult_0_l.
  apply Qle_shift_div_l; [reflexivity |]. rewrite Qmult_0_l.
  change 0%Q with (inject_Z 0). rewrite <- Zle_Qle. lia.
Qed.

(** X9: when no episode is discharged before its admission, the average
    length of stay of a summary is not negative. *)
Theorem average_stay_not_negative
    (db : Database) (branch_ids department_ids : option (list Z))
    (date_from date_to : option Z) (s : Kpis.KpiSummary) :
  Facts.discharged_after_admission db = true ->
  Kpis.get_kpi_summary db branch_ids department_ids date_from date_to = Ok s ->
  (0 <= Kpis.avg_length_of_stay_days s)%Q.
Proof.
  intros Hfacts. unfold Kpis.get_kpi_summary, execute.
  destruct (fails db KpiCore); [discriminate |]. cbn [bind].
  destruct (_ =? 0).
  - intros E. inversion E; subst s. cbn. discriminate.
  - intros E. inversion E; subst s. clear E.
    cbn [Kpis.avg_length_of_stay_days Kpis.core_query Kpis.CoreRow.avg_los_days].
    apply Qle_trans with (inject_Z 0 / 100)%Q; [discriminate |].
    apply py_round2_ge.
    apply Qle_trans with 0%Q; [discriminate |].
    set (rows := Kpis.adm db branch_ids department_ids date_from date_to).
    assert (B : (0 <= or_default (avg (map Kpis.los_days rows)) 0
                 <= or_default (avg (map Kpis.los_days rows)) 0)%Q).
    { split; [| apply Qle_refl].
      destruct (map Kpis.los_days rows) as [| x l] eqn:El;
        [discriminate |].
      rewrite <- El.
      destruct (avg_ge 0 (map Kpis.los_days rows)) as (v & Ev & Lv).
      - rewrite El, count_cons. assert (Hc := count_nonneg l). lia.
      - intros y Hy. apply in_map_iff in Hy as ([a d] & <- & Had).
        unfold rows, Kpis.adm in Had. apply filter_In in Had as [Had _].
        apply in_join in Had as (Ha & Hd & E). apply Z.eqb_eq in E.
        apply interval_days_nonneg. cbn [fst snd].
        now apply (discharged_after_admission_spec db).
      - rewrite Ev. exact Lv. }
    tauto.
Qed.

(** ** Episodes without a discharge *)

Lemma join_open_admission (db : Database) (a : Admission.row) :
  (forall d, In d (discharges db) ->
             Discharge.admission_id d <> Admission.admission_id a) ->
  Sql.join (fun a0 d => Discharge.admission_id d =? Admission.admission_id a0)
    (admissions (Facts.with_admission a db))
    (discharges (Facts.with_admission a db))
  = Sql.join (fun a0 d => Discharge.admission_id d =? Admission.admission_id a0)
      (admissions db) (discharges db).
Proof.
  intros H. unfold Sql.join. cbn [Facts.with_admission admissions discharges].
  cbn [flat_map].
  rewrite (filter_none _ (discharges db)); [reflexivity |].
  intros d Hd. apply Z.eqb_neq. now apply H.
Qed.

(** X10: an admission that has no discharge row is not counted: adding
    it changes neither the admissions and discharges of a summary, nor its
    average length of stay, nor its outcome and case-type counts. *)
Theorem open_episode_not_counted
    (db : Database) (a : Admission.row)
    (branch_ids department_ids : option (list Z))
    (date_from date_to : option Z) (s s' : Kpis.KpiSummary) :
  (forall d, In d (discharges db) ->
             Discharge.admission_id d <> Admission.admission_id a) ->
  Kpis.get_kpi_summary db branch_ids department_ids date_from date_to = Ok s ->
  Kpis.get_kpi_summary (Facts.with_admission a db) branch_ids department_ids
    date_from date_to = Ok s' ->
  Kpis.total_admissions s' = Kpis.total_admissions s
  /\ Kpis.total_discharges s' = Kpis.total_discharges s
  /\ Kpis.avg_length_of_stay_days s' = Kpis.avg_length_of_stay_days s
  /\ Kpis.emergency_cases_count s' = Kpis.emergency_cases_count s
  /\ Kpis.scheduled_cases_count s' = Kpis.scheduled_cases_count s
  /\ Kpis.outcome_recovered s' = Kpis.outcome_recovered s
  /\ Kpis.outcome_improved s' = Kpis.outcome_improved s
  /\ Kpis.outcome_transferred s' = Kpis.outcome_transferred s
  /\ Kpis.outcome_deceased s' = Kpis.outcome_deceased s
  /\ Kpis.outcome_other s' = Kpis.outcome_other s.
Proof.
  intros Hopen.
  assert (Ec : Kpis.core_query (Facts.with_admission a db) branch_ids
                 department_ids date_from date_to
               = Kpis.core_query db branch_ids department_ids date_from
                   date_to).
  { unfold Kpis.core_query, Kpis.adm.
    now rewrite (join_open_admission db a Hopen). }
  unfold Kpis.get_kpi_summary, execute. rewrite Ec.
  change (fails (Facts.with_admission a db)) with (fails db).
  destruct (fails db KpiCore); [discriminate |]. cbn [bind].
  destruct (_ =? 0).
  - intros E E'. inversion E; inversion E'; subst. cbn. tauto.
  - intros E E'. inversion E; inversion E'; subst. cbn. tauto.
Qed.

(** X11: the trend series does not change either when an admission
    without a discharge row is added. *)
Theorem open_episode_not_in_trends
    (db : Database) (a : Admission.row) (today : Z) (granularity : string)
    (branch_ids department_ids : option (list Z))
    (date_from date_to : option Z) :
  (forall d, In d (discharges db) ->
             Discharge.admission_id d <> Admission.admission_id a) ->
  Trends.get_trends (Facts.with_admission a db) today granularity branch_ids
    department_ids date_from date_to
  = Trends.get_trends db today granularity branch_ids department_ids
      date_from date_to.
Proof.
  intros Hopen. unfold Trends.get_trends, execute.
  change (fails (Facts.with_admission a db)) with (fails db).
  unfold Trends.periods_query, Trends.adm.
  rewrite (join_open_admission db a Hopen). reflexivity.
Qed.

(** ** Trend series *)

Lemma Zsum_perm (l1 l2 : list Z) : Permutation l1 l2 -> Zsum l1 = Zsum l2.
Proof.
  induction 1 as [| x l l' _ IH | x y l | l l' l'' _ IH1 _ IH2].
  - reflexivity.
  - change (x + Zsum l = x + Zsum l'). lia.
  - change (y + (x + Zsum l) = x + (y + Zsum l)). lia.
  - congruence.
Qed.

Lemma Zsum_order_by {A} (before : A -> A -> bool) (f : A -> Z) (l : list A) :
  Zsum (map f (Sql.order_by before l)) = Zsum (map f l).
Proof. apply Zsum_perm, Permutation_map, order_by_perm. Qed.

(** Every group of a GROUP BY holds at least one row. *)
Lemma group_nonempty {A K} (key : A -> K) (eqb : K -> K -> bool)
    (eqb_eq : forall x y, eqb x y = true <-> x = y)
    (l : list A) (k : K) (rows : list A) :
  In (k, rows) (Sql.group_by key eqb l) -> 1 <= count rows.
Proof.
  intros H. apply (in_group_by key eqb eqb_eq) in H as [Hk ->].
  apply in_map_iff in Hk as (a & <- & Ha).
  assert (Hin : In a (filter (fun a0 => eqb (key a) (key a0)) l)).
  { apply filter_In. split; [exact Ha |]. now apply eqb_eq. }
  destruct (filter _ l) as [| x r]; [contradiction |].
  rewrite count_cons. assert (Hc := count_nonneg r). lia.
Qed.

(** X12: every closed episode of the cohort is counted in exactly one
    trend point: the admissions of the points add up to the cohort, no
    point is empty, and each point reports as many discharges as
    admissions. *)
Theorem trend_points_partition
    (db : Database) (today : Z) (granularity : string)
    (branch_ids department_ids : option (list Z))
    (date_from date_to : option Z) (out : list Trends.TrendPoint) :
  Trends.get_trends db today granularity branch_ids department_ids
    date_from date_to = Ok out ->
  Zsum (map Trends.admissions out)
  = count (Trends.adm db branch_ids department_ids
             (or_default date_from (today - 90)) (or_default date_to today))
  /\ forall p, In p out ->
       1 <= Trends.admissions p
       /\ Trends.discharges p = Trends.admissions p.
Proof.
  unfold Trends.get_trends, execute.
  destruct (fails db TrendPeriods); [discriminate |]. cbn [bind].
  intros E. inversion E as [E']. clear E E'. split.
  - rewrite map_map. cbn [Trends.admissions].
    unfold Trends.periods_query. rewrite Zsum_order_by, map_map.
    cbn [Trends.PeriodRow.admissions].
    apply (group_sizes_sum _ _ period_key_eqb_eq).
  - intros p Hp. apply in_map_iff in Hp as (r & <- & Hr).
    cbn [Trends.admissions Trends.discharges]. split; [| reflexivity].
    unfold Trends.periods_query in Hr. apply in_order_by in Hr.
    apply in_map_iff in Hr as ([k rows] & <- & Hg).
    cbn [Trends.PeriodRow.admissions snd].
    exact (group_nonempty _ _ period_key_eqb_eq _ _ _ Hg).
Qed.

(** X13: the trend series is lost only when the statement of the periods
    fails; when the occupancy statement fails the series is still
    returned, with occupancy 0 in every point. *)
Theorem trends_survive_occupancy_failure
    (db : Database) (today : Z) (granularity : string)
    (branch_ids department_ids : option (list Z))
    (date_from date_to : option Z) :
  (Trends.get_trends db today granularity branch_ids department_ids
     date_from date_to = Raised
   <-> fails db TrendPeriods = true)
  /\ (fails db TrendOccupancy = true ->
      forall out p,
        Trends.get_trends db today granularity branch_ids department_ids
          date_from date_to = Ok out ->
        In p out -> Trends.occupancy_pct p = 0%Q).
Proof.
  unfold Trends.get_trends, execute. split.
  - destruct (fails db TrendPeriods); cbn [bind]; split; intros H;
      (reflexivity || discriminate).
  - intros Hocc out p. rewrite Hocc.
    destruct (fails db TrendPeriods); [discriminate |]. cbn [bind try_except].
    intros E. inversion E as [E']. clear E E'. intros Hp.
    apply in_map_iff in Hp as (r & <- & _). reflexivity.
Qed.

(** Looking a key up in the dictionary built from one entry per key. *)
Lemma dict_get_entries (F : string -> Q) (keys : list string) (k : string)
    (default : Q) :
  Trends.dict_get (map (fun k' => (k', F k')) keys) k default
  = if existsb (String.eqb k) keys then F k else default.
Proof.
  induction keys as [| k' r IH]; [reflexivity |].
  cbn [map Trends.dict_get existsb]. rewrite (String.eqb_sym k k').
  destruct (String.eqb_spec k' k) as [-> | N]; [reflexivity | exact IH].
Qed.

Lemma existsb_eqb_in (k : string) (keys : list string) :
  existsb (String.eqb k) keys = true <-> In k keys.
Proof.
  rewrite existsb_exists. split.
  - intros (x & Hx & E). apply String.eqb_eq in E. now subst.
  - intros H. exists k. split; [exact H | apply String.eqb_refl].
Qed.


(** ** Moving-average series *)

Lemma map_nth_seq {A} (l : list A) (d : A) :
  map (fun i => nth i l d) (seq 0 (List.length l)) = l.
Proof.
  induction l as [| x l IH]; [reflexivity |].
  cbn [List.length seq map nth]. f_equal.
  rewrite <- seq_shift, map_map. exact IH.
Qed.

Lemma in_rows_preceding {A} (n i : nat) (l : list A) (x : A) :
  In x (Predictive.rows_preceding n i l) -> In x l.
Proof.
  unfold Predictive.rows_preceding. intros H.
  rewrite <- (firstn_skipn (S i) l). apply in_or_app. left.
  rewrite <- (firstn_skipn (i - n) (firstn (S i) l)).
  apply in_or_app. now right.
Qed.

Lemma rows_preceding_nonempty {A} (n i : nat) (l : list A) :
  (i < List.length l)%nat -> 1 <= count (Predictive.rows_preceding n i l).
Proof.
  intros H. unfold Predictive.rows_preceding, count.
  rewrite length_skipn, length_firstn. lia.
Qed.

Lemma round_half_away_ge (q : Q) (n : Z) :
  (inject_Z n <= q)%Q -> n <= round_half_away q.
Proof.
  intros H. unfold round_half_away. destruct (Qle_bool 0 q).
  - rewrite <- (Qfloor_Z n). apply Qfloor_resp_le.
    apply Qle_trans with q; [exact H |].
    rewrite <- (Qplus_0_r q) at 1. apply Qplus_le_r. discriminate.
  - unfold Qceiling.
    assert (L : Qfloor (- (q - (1 # 2))) < - n + 1); [| lia].
    rewrite Zlt_Qlt.
    apply Qle_lt_trans with (- (q - (1 # 2)))%Q; [apply Qfloor_le |].
    rewrite inject_Z_plus, inject_Z_opp.
    assert (E : (- (q - (1 # 2)) == - q + (1 # 2))%Q) by ring.
    rewrite E. clear E.
    apply Qle_lt_trans with (- inject_Z n + (1 # 2))%Q.
    + apply Qplus_le_l. now apply Qopp_le_compat.
    + apply Qplus_lt_r. reflexivity.
Qed.

Lemma pg_round2_ge (n : Z) (q : Q) :
  (inject_Z n / 100 <= q)%Q -> (inject_Z n / 100 <= pg_round2 q)%Q.
Proof.
  intros H. unfold pg_round2. rewrite Qred_correct.
  assert (L : n <= round_half_away (q * 100)).
  { apply round_half_away_ge.
    apply (Qmult_le_compat_r _ _ 100) in H; [| discriminate].
    assert (E : (inject_Z n / 100 * 100 == inject_Z n)%Q) by field.
    now rewrite E in H. }
  unfold Qle, Qdiv. simpl. lia.
Qed.

(** X15: the moving-average series has one point per day with
    admissions, in strictly increasing order of the day and none before
    [today - days]; every admission in range is counted in exactly one
    point, and no point has an average below 1. *)
Theorem moving_average_series
    (db : Database) (today : Z) (branch_ids : option (list Z))
    (days window_days : Z) (out : list Predictive.TrendMa) :
  Predictive.get_admission_trend_with_moving_avg db today branch_ids days
    window_days = Ok out ->
  exists dts : list Z,
    map Predictive.date out = map isoformat dts
    /\ StronglySorted Z.lt dts
    /\ (forall z, In z dts -> today - days <= z)
    /\ Zsum (map Predictive.admissions out)
       = count (filter (fun a =>
                          (midnight (today - days)
                           <=? Admission.admission_at a)
                          && any_clause branch_ids (Admission.branch_id a))
                  (admissions db))
    /\ forall p, In p out ->
         1 <= Predictive.admissions p
         /\ (1 <= Predictive.moving_avg_7d p)%Q.
Proof.
  unfold Predictive.get_admission_trend_with_moving_avg, execute.
  destruct (fails db MovingAverage); [discriminate |]. cbn [bind].
  intros E. inversion E as [E']. clear E E'.
  unfold Predictive.moving_avg_query.
  set (ranged := filter (fun a =>
                           (midnight (today - days)
                            <=? Admission.admission_at a)
                           && any_clause branch_ids (Admission.branch_id a))
                   (admissions db)).
  set (ordered := Sql.order_by (Sql.asc fst)
                    (Predictive.daily db today branch_ids days)).
  assert (Hdaily : forall r, In r ordered ->
            today - days <= fst r /\ 1 <= snd r).
  { intros r Hr. unfold ordered in Hr. apply in_order_by in Hr.
    unfold Predictive.daily in Hr. fold ranged in Hr.
    apply in_map_iff in Hr as ([k rows] & <- & Hg). cbn [fst snd]. split.
    - apply (in_group_by _ Z.eqb Zeqb_eq_sym) in Hg as [Hk _].
      apply in_map_iff in Hk as (a & <- & Ha).
      apply filter_In in Ha as [_ Hc]. apply andb_prop in Hc as [Hc _].
      apply Z.leb_le in Hc. unfold date_of, midnight in *.
      apply Z.div_le_lower_bound; [reflexivity |]. lia.
    - exact (group_nonempty _ Z.eqb Zeqb_eq_sym _ _ _ Hg). }
  exists (map fst ordered). repeat split.
  - rewrite !map_map. cbn [Predictive.date Predictive.MaRow.dt].
    rewrite <- (map_map (fun i => nth i ordered (0, 0))
                  (fun r => isoformat (fst r))).
    now rewrite map_nth_seq.
  - unfold ordered. apply sorted_nodup_strict; [apply order_by_sorted |].
    apply (Permutation_NoDup
             (Permutation_sym (Permutation_map fst (order_by_perm _ _)))).
    unfold Predictive.daily. rewrite map_map. cbn [fst].
    apply (NoDup_group_keys _ Z.eqb Zeqb_eq_sym).
  - intros z Hz. apply in_map_iff in Hz as (r & <- & Hr).
    now apply Hdaily.
  - rewrite !map_map. cbn [Predictive.admissions Predictive.MaRow.admissions].
    rewrite <- (map_map (fun i => nth i ordered (0, 0)) snd).
    rewrite map_nth_seq. unfold ordered. rewrite Zsum_order_by.
    unfold Predictive.daily. fold ranged. rewrite map_map. cbn [snd].
    apply (group_sizes_sum _ Z.eqb Zeqb_eq_sym).
  - apply in_map_iff in H as (r & <- & Hr).
    apply in_map_iff in Hr as (i & <- & Hi).
    cbn [Predictive.admissions Predictive.MaRow.admissions].
    apply in_seq in Hi. apply Hdaily. apply nth_In. lia.
  - apply in_map_iff in H as (r & <- & Hr).
    apply in_map_iff in Hr as (i & <- & Hi).
    cbn [Predictive.moving_avg_7d Predictive.MaRow.moving_avg].
    apply in_seq in Hi.
    destruct (avg_ge 1 (map (fun x : Z * Z => inject_Z (snd x))
                          (Predictive.rows_preceding 6 i ordered)))
      as (v & Ev & Lv).
    + rewrite count_map. apply rows_preceding_nonempty. lia.
    + intros x Hx. apply in_map_iff in Hx as (r & <- & Hr).
      apply in_rows_preceding in Hr. apply Hdaily in Hr.
      change 1%Q with (inject_Z 1). rewrite <- Zle_Qle. lia.
    + rewrite Ev. cbn [option_map or_default].
      apply Qle_trans with (inject_Z 100 / 100)%Q; [discriminate |].
      apply pg_round2_ge.
      apply Qle_trans with 1%Q; [discriminate | exact Lv].
Qed.

(** ** Peak hours *)

Lemma slot_key_eqb_eq (k1 k2 : Z * Z) :
  Trends.slot_key_eqb k1 k2 = true <-> k1 = k2.
Proof.
  destruct k1 as [d1 h1], k2 as [d2 h2]. unfold Trends.slot_key_eqb.
  cbn [fst snd]. rewrite andb_true_iff, !Z.eqb_eq. split.
  - intros [-> ->]. reflexivity.
  - intros E. inversion E. tauto.
Qed.

Lemma dow_of_range (ts : Z) : 0 <= Trends.dow_of ts <= 6.
Proof.
  unfold Trends.dow_of.
  assert (H := Z.mod_pos_bound (date_of ts + 1) 7 ltac:(lia)). lia.
Qed.

Lemma NoDup_map_inj {A B} (f : A -> B) (l : list A) :
  (forall x y, f x = f y -> x = y) -> NoDup l -> NoDup (map f l).
Proof.
  intros Hinj. induction 1 as [| x l Hn Hd IH]; simpl; constructor; auto.
  intros Hin. apply in_map_iff in Hin as (y & E & Hy).
  apply Hinj in E. now subst.
Qed.

(** X16: the peak-hour rows are ordered by falling count; every admission
    in range is counted in exactly one of them, no row is empty and no
    hour (or day and hour) occurs twice; hours lie in 0..23 and days of
    the week, given exactly when asked for, in 0..6. *)
Theorem peak_hours_partition
    (s : Session) (today : Z) (branch_ids : option (list Z))
    (date_from date_to : option Z) (by_day_of_week : bool)
    (out : list Trends.PeakHour) :
  Trends.get_peak_hours s today branch_ids date_from date_to by_day_of_week
  = Ok out ->
  StronglySorted
    (fun x y => Trends.admissions_count y <= Trends.admissions_count x) out
  /\ Zsum (map Trends.admissions_count out)
     = count (Trends.peak_rows s branch_ids
                (or_default date_from (today - 30))
                (or_default date_to today))
  /\ NoDup (map (fun p => (Trends.day_of_week p, Trends.hour p)) out)
  /\ forall p, In p out ->
       1 <= Trends.admissions_count p
       /\ 0 <= Trends.hour p <= 23
       /\ match Trends.day_of_week p with
          | Some d => by_day_of_week = true /\ 0 <= d <= 6
          | None => by_day_of_week = false
          end.
Proof.
  unfold Trends.get_peak_hours, execute_query.
  set (from_ := or_default date_from (today - 30)).
  set (to_ := or_default date_to today).
  set (rows := Trends.peak_rows s branch_ids from_ to_).
  destruct by_day_of_week.
  - destruct (rejects s PeakHoursByDay); [discriminate |]. cbn [bind].
    intros E. inversion E as [E']. clear E E'.
    unfold Trends.by_day_query. fold rows. repeat split.
    + apply StronglySorted_map. cbn [Trends.admissions_count].
      apply order_by_desc_sorted.
    + rewrite map_map. cbn [Trends.admissions_count].
      rewrite Zsum_order_by, map_map. cbn [snd].
      apply (group_sizes_sum _ _ slot_key_eqb_eq).
    + rewrite map_map. cbn [Trends.day_of_week Trends.hour].
      rewrite <- (map_map fst (fun k : Z * Z => (Some (fst k), snd k))).
      apply NoDup_map_inj.
      * intros [d1 h1] [d2 h2] E. cbn in E. congruence.
      * apply (Permutation_NoDup
                 (Permutation_sym (Permutation_map fst (order_by_perm _ _)))).
        rewrite map_map. cbn [fst].
        apply (NoDup_group_keys _ _ slot_key_eqb_eq).
    + apply in_map_iff in H as (r & <- & Hr). cbn [Trends.admissions_count].
      apply in_order_by in Hr. apply in_map_iff in Hr as ([k g] & <- & Hg).
      exact (group_nonempty _ _ slot_key_eqb_eq _ _ _ Hg).
    + apply in_map_iff in H as (r & <- & Hr). cbn [Trends.hour].
      apply in_order_by in Hr. apply in_map_iff in Hr as ([k g] & <- & Hg).
      apply (in_group_by _ _ slot_key_eqb_eq) in Hg as [Hk _].
      apply in_map_iff in Hk as (a & <- & _). apply hour_of_range.
    + apply in_map_iff in H as (r & <- & Hr). cbn [Trends.hour].
      apply in_order_by in Hr. apply in_map_iff in Hr as ([k g] & <- & Hg).
      apply (in_group_by _ _ slot_key_eqb_eq) in Hg as [Hk _].
      apply in_map_iff in Hk as (a & <- & _). apply hour_of_range.
    + apply in_map_iff in H as (r & <- & Hr). cbn [Trends.day_of_week].
      apply in_order_by in Hr. apply in_map_iff in Hr as ([k g] & <- & Hg).
      apply (in_group_by _ _ slot_key_eqb_eq) in Hg as [Hk _].
      apply in_map_iff in Hk as (a & <- & _).
      split; [reflexivity | apply dow_of_range].
  - destruct (rejects s PeakHours); [discriminate |]. cbn [bind].
    intros E. inversion E as [E']. clear E E'.
    unfold Trends.by_hour_query. fold rows. repeat split.
    + apply StronglySorted_map. cbn [Trends.admissions_count].
      apply order_by_desc_sorted.
    + rewrite map_map. cbn [Trends.admissions_count].
      rewrite Zsum_order_by, map_map. cbn [snd].
      apply (group_sizes_sum _ Z.eqb Zeqb_eq_sym).
    + rewrite map_map. cbn [Trends.day_of_week Trends.hour].
      rewrite <- (map_map fst (fun h : Z => (@None Z, h))).
      apply NoDup_map_inj.
      * intros h1 h2 E. congruence.
      * apply (Permutation_NoDup
                 (Permutation_sym (Permutation_map fst (order_by_perm _ _)))).
        rewrite map_map. cbn [fst].
        apply (NoDup_group_keys _ Z.eqb Zeqb_eq_sym).
    + apply in_map_iff in H as (r & <- & Hr). cbn [Trends.admissions_count].
      apply in_order_by in Hr. apply in_map_iff in Hr as ([k g] & <- & Hg).
      exact (group_nonempty _ Z.eqb Zeqb_eq_sym _ _ _ Hg).
    + apply in_map_iff in H as (r & <- & Hr). cbn [Trends.hour].
      apply in_order_by in Hr. apply in_map_iff in Hr as ([k g] & <- & Hg).
      apply (in_group_by _ Z.eqb Zeqb_eq_sym) in Hg as [Hk _].
      apply in_map_iff in Hk as (a & <- & _). apply hour_of_range.
    + apply in_map_iff in H as (r & <- & Hr). cbn [Trends.hour].
      apply in_order_by in Hr. apply in_map_iff in Hr as ([k g] & <- & Hg).
      apply (in_group_by _ Z.eqb Zeqb_eq_sym) in Hg as [Hk _].
      apply in_map_iff in Hk as (a & <- & _). apply hour_of_range.
    + apply in_map_iff in H as (r & <- & Hr). reflexivity.
Qed.

(** X17: every peak-hour flag of the bottleneck report is a row of the
    peak-hour listing for the same filter, with the same count. *)
Theorem peak_flag_is_a_peak_hour
    (s : Session) (today : Z) (branch_ids : option (list Z))
    (date_from date_to : option Z) (h n : Z) (out : list Trends.PeakHour) :
  In (Predictions.peak_hour_surplus h n)
     (Predictions.get_bottlenecks s today branch_ids date_from date_to) ->
  Trends.get_peak_hours s today branch_ids date_from date_to false = Ok out ->
  In {| Trends.hour := h; Trends.day_of_week := None;
        Trends.admissions_count := n |} out.
Proof.
  unfold Predictions.get_bottlenecks, Trends.get_peak_hours, execute_query.
  intros Hin. destruct (rejects s PeakHours); [discriminate |]. cbn [bind].
  intros E. inversion E as [E']. clear E E'.
  apply in_app_iff in Hin as [Hin | Hin].
  { exfalso. unfold try_except, execute in Hin.
    destruct (fails s BottleneckDelay); simpl in Hin; [tauto |].
    apply in_map_iff in Hin as (r & E & _). discriminate. }
  unfold try_except, execute in Hin.
  destruct (fails s BottleneckPeak); simpl in Hin; [tauto |].
  apply in_map_iff in Hin as ([h' n'] & E & Hr). inversion E; subst h' n'.
  unfold Predictions.peak_query in Hr. apply in_order_by in Hr.
  apply filter_In in Hr as [Hr _].
  apply in_map_iff. exists (h, n). split; [reflexivity |].
  unfold Trends.by_hour_query. apply in_order_by. exact Hr.
Qed.

(** X18: the listing by day of week refines the listing by hour: the
    counts of an hour over the days of the week add up to the count of
    that hour. *)
Theorem peak_hours_by_day_refine
    (s : Session) (today : Z) (branch_ids : option (list Z))
    (date_from date_to : option Z)
    (by_day by_hour : list Trends.PeakHour) (p : Trends.PeakHour) :
  Trends.get_peak_hours s today branch_ids date_from date_to true
  = Ok by_day ->
  Trends.get_peak_hours s today branch_ids date_from date_to false
  = Ok by_hour ->
  In p by_hour ->
  Zsum (map Trends.admissions_count
          (filter (fun q => Trends.hour q =? Trends.hour p) by_day))
  = Trends.admissions_count p.
Proof.
  unfold Trends.get_peak_hours, execute_query.
  set (from_ := or_default date_from (today - 30)).
  set (to_ := or_default date_to today).
  destruct (rejects s PeakHoursByDay); [discriminate |].
  destruct (rejects s PeakHours); [discriminate |]. cbn [bind].
  intros E1 E2. inversion E1 as [E1']. inversion E2 as [E2'].
  clear E1 E2 E1' E2'. intros Hp.
  apply in_map_iff in Hp as ([h n] & <- & Hr).
  cbn [Trends.hour Trends.admissions_count fst snd].
  unfold Trends.by_hour_query in Hr. apply in_order_by in Hr.
  apply in_map_iff in Hr as ([k g] & E & Hg). inversion E; subst k n.
  clear E. cbn [snd].
  apply (in_group_by _ Z.eqb Zeqb_eq_sym) in Hg as [_ ->].
  set (rows := Trends.peak_rows s branch_ids from_ to_).
  set (rows_h := filter (fun a => h =? hour_of (Admission.admission_at a))
                   rows).
  rewrite filter_map_comm
    with (f := fun r : Z * Z * Z =>
                 {| Trends.hour := snd (fst r);
                    Trends.day_of_week := Some (fst (fst r));
                    Trends.admissions_count := snd r |})
         (p := fun q => Trends.hour q =? h).
  cbn [Trends.hour]. rewrite map_map. cbn [Trends.admissions_count].
  unfold Trends.by_day_query. fold rows.
  rewrite (Zsum_perm _ _
             (Permutation_map snd
                (filter_perm (fun r : Z * Z * Z => snd (fst r) =? h) _ _
                   (order_by_perm _ _)))).
  rewrite filter_map_comm
    with (f := fun g : Z * Z * list Admission.row => (fst g, count (snd g)))
         (p := fun r : Z * Z * Z => snd (fst r) =? h).
  cbn [fst snd]. rewrite map_map. cbn [snd].
  unfold Sql.group_by.
  rewrite filter_map_comm
    with (f := fun k : Z * Z =>
                 (k, filter (fun a => Trends.slot_key_eqb k (Trends.slot_key a))
                       rows))
         (p := fun g : Z * Z * list Admission.row => snd (fst g) =? h).
  cbn [fst]. rewrite map_map. cbn [snd].
  set (ks := filter (fun k : Z * Z => snd k =? h)
               (Sql.distinct Trends.slot_key_eqb (map Trends.slot_key rows))).
  transitivity
    (Zsum (map (fun k =>
                  count (filter (fun a => Trends.slot_key_eqb k
                                            (Trends.slot_key a)) rows_h))
             ks)).
  - f_equal. apply map_ext_in. intros k Hk. f_equal.
    unfold ks in Hk. apply filter_In in Hk as [_ Hk]. apply Z.eqb_eq in Hk.
    unfold rows_h. rewrite filter_filter. apply filter_ext. intros a.
    destruct (Trends.slot_key_eqb k (Trends.slot_key a)) eqn:Ek;
      [| now rewrite andb_false_r].
    apply slot_key_eqb_eq in Ek. subst k. cbn [Trends.slot_key snd] in Hk.
    rewrite Hk, Z.eqb_refl. reflexivity.
  - apply (filter_sizes_sum _ _ slot_key_eqb_eq).
    + unfold ks. apply NoDup_filter.
      apply (NoDup_distinct _ slot_key_eqb_eq).
    + intros a Ha. unfold rows_h in Ha. apply filter_In in Ha as [Ha Hh].
      apply Z.eqb_eq in Hh. unfold ks. apply filter_In. split.
      * apply (proj2 (in_distinct _ slot_key_eqb_eq _ _)).
        now apply in_map.
      * cbn [Trends.slot_key snd]. rewrite <- Hh. apply Z.eqb_refl.
Qed.

(** ** Occupancy forecast *)

Lemma round_half_away_mono (p q : Q) :
  (p <= q)%Q -> round_half_away p <= round_half_away q.
Proof.
  intros H. unfold round_half_away.
  destruct (Qle_bool 0 p) eqn:Ep, (Qle_bool 0 q) eqn:Eq.
  - apply Qfloor_resp_le. now apply Qplus_le_l.
  - apply Qle_bool_iff in Ep.
    assert (L : (0 <= q)%Q) by (eapply Qle_trans; eassumption).
    apply Qle_bool_iff in L. congruence.
  - assert (Hp : (p < 0)%Q).
    { apply Qnot_le_lt. intros L. apply Qle_bool_iff in L. congruence. }
    apply Qle_bool_iff in Eq.
    apply Z.le_trans with 0.
    + unfold Qceiling.
      assert (L : 0 <= Qfloor (- (p - (1 # 2)))); [| lia].
      rewrite <- (Qfloor_Z 0). apply Qfloor_resp_le.
      assert (E : (- (p - (1 # 2)) == - p + (1 # 2))%Q) by ring.
      rewrite E. change (inject_Z 0) with (0 + 0)%Q.
      apply Qplus_le_compat; [| discriminate].
      apply Qlt_le_weak in Hp. apply Qopp_le_compat in Hp. exact Hp.
    + rewrite <- (Qfloor_Z 0). apply Qfloor_resp_le.
      change (inject_Z 0) with (0 + 0)%Q.
      apply Qplus_le_compat; [exact Eq | discriminate].
  - apply Qceiling_resp_le. now apply Qplus_le_l.
Qed.

(** [ROUND(x, 2)] never reverses the order of two values. *)
Lemma pg_round2_mono (p q : Q) : (p <= q)%Q -> (pg_round2 p <= pg_round2 q)%Q.
Proof.
  intros H. unfold pg_round2. rewrite !Qred_correct.
  assert (L : round_half_away (p * 100) <= round_half_away (q * 100)).
  { apply round_half_away_mono. apply Qmult_le_compat_r; [exact H |].
    discriminate. }
  unfold Qle. simpl. lia.
Qed.

Lemma pg_round2_bounds (q : Q) :
  (0 <= q <= 100)%Q -> (0 <= pg_round2 q <= 100)%Q.
Proof.
  intros [H0 H1]. split.
  - change 0%Q with (pg_round2 0). now apply pg_round2_mono.
  - change 100%Q with (pg_round2 100). now apply pg_round2_mono.
Qed.

Lemma avg_bounds_some (lo hi v : Q) (l : list Q) :
  avg l = Some v ->
  (forall x, In x l -> (lo <= x <= hi)%Q) -> (lo <= v <= hi)%Q.
Proof.
  intros E H. destruct l as [| x l]; [discriminate |].
  assert (Hn : 1 <= count (x :: l)).
  { rewrite count_cons. assert (Hc := count_nonneg l). lia. }
  destruct (avg_ge lo (x :: l) Hn (fun y Hy => proj1 (H y Hy)))
    as (a & Ea & La).
  destruct (avg_le hi (x :: l) Hn (fun y Hy => proj2 (H y Hy)))
    as (a' & Ea' & La').
  rewrite E in Ea, Ea'. inversion Ea; inversion Ea'; subst. now split.
Qed.

(** The rows of [with_ma] are rows of its input, and each mean is taken
    over rows of the input. *)
Lemma in_with_ma (rows : list Predictive.DayRow.t)
    (r : Predictive.DayRow.t) (m : option Q) :
  In (r, m) (Predictive.with_ma rows) ->
  In r rows
  /\ exists w, m = avg (non_null (map Predictive.DayRow.pct w))
               /\ forall x, In x w -> In x rows.
Proof.
  unfold Predictive.with_ma. intros H.
  apply in_flat_map in H as ([k g] & Hg & H).
  apply (in_group_by _ Z.eqb Zeqb_eq_sym) in Hg as [_ ->]. cbn [snd] in H.
  set (part := Sql.order_by (Sql.asc Predictive.DayRow.record_date)
                 (filter (fun a => k =? Predictive.DayRow.branch_id a) rows))
    in *.
  assert (Hpart : forall x, In x part -> In x rows).
  { intros x Hx. unfold part in Hx. apply in_order_by in Hx.
    now apply filter_In in Hx as [Hx _]. }
  unfold Predictive.framed_means in H.
  apply in_map_iff in H as (i & E & Hi). inversion E; subst r m. clear E.
  apply in_seq in Hi. split.
  - apply Hpart. apply nth_In. lia.
  - exists (Predictive.rows_preceding 6 i part). split; [reflexivity |].
    intros x Hx. apply Hpart. now apply in_rows_preceding in Hx.
Qed.

Lemma in_forecast_query (db : Database) (today : Z) (branch_id : option Z)
    (days_lookback : Z) (threshold : Q) (r : Predictive.ForecastRow.t) :
  In r (Predictive.forecast_query db today branch_id days_lookback threshold) ->
  exists d m,
    In (d, m)
       (Predictive.with_ma
          (Predictive.daily_occ db today branch_id days_lookback))
    /\ Predictive.ForecastRow.occupancy_pct r
       = option_map pg_round2 (Predictive.DayRow.pct d)
    /\ Predictive.ForecastRow.moving_avg_7d r = option_map pg_round2 m
    /\ Predictive.ForecastRow.above_threshold r
       = Predictive.having_at_least (Predictive.DayRow.pct d) threshold.
Proof.
  unfold Predictive.forecast_query. intros H.
  apply in_map_iff in H as ([d m] & <- & Hd). apply in_order_by in Hd.
  exists d, m. repeat split. exact Hd.
Qed.

(** X19: the flag of a forecast row is decided on the unrounded mean, and
    agrees with the rounded figures: a flagged row shows at least the
    rounded threshold, an unflagged row at most the rounded threshold. *)
Theorem forecast_flag_matches_rounded_value
    (s : Session) (today : Z) (branch_id : option Z) (days_lookback : Z)
    (threshold : Q) (out : list Predictive.Forecast.t)
    (p : Predictive.Forecast.t) :
  (0 <= threshold)%Q ->
  Predictive.get_occupancy_forecast_simple s today branch_id days_lookback
    threshold = Ok out ->
  In p out ->
  if Predictive.Forecast.above_threshold p
  then (pg_round2 threshold <= Predictive.Forecast.occupancy_pct p)%Q
  else (Predictive.Forecast.occupancy_pct p <= pg_round2 threshold)%Q.
Proof.
  intros Hthr. unfold Predictive.get_occupancy_forecast_simple, execute_query.
  destruct (rejects s OccupancyForecast); [discriminate |]. cbn [bind].
  intros E. inversion E as [E']. clear E E'. intros Hp.
  apply in_map_iff in Hp as (r & <- & Hr).
  cbn [Predictive.Forecast.above_threshold Predictive.Forecast.occupancy_pct].
  apply in_forecast_query in Hr as (d & m & _ & -> & _ & ->).
  unfold Predictive.having_at_least.
  destruct (Predictive.DayRow.pct d) as [v |]; cbn [option_map or_default].
  - destruct (Qle_bool threshold v) eqn:Ev.
    + apply Qle_bool_iff in Ev. now apply pg_round2_mono.
    + apply pg_round2_mono. apply Qlt_le_weak. apply Qnot_le_lt.
      intros L. apply Qle_bool_iff in L. congruence.
  - change 0%Q with (pg_round2 0). now apply pg_round2_mono.
Qed.

Lemma in_daily_occ (db : Database) (today : Z) (branch_id : option Z)
    (days_lookback : Z) (d : Predictive.DayRow.t) (v : Q) :
  Facts.beds_within_capacity db = true ->
  In d (Predictive.daily_occ db today branch_id days_lookback) ->
  Predictive.DayRow.pct d = Some v -> (0 <= v <= 100)%Q.
Proof.
  intros Hcap Hd Ev. unfold Predictive.daily_occ, Predictive.day_rows in Hd.
  apply in_map_iff in Hd as ([k g] & <- & Hg).
  apply (in_group_by _ _ day_key_eqb_eq) in Hg as [_ ->].
  cbn [Predictive.DayRow.pct snd] in Ev.
  apply (avg_bounds_some _ _ _ _ Ev). intros x Hx.
  apply in_non_null in Hx. apply in_map_iff in Hx as ([ra b] & Ex & Hrb).
  apply filter_In in Hrb as [Hrb _]. apply filter_In in Hrb as [Hrb _].
  apply in_join in Hrb as (Hra & Hb & Eb). apply Z.eqb_eq in Eb.
  unfold Predictive.bed_pct in Ex. cbn [fst snd] in Ex.
  apply (pct_of_bounds _ _ _ Ex).
  now apply (beds_within_capacity_spec db).
Qed.

(** X20: when no snapshot reports more occupied beds than its branch has
    (or fewer than none), the occupancy and the moving average of every
    forecast row lie between 0 and 100. *)
Theorem forecast_values_in_range
    (s : Session) (today : Z) (branch_id : option Z) (days_lookback : Z)
    (threshold : Q) (out : list Predictive.Forecast.t)
    (p : Predictive.Forecast.t) :
  Facts.beds_within_capacity s = true ->
  Predictive.get_occupancy_forecast_simple s today branch_id days_lookback
    threshold = Ok out ->
  In p out ->
  (0 <= Predictive.Forecast.occupancy_pct p <= 100)%Q
  /\ (0 <= Predictive.Forecast.moving_avg_7d p <= 100)%Q.
Proof.
  intros Hcap. unfold Predictive.get_occupancy_forecast_simple, execute_query.
  destruct (rejects s OccupancyForecast); [discriminate |]. cbn [bind].
  intros E. inversion E as [E']. clear E E'. intros Hp.
  apply in_map_iff in Hp as (r & <- & Hr).
  cbn [Predictive.Forecast.moving_avg_7d Predictive.Forecast.occupancy_pct].
  apply in_forecast_query in Hr as (d & m & Hd & -> & -> & _).
  apply in_with_ma in Hd as (Hd & w & -> & Hw). split.
  - destruct (Predictive.DayRow.pct d) as [v |] eqn:Ev;
      cbn [option_map or_default]; [| split; discriminate].
    apply pg_round2_bounds.
    exact (in_daily_occ s today branch_id days_lookback d v Hcap Hd Ev).
  - destruct (avg (non_null (map Predictive.DayRow.pct w))) as [v |] eqn:Ev;
      cbn [option_map or_default]; [| split; discriminate].
    apply pg_round2_bounds. apply (avg_bounds_some _ _ _ _ Ev).
    intros x Hx. apply in_non_null in Hx.
    apply in_map_iff in Hx as (d' & Ed' & Hd').
    exact (in_daily_occ s today branch_id days_lookback d' x Hcap
             (Hw d' Hd') Ed').
Qed.

(** ** Calendar: the days of a month *)

Lemma civil_eta (c : civil) :
  c = {| year := year c; month := month c; day := day c |}.
Proof. destruct c. reflexivity. Qed.

(** Leap years repeat every 400 years. *)
Lemma is_leap_shift (y k : Z) :
  Reports.is_leap (y + 400 * k) = Reports.is_leap y.
Proof.
  unfold Reports.is_leap.
  replace (y + 400 * k) with (y + (100 * k) * 4) at 1 by lia.
  replace (y + 400 * k) with (y + (4 * k) * 100) at 1 by lia.
  replace (y + 400 * k) with (y + k * 400) by lia.
  now rewrite !Z.mod_add by lia.
Qed.

Lemma days_in_month_shift (y k m : Z) :
  Reports.days_in_month (y + 400 * k) m = Reports.days_in_month y m.
Proof. unfold Reports.days_in_month. now rewrite is_leap_shift. Qed.

Lemma days_in_month_range (y m : Z) : 28 <= Reports.days_in_month y m <= 31.
Proof.
  unfold Reports.days_in_month.
  destruct (m =? 2); [destruct (Reports.is_leap y); lia |].
  destruct ((m =? 4) || (m =? 6) || (m =? 9) || (m =? 11)); lia.
Qed.

Lemma days_from_civil_day (y m d : Z) :
  days_from_civil y m d = days_from_civil y m 1 + (d - 1).
Proof. unfold days_from_civil, doe_of_civil. lia. Qed.

Lemma days_from_civil_shift (y k m d : Z) :
  days_from_civil (y + 400 * k) m d = days_from_civil y m d + 146097 * k.
Proof.
  unfold days_from_civil, days_per_era.
  replace (if m <=? 2 then y + 400 * k - 1 else y + 400 * k)
    with ((if m <=? 2 then y - 1 else y) + k * 400)
    by (destruct (m <=? 2); lia).
  rewrite Z.div_add, Z.mod_add by lia. lia.
Qed.

(** Every date of a 400-year era, taken to its day of the era, converts
    back to itself. *)
Lemma era_dates_check :
  all_below 400 (fun yoe =>
    all_below 12 (fun m' =>
      let m := m' + 1 in
      let y := if m <=? 2 then yoe + 1 else yoe in
      let first := doe_of_civil yoe m 1 in
      all_below (Reports.days_in_month y m) (fun d' =>
        let c := civil_of_doe (first + d') in
        (0 <=? first) && (first + d' <? 146097)
        && (year c =? y) && (month c =? m) && (day c =? d' + 1))))
  = true.
Proof. vm_cast_no_check (eq_refl true). Qed.

(** In the years 0 to 399, the first of the next month comes as many
    days after the first of a month as the month has days. *)
Lemma era_next_month_check :
  all_below 400 (fun y =>
    all_below 12 (fun m' =>
      let m := m' + 1 in
      (if m =? 12 then days_from_civil (y + 1) 1 1
       else days_from_civil y (m + 1) 1)
      =? days_from_civil y m 1 + Reports.days_in_month y m))
  = true.
Proof. vm_cast_no_check (eq_refl true). Qed.

(** A valid date converts to days and back. *)
Lemma civil_of_date (y m d : Z) :
  1 <= m <= 12 -> 1 <= d <= Reports.days_in_month y m ->
  civil_from_days (days_from_civil y m d)
  = {| year := y; month := m; day := d |}.
Proof.
  intros Hm Hd. unfold civil_from_days, days_from_civil, days_per_era, era_shift.
  set (y' := if m <=? 2 then y - 1 else y).
  assert (Hy : 0 <= y' mod 400 < 400) by (apply Z.mod_pos_bound; lia).
  assert (Hq := Z.div_mod y' 400 ltac:(lia)).
  set (yoe := y' mod 400) in *. set (q := y' / 400) in *.
  assert (Ey : y = (if m <=? 2 then yoe + 1 else yoe) + 400 * q).
  { unfold y' in Hq. destruct (m <=? 2); lia. }
  assert (C := all_below_spec _ _ era_dates_check yoe Hy). cbv beta in C.
  assert (C' := all_below_spec _ _ C (m - 1) ltac:(lia)).
  cbv beta zeta in C'. replace (m - 1 + 1) with m in C' by lia.
  rewrite Ey, days_in_month_shift in Hd.
  assert (C'' := all_below_spec _ _ C' (d - 1) ltac:(lia)).
  cbv beta zeta in C''.
  repeat (apply andb_prop in C'' as [C'' ?]).
  repeat match goal with
         | H : (_ =? _) = true |- _ => apply Z.eqb_eq in H
         | H : (_ <=? _) = true |- _ => apply Z.leb_le in H
         | H : (_ <? _) = true |- _ => apply Z.ltb_lt in H
         end.
  assert (Ed : doe_of_civil yoe m d = doe_of_civil yoe m 1 + (d - 1))
    by (unfold doe_of_civil; lia).
  rewrite Ed. set (doe := doe_of_civil yoe m 1 + (d - 1)) in *.
  replace (q * 146097 + doe - 306 + 306) with (146097 * q + doe) by lia.
  rewrite <- (Z.div_unique (146097 * q + doe) 146097 q doe) by lia.
  rewrite <- (Z.mod_unique (146097 * q + doe) 146097 q doe) by lia.
  f_equal; lia.
Qed.

Lemma next_month_start (y m : Z) :
  1 <= m <= 12 ->
  (if m =? 12 then days_from_civil (y + 1) 1 1
   else days_from_civil y (m + 1) 1)
  = days_from_civil y m 1 + Reports.days_in_month y m.
Proof.
  intros Hm.
  assert (Hy : 0 <= y mod 400 < 400) by (apply Z.mod_pos_bound; lia).
  assert (Hq := Z.div_mod y 400 ltac:(lia)).
  set (r := y mod 400) in *. set (q := y / 400) in *.
  assert (C := all_below_spec _ _ era_next_month_check r Hy). cbv beta in C.
  assert (C' := all_below_spec _ _ C (m - 1) ltac:(lia)).
  cbv beta zeta in C'. replace (m - 1 + 1) with m in C' by lia.
  apply Z.eqb_eq in C'.
  replace y with (r + 400 * q) by lia.
  replace (r + 400 * q + 1) with (r + 1 + 400 * q) by lia.
  rewrite !days_from_civil_shift, days_in_month_shift.
  destruct (m =? 12); lia.
Qed.

(** Every day has a valid month and a day of that month. *)
Lemma civil_valid (z : Z) :
  let c := civil_from_days z in
  1 <= month c <= 12
  /\ 1 <= day c <= Reports.days_in_month (year c) (month c).
Proof.
  cbv zeta.
  assert (D := days_from_civil_from_days z). cbv zeta in D.
  assert (R : 1 <= month (civil_from_days z) <= 12
              /\ 1 <= day (civil_from_days z) <= 31).
  { unfold civil_from_days, days_per_era, era_shift. cbn [month day].
    assert (Hm : 0 <= (z + 306) mod 146097 < 146097)
      by (apply Z.mod_pos_bound; lia).
    destruct (civil_of_doe_facts _ Hm) as (_ & _ & Hmo & Hda & _).
    cbv zeta in Hmo, Hda. tauto. }
  set (c := civil_from_days z) in *. destruct R as [Rm Rd].
  split; [exact Rm |]. split; [lia |].
  assert (Rg := days_in_month_range (year c) (month c)).
  destruct (Z.le_gt_cases (day c) (Reports.days_in_month (year c) (month c)))
    as [L | G]; [exact L | exfalso].
  (* A day past the end of its month would be a day of the next month. *)
  assert (N := next_month_start (year c) (month c) Rm).
  rewrite days_from_civil_day in D.
  set (d' := day c - Reports.days_in_month (year c) (month c)) in *.
  destruct (Z.eqb_spec (month c) 12) as [E12 | N12].
  - assert (E : civil_from_days (days_from_civil (year c + 1) 1 d')
                = {| year := year c + 1; month := 1; day := d' |}).
    { apply civil_of_date; [lia |].
      assert (R1 := days_in_month_range (year c + 1) 1). lia. }
    rewrite days_from_civil_day in E.
    replace (days_from_civil (year c + 1) 1 1 + (d' - 1)) with z in E by lia.
    fold c in E. rewrite E in E12. discriminate.
  - assert (E : civil_from_days (days_from_civil (year c) (month c + 1) d')
                = {| year := year c; month := month c + 1; day := d' |}).
    { apply civil_of_date; [lia |].
      assert (R1 := days_in_month_range (year c) (month c + 1)). lia. }
    rewrite days_from_civil_day in E.
    replace (days_from_civil (year c) (month c + 1) 1 + (d' - 1)) with z in E
      by lia.
    fold c in E. apply (f_equal month) in E. cbn [month] in E. lia.
Qed.

(** The day after a day is the next day of its month, or the first day
    of the next month. *)
Lemma civil_succ (z : Z) :
  let c := civil_from_days z in
  let dim := Reports.days_in_month (year c) (month c) in
  1 <= month c <= 12
  /\ 1 <= day c <= dim
  /\ civil_from_days (z + 1)
     = if day c <? dim
       then {| year := year c; month := month c; day := day c + 1 |}
       else if month c =? 12
            then {| year := year c + 1; month := 1; day := 1 |}
            else {| year := year c; month := month c + 1; day := 1 |}.
Proof.
  cbv zeta. destruct (civil_valid z) as [Rm Rd]. cbv zeta in Rm, Rd.
  assert (D := days_from_civil_from_days z). cbv zeta in D.
  rewrite days_from_civil_day in D.
  set (c := civil_from_days z) in *.
  split; [exact Rm |]. split; [exact Rd |].
  destruct (Z.ltb_spec (day c) (Reports.days_in_month (year c) (month c)))
    as [L | G].
  - replace (z + 1) with (days_from_civil (year c) (month c) (day c + 1))
      by (rewrite days_from_civil_day; lia).
    apply civil_of_date; lia.
  - assert (N := next_month_start (year c) (month c) Rm).
    destruct (Z.eqb_spec (month c) 12) as [E12 | N12].
    + replace (z + 1) with (days_from_civil (year c + 1) 1 1) by lia.
      apply civil_of_month_start. lia.
    + replace (z + 1) with (days_from_civil (year c) (month c + 1) 1) by lia.
      apply civil_of_month_start. lia.
Qed.

(** Later days of the same month. *)
Lemma civil_add_nat (z : Z) (j : nat) :
  let c := civil_from_days z in
  day c + Z.of_nat j <= Reports.days_in_month (year c) (month c) ->
  civil_from_days (z + Z.of_nat j)
  = {| year := year c; month := month c; day := day c + Z.of_nat j |}.
Proof.
  cbv zeta. induction j as [| j IH]; intros H.
  - rewrite !Z.add_0_r. apply civil_eta.
  - rewrite Nat2Z.inj_succ in *. unfold Z.succ in *.
    rewrite Z.add_assoc.
    destruct (civil_succ (z + Z.of_nat j)) as (_ & _ & E).
    cbv zeta in E. rewrite IH in E by lia. cbn [year month day] in E.
    rewrite E.
    destruct (Z.ltb_spec (day (civil_from_days z) + Z.of_nat j)
                (Reports.days_in_month (year (civil_from_days z))
                   (month (civil_from_days z)))); [| lia].
    f_equal. lia.
Qed.

Lemma civil_add (z j : Z) :
  let c := civil_from_days z in
  0 <= j ->
  day c + j <= Reports.days_in_month (year c) (month c) ->
  civil_from_days (z + j)
  = {| year := year c; month := month c; day := day c + j |}.
Proof.
  cbv zeta. intros Hj H. rewrite <- (Z2Nat.id j Hj) in *.
  now apply civil_add_nat.
Qed.

Lemma year_step (z : Z) :
  year (civil_from_days z) <= year (civil_from_days (z + 1)).
Proof.
  destruct (civil_succ z) as (_ & _ & E). cbv zeta in E. rewrite E.
  destruct (_ <? _); [cbn; lia |]. destruct (_ =? 12); cbn; lia.
Qed.

Lemma year_mono_nat (z : Z) (j : nat) :
  year (civil_from_days z) <= year (civil_from_days (z + Z.of_nat j)).
Proof.
  induction j as [| j IH]; [rewrite Z.add_0_r; lia |].
  rewrite Nat2Z.inj_succ. unfold Z.succ. rewrite Z.add_assoc.
  eapply Z.le_trans; [exact IH | apply year_step].
Qed.

Lemma year_mono (z1 z2 : Z) :
  z1 <= z2 -> year (civil_from_days z1) <= year (civil_from_days z2).
Proof.
  intros H. replace z2 with (z1 + Z.of_nat (Z.to_nat (z2 - z1))) by lia.
  apply year_mono_nat.
Qed.

(** A day whose year is one of 1 to 9999 is a Python [date]. *)
Lemma in_range_of_year (z : Z) :
  1 <= year (civil_from_days z) <= 9999 -> date_min <= z <= date_max.
Proof.
  unfold date_min, date_max. intros H.
  destruct (Z.le_gt_cases 0 z) as [L0 | G0].
  - split; [exact L0 |].
    destruct (Z.le_gt_cases z 3652058) as [L1 | G1]; [exact L1 |].
    assert (M := year_mono 3652059 z ltac:(lia)).
    change (year (civil_from_days 3652059)) with 10000 in M. lia.
  - assert (M := year_mono z (-1) ltac:(lia)).
    change (year (civil_from_days (-1))) with 0 in M. lia.
Qed.

Lemma date_ok (y m d : Z) :
  1 <= y <= 9999 -> 1 <= m <= 12 -> 1 <= d <= Reports.days_in_month y m ->
  Reports.date y m d = Ok (days_from_civil y m d).
Proof.
  intros Hy Hm Hd. unfold Reports.date.
  rewrite !(proj2 (Z.leb_le _ _)) by lia. reflexivity.
Qed.

Lemma date_valid (y m d : Z) :
  1 <= y <= 9999 -> 1 <= m <= 12 -> 1 <= d <= Reports.days_in_month y m ->
  date_min <= days_from_civil y m d <= date_max.
Proof.
  intros Hy Hm Hd. apply in_range_of_year.
  rewrite civil_of_date by assumption. exact Hy.
Qed.

Lemma plus_days_ok (d n : Z) :
  date_min <= d + n <= date_max -> Reports.plus_days d n = Ok (d + n).
Proof.
  intros H. unfold Reports.plus_days.
  rewrite !(proj2 (Z.leb_le _ _)) by lia. reflexivity.
Qed.

(** The days of a month are those from its first day to the day before
    the first day of the next month. *)
Lemma month_days (y m z : Z) :
  1 <= m <= 12 ->
  days_from_civil y m 1 <= z
    <= days_from_civil y m 1 + Reports.days_in_month y m - 1
  <-> year (civil_from_days z) = y /\ month (civil_from_days z) = m.
Proof.
  intros Hm. assert (R := days_in_month_range y m). split.
  - intros H.
    replace z with (days_from_civil y m 1 + (z - days_from_civil y m 1))
      by lia.
    assert (E := civil_of_month_start y m Hm).
    rewrite civil_add.
    + rewrite E. cbn [year month day]. tauto.
    + lia.
    + rewrite E. cbn [year month day]. lia.
  - intros [Ey Em].
    destruct (civil_succ z) as (_ & Hd & _). cbv zeta in Hd.
    assert (D := days_from_civil_from_days z). cbv zeta in D.
    rewrite Ey, Em in *. rewrite days_from_civil_day in D. lia.
Qed.

(** ** Reporting period of the monthly summary *)

(** X21: for a requested year and month (both non-zero), the period is
    computed exactly when the year is one of 1 to 9999 and the month one
    of 1 to 12, and it then consists of the days of that month, no more
    and no fewer; otherwise the call raises. *)
Theorem requested_period_is_the_month (today y m : Z) :
  y <> 0 -> m <> 0 ->
  (Reports.period today (Some y) (Some m) = Raised
   <-> ~ (1 <= y <= 9999 /\ 1 <= m <= 12))
  /\ forall f t,
       Reports.period today (Some y) (Some m) = Ok (f, t) ->
       forall z, f <= z <= t
                 <-> year (civil_from_days z) = y
                     /\ month (civil_from_days z) = m.
Proof.
  intros Hy Hm. unfold Reports.period, Reports.given.
  rewrite (proj2 (Z.eqb_neq y 0) Hy), (proj2 (Z.eqb_neq m 0) Hm).
  cbn [negb andb or_default].
  destruct (Z_le_dec 1 y) as [Y1 |]; [destruct (Z_le_dec y 9999) as [Y2 |] |];
    [destruct (Z_le_dec 1 m) as [M1 |];
       [destruct (Z_le_dec m 12) as [M2 |] |] | |].
  2-5: (assert (E : Reports.date y m 1 = Raised);
        [unfold Reports.date;
         repeat match goal with
                | |- context [?a <=? ?b] =>
                    destruct (Z.leb_spec a b); try lia; cbn [andb]
                end; reflexivity |];
        rewrite E; cbn [bind]; split;
        [split; [lia | reflexivity] | discriminate]).
  assert (R := days_in_month_range y m).
  rewrite (date_ok y m 1) by lia. cbn [bind].
  assert (V := date_valid y m 1 ltac:(lia) ltac:(lia) ltac:(lia)).
  assert (N := next_month_start y m ltac:(lia)).
  destruct (Z.eqb_spec m 12) as [-> | N12].
  - assert (D31 : Reports.days_in_month y 12 = 31) by reflexivity.
    rewrite (date_ok y 12 31) by lia. cbn [bind]. split.
    + split; [discriminate | lia].
    + intros f t E. inversion E; subst f t. intros z.
      rewrite <- (month_days y 12 z) by lia.
      rewrite (days_from_civil_day y 12 31), D31. lia.
  - assert (V2 := date_valid y m (Reports.days_in_month y m)
                    ltac:(lia) ltac:(lia) ltac:(lia)).
    rewrite days_from_civil_day in V2.
    rewrite (date_ok y (m + 1) 1);
      [| lia | lia | assert (R2 := days_in_month_range y (m + 1)); lia].
    cbn [bind]. rewrite plus_days_ok by lia. cbn [bind]. split.
    + split; [discriminate | lia].
    + intros f t E. inversion E; subst f t. intros z.
      rewrite <- (month_days y m z) by lia. lia.
Qed.

(** X22: without a requested month, on any day after 0001-01-01 that a
    Python date can hold, the period ends today, or yesterday when today
    is the first of a month, and consists of the days of that end's month
    up to it: the month so far, or the whole previous month. *)
Theorem default_period_is_the_month_so_far (today : Z) (y m : option Z) :
  Reports.given y && Reports.given m = false ->
  date_min < today <= date_max ->
  exists f t,
    Reports.period today y m = Ok (f, t)
    /\ t = (if 1 <? day (civil_from_days today) then today else today - 1)
    /\ forall z, f <= z <= t
                 <-> z <= t
                     /\ year (civil_from_days z) = year (civil_from_days t)
                     /\ month (civil_from_days z)
                        = month (civil_from_days t).
Proof.
  intros Hg Ht. unfold Reports.period. rewrite Hg.
  destruct (civil_from_days_range today ltac:(lia)) as (Hy & Hm & _).
  cbv zeta in Hy, Hm.
  destruct (civil_succ today) as (_ & Hd & _). cbv zeta in Hd.
  assert (D := days_from_civil_from_days today). cbv zeta in D.
  rewrite days_from_civil_day in D.
  set (c := civil_from_days today) in *.
  assert (R := days_in_month_range (year c) (month c)).
  assert (Ec : civil_from_days today = c) by reflexivity.
  destruct (Z.ltb_spec 1 (day c)) as [D1 | D1].
  - (* The month so far. *)
    rewrite (date_ok (year c) (month c) 1) by lia. cbn [bind].
    rewrite civil_of_month_start by lia. cbn [year month day].
    rewrite !Z.eqb_refl. cbn [andb].
    eexists. eexists. split; [reflexivity |]. split; [reflexivity |].
    intros z. rewrite Ec.
    rewrite <- (month_days (year c) (month c) z) by lia. lia.
  - (* The whole previous month. *)
    assert (E1 : day c = 1) by lia.
    assert (Et : days_from_civil (year c) (month c) 1 = today) by lia.
    destruct (Z.ltb_spec 1 (month c)) as [M1 | M1].
    + set (pm := month c - 1).
      assert (Rp := days_in_month_range (year c) pm).
      assert (N := next_month_start (year c) pm ltac:(lia)).
      destruct (Z.eqb_spec pm 12) as [| _]; [lia |].
      replace (pm + 1) with (month c) in N by lia. rewrite Et in N.
      assert (V := date_valid (year c) pm 1 ltac:(lia) ltac:(lia)
                     ltac:(lia)).
      rewrite (date_ok (year c) pm 1) by lia. cbn [bind].
      rewrite civil_of_month_start by lia. cbn [year month day].
      destruct (Z.eqb_spec pm (month c)) as [| _]; [lia |]. cbn [andb].
      set (f := days_from_civil (year c) pm 1) in *.
      assert (El : civil_from_days (f + 32)
                   = {| year := year c; month := month c;
                        day := 1 + (32 - Reports.days_in_month (year c) pm) |}).
      { replace (f + 32)
          with (today + (32 - Reports.days_in_month (year c) pm)) by lia.
        rewrite civil_add; [rewrite Ec; f_equal; lia | lia | rewrite Ec; lia]. }
      assert (Vl : date_min <= f + 32 <= date_max).
      { apply in_range_of_year. rewrite El. exact Hy. }
      rewrite plus_days_ok by exact Vl. cbn [bind]. rewrite El.
      cbn [year month day].
      rewrite (date_ok (year c) (month c) 1) by lia. cbn [bind].
      rewrite Et. rewrite plus_days_ok by (unfold date_min in *; lia).
      cbn [bind].
      eexists. eexists. split; [reflexivity |]. split; [reflexivity |].
      intros z.
      assert (Ep : civil_from_days (today + -1)
                   = {| year := year c; month := pm;
                        day := Reports.days_in_month (year c) pm |}).
      { replace (today + -1)
          with (days_from_civil (year c) pm
                  (Reports.days_in_month (year c) pm))
          by (rewrite days_from_civil_day; fold f; lia).
        apply civil_of_date; lia. }
      replace (today - 1) with (today + -1) by lia.
      rewrite Ep. cbn [year month day].
      rewrite <- (month_days (year c) pm z) by lia. fold f. lia.
    + assert (Em : month c = 1) by lia.
      assert (Y2 : 2 <= year c).
      { destruct (Z.eq_dec (year c) 1) as [E | N]; [| lia]. exfalso.
        assert (E0 : civil_from_days today = civil_from_days 0).
        { rewrite (civil_eta (civil_from_days today)). fold c.
          rewrite E, Em, E1. reflexivity. }
        apply civil_from_days_inj in E0. unfold date_min in Ht. lia. }
      set (py := year c - 1).
      assert (N := next_month_start py 12 ltac:(lia)).
      rewrite Z.eqb_refl in N. replace (py + 1) with (year c) in N by lia.
      rewrite <- Em in N at 1. rewrite Et in N.
      assert (D31 : Reports.days_in_month py 12 = 31) by reflexivity.
      rewrite D31 in N.
      assert (V := date_valid py 12 1 ltac:(lia) ltac:(lia) ltac:(lia)).
      fold py. rewrite (date_ok py 12 1) by lia. cbn [bind].
      rewrite civil_of_month_start by lia. cbn [year month day].
      rewrite Em. change (12 =? 1) with false. cbn [andb].
      assert (R1 := days_in_month_range (year c) 1).
      set (f := days_from_civil py 12 1) in *.
      assert (El : civil_from_days (f + 32)
                   = {| year := year c; month := 1; day := 2 |}).
      { replace (f + 32) with (today + 1) by lia.
        rewrite civil_add; [rewrite Ec; f_equal; lia | lia | rewrite Ec; lia]. }
      assert (Vl : date_min <= f + 32 <= date_max).
      { apply in_range_of_year. rewrite El. exact Hy. }
      rewrite plus_days_ok by exact Vl. cbn [bind]. rewrite El.
      cbn [year month day].
      rewrite (date_ok (year c) 1 1) by lia. cbn [bind].
      replace (days_from_civil (year c) 1 1) with today
        by (rewrite <- Et, Em; reflexivity).
      rewrite plus_days_ok by (unfold date_min in *; lia). cbn [bind].
      eexists. eexists. split; [reflexivity |]. split; [reflexivity |].
      intros z.
      assert (Ep : civil_from_days (today + -1)
                   = {| year := py; month := 12; day := 31 |}).
      { replace (today + -1) with (days_from_civil py 12 31)
          by (rewrite days_from_civil_day; fold f; lia).
        apply civil_of_date; lia. }
      replace (today - 1) with (today + -1) by lia.
      rewrite Ep. cbn [year month day].
      rewrite <- (month_days py 12 z) by lia. fold f. lia.
Qed.

(** ** The further properties on the sample databases *)

Lemma delayed_flag_count_and_mean_witness :
  exists b bn d dn n v,
    In (Predictions.delayed_discharge b bn d dn n v)
       (Predictions.get_bottlenecks Examples.hospital
          (Examples.new_year_2024 + 20) None None None)
    /\ 5 <= n /\ (14 <= v)%Q.
Proof.
  exists 1, "City General Hospital"%string, 10, "Cardiology"%string, 5,
    (1921 # 100)%Q.
  assert (H : In (Predictions.delayed_discharge 1 "City General Hospital" 10
                    "Cardiology" 5 (1921 # 100))
                (Predictions.get_bottlenecks Examples.hospital
                   (Examples.new_year_2024 + 20) None None None))
    by (vm_compute; left; reflexivity).
  split; [exact H |].
  exact (delayed_flag_count_and_mean Examples.hospital
           (Examples.new_year_2024 + 20) None None None _ _ _ _ _ _ H).
Defined.

Lemma alerts_reach_their_threshold_witness :
  exists out a,
    Predictive.get_threshold_alerts Examples.hospital
      (Examples.new_year_2024 + 6) None 85 70 95 None None = Ok out
    /\ In a out
    /\ Predictive.alert_type a = "high_bed_occupancy"%string
    /\ (Predictive.threshold_pct a <= Predictive.value_pct a)%Q.
Proof.
  eexists. eexists. split; [vm_compute; reflexivity |].
  split; [left; reflexivity |]. split; [reflexivity |].
  eapply proj1.
  eapply (alerts_reach_their_threshold Examples.hospital
            (Examples.new_year_2024 + 6) None 85 70 95 None None);
    [vm_compute; reflexivity | left; reflexivity].
Defined.

Lemma icu_alert_needs_icu_beds_witness :
  exists out a,
    Predictive.get_threshold_alerts Examples.hospital
      (Examples.new_year_2024 + 6) None 85 70 95 None None = Ok out
    /\ In a out
    /\ Predictive.alert_type a = "high_icu_utilization"%string
    /\ exists br day,
         In br (hospital_branches Examples.hospital)
         /\ Branch.branch_id br = Predictive.branch_id a
         /\ Branch.name br = Predictive.branch_name a
         /\ 0 < Branch.icu_beds br
         /\ Predictive.record_date a = Some (isoformat day)
         /\ or_default None (or_default None (Examples.new_year_2024 + 6) - 7)
            <= day <= or_default None (Examples.new_year_2024 + 6).
Proof.
  eexists. eexists. split; [vm_compute; reflexivity |].
  split; [right; right; left; reflexivity |]. split; [reflexivity |].
  eapply (icu_alert_needs_icu_beds Examples.hospital
            (Examples.new_year_2024 + 6) None 85 70 95 None None);
    [vm_compute; reflexivity | right; right; left; reflexivity
     | reflexivity].
Defined.

Lemma case_types_within_total_witness :
  exists s,
    Kpis.get_kpi_summary Examples.hospital None None
      (Some Examples.new_year_2024) (Some (Examples.new_year_2024 + 120))
    = Ok s
    /\ Kpis.emergency_cases_count s + Kpis.scheduled_cases_count s
       <= Kpis.total_admissions s
    /\ Kpis.total_discharges s = Kpis.total_admissions s.
Proof.
  eexists. split; [vm_compute; reflexivity |].
  edestruct (case_types_within_total Examples.hospital None None
               (Some Examples.new_year_2024)
               (Some (Examples.new_year_2024 + 120)))
    as (_ & _ & H1 & H2 & _); [vm_compute; reflexivity |].
  split; [exact H1 | exact H2].
Defined.

Lemma doctor_utilization_in_range_witness :
  exists s,
    Kpis.get_kpi_summary Examples.hospital None None
      (Some Examples.new_year_2024) (Some (Examples.new_year_2024 + 120))
    = Ok s
    /\ (0 <= Kpis.doctor_utilization_pct s <= 100)%Q.
Proof.
  eexists. split; [vm_compute; reflexivity |].
  eapply (doctor_utilization_in_range Examples.hospital None None
            (Some Examples.new_year_2024)
            (Some (Examples.new_year_2024 + 120))).
  vm_compute. reflexivity.
Defined.

Lemma bed_occupancy_in_range_witness :
  Facts.beds_within_capacity Examples.hospital = true
  /\ exists s,
       Kpis.get_kpi_summary Examples.hospital None None
         (Some Examples.new_year_2024) (Some (Examples.new_year_2024 + 120))
       = Ok s
       /\ (0 <= Kpis.bed_occupancy_rate_pct s <= 100)%Q.
Proof.
  split; [reflexivity |].
  eexists. split; [vm_compute; reflexivity |].
  eapply (bed_occupancy_in_range Examples.hospital None None
            (Some Examples.new_year_2024)
            (Some (Examples.new_year_2024 + 120)));
    [reflexivity | vm_compute; reflexivity].
Defined.

Lemma average_stay_not_negative_witness :
  Facts.discharged_after_admission Examples.hospital = true
  /\ exists s,
       Kpis.get_kpi_summary Examples.hospital None None
         (Some Examples.new_year_2024) (Some (Examples.new_year_2024 + 120))
       = Ok s
       /\ (0 <= Kpis.avg_length_of_stay_days s)%Q.
Proof.
  split; [reflexivity |].
  eexists. split; [vm_compute; reflexivity |].
  eapply (average_stay_not_negative Examples.hospital None None
            (Some Examples.new_year_2024)
            (Some (Examples.new_year_2024 + 120)));
    [reflexivity | vm_compute; reflexivity].
Defined.

Lemma open_episode_not_counted_witness :
  Forall (fun d => Discharge.admission_id d <> 9)
    (discharges Examples.hospital)
  /\ exists s s',
       Kpis.get_kpi_summary Examples.hospital None None
         (Some Examples.new_year_2024) (Some (Examples.new_year_2024 + 120))
       = Ok s
       /\ Kpis.get_kpi_summary
            (Facts.with_admission
               (Examples.admitted 9 1 10 "Emergency"
                  (Examples.new_year_2024 + 50) 7)
               Examples.hospital)
            None None
            (Some Examples.new_year_2024) (Some (Examples.new_year_2024 + 120))
          = Ok s'
       /\ Kpis.total_admissions s' = Kpis.total_admissions s
       /\ Kpis.emergency_cases_count s' = Kpis.emergency_cases_count s.
Proof.
  assert (Hopen : Forall (fun d => Discharge.admission_id d <> 9)
                    (discharges Examples.hospital))
    by (repeat constructor; vm_compute; discriminate).
  split; [exact Hopen |].
  eexists. eexists. split; [vm_compute; reflexivity |].
  split; [vm_compute; reflexivity |].
  edestruct (open_episode_not_counted Examples.hospital
               (Examples.admitted 9 1 10 "Emergency"
                  (Examples.new_year_2024 + 50) 7)
               None None
               (Some Examples.new_year_2024)
               (Some (Examples.new_year_2024 + 120)))
    as (H1 & _ & _ & H2 & _);
    [exact (proj1 (Forall_forall _ _) Hopen)
    | vm_compute; reflexivity | vm_compute; reflexivity |].
  split; [exact H1 | exact H2].
Defined.

Lemma open_episode_not_in_trends_witness :
  Forall (fun d => Discharge.admission_id d <> 9)
    (discharges Examples.hospital)
  /\ Trends.get_trends
       (Facts.with_admission
          (Examples.admitted 9 1 10 "Emergency"
             (Examples.new_year_2024 + 50) 7)
          Examples.hospital)
       (Examples.new_year_2024 + 120) "monthly" None None None None
     = Trends.get_trends Examples.hospital (Examples.new_year_2024 + 120)
         "monthly" None None None None.
Proof.
  assert (Hopen : Forall (fun d => Discharge.admission_id d <> 9)
                    (discharges Examples.hospital))
    by (repeat constructor; vm_compute; discriminate).
  split; [exact Hopen |].
  apply (open_episode_not_in_trends Examples.hospital).
  exact (proj1 (Forall_forall _ _) Hopen).
Defined.

Lemma trend_points_partition_witness :
  exists out,
    Trends.get_trends Examples.hospital (Examples.new_year_2024 + 120)
      "monthly" None None (Some Examples.new_year_2024)
      (Some (Examples.new_year_2024 + 120)) = Ok out
    /\ Zsum (map Trends.admissions out) = 8.
Proof.
  eexists. split; [vm_compute; reflexivity |].
  edestruct (trend_points_partition Examples.hospital
               (Examples.new_year_2024 + 120) "monthly" None None
               (Some Examples.new_year_2024)
               (Some (Examples.new_year_2024 + 120)))
    as [H _]; [vm_compute; reflexivity |].
  rewrite H. vm_compute. reflexivity.
Defined.

Lemma trends_survive_occupancy_failure_witness :
  fails Examples.without_occupancy TrendOccupancy = true
  /\ exists out p,
       Trends.get_trends Examples.without_occupancy
         (Examples.new_year_2024 + 120) "monthly" None None
         (Some Examples.new_year_2024)
         (Some (Examples.new_year_2024 + 120)) = Ok out
       /\ In p out
       /\ Trends.admissions p = 6
       /\ Trends.occupancy_pct p = 0%Q.
Proof.
  split; [reflexivity |].
  eexists. eexists. split; [vm_compute; reflexivity |].
  split; [left; reflexivity |]. split; [reflexivity |].
  eapply (proj2 (trends_survive_occupancy_failure Examples.without_occupancy
                   (Examples.new_year_2024 + 120) "monthly" None None
                   (Some Examples.new_year_2024)
                   (Some (Examples.new_year_2024 + 120))));
    [reflexivity | vm_compute; reflexivity | left; reflexivity].
Defined.


Lemma moving_average_series_witness :
  exists out,
    Predictive.get_admission_trend_with_moving_avg Examples.rising
      (Examples.new_year_2024 + 4) None 90 7 = Ok out
    /\ Zsum (map Predictive.admissions out) = 30
    /\ forall p, In p out -> (1 <= Predictive.moving_avg_7d p)%Q.
Proof.
  eexists. split; [vm_compute; reflexivity |].
  edestruct (moving_average_series Examples.rising
               (Examples.new_year_2024 + 4) None 90 7)
    as (dts & _ & _ & _ & Hs & Hp); [vm_compute; reflexivity |].
  split.
  - rewrite Hs. vm_compute. reflexivity.
  - intros p Hin. now apply Hp.
Defined.

Lemma peak_hours_partition_witness :
  exists out,
    Trends.get_peak_hours (Examples.session Examples.hospital)
      (Examples.new_year_2024 + 20) None None None true = Ok out
    /\ Zsum (map Trends.admissions_count out) = 6
    /\ NoDup (map (fun p => (Trends.day_of_week p, Trends.hour p)) out).
Proof.
  eexists. split; [vm_compute; reflexivity |].
  edestruct (peak_hours_partition (Examples.session Examples.hospital)
               (Examples.new_year_2024 + 20) None None None true)
    as (_ & Hs & Hn & _); [vm_compute; reflexivity |].
  split; [| exact Hn]. rewrite Hs. vm_compute. reflexivity.
Defined.

Lemma peak_flag_is_a_peak_hour_witness :
  In (Predictions.peak_hour_surplus 8 2)
     (Predictions.get_bottlenecks (Examples.session Examples.hospital)
        (Examples.new_year_2024 + 20) None None None)
  /\ exists out,
       Trends.get_peak_hours (Examples.session Examples.hospital)
         (Examples.new_year_2024 + 20) None None None false = Ok out
       /\ In {| Trends.hour := 8; Trends.day_of_week := None;
                Trends.admissions_count := 2 |} out.
Proof.
  assert (H : In (Predictions.peak_hour_surplus 8 2)
                (Predictions.get_bottlenecks
                   (Examples.session Examples.hospital)
                   (Examples.new_year_2024 + 20) None None None))
    by (vm_compute; right; left; reflexivity).
  split; [exact H |].
  eexists. split; [vm_compute; reflexivity |].
  eapply (peak_flag_is_a_peak_hour (Examples.session Examples.hospital)
            (Examples.new_year_2024 + 20) None None None 8 2);
    [exact H | vm_compute; reflexivity].
Defined.

Lemma peak_hours_by_day_refine_witness :
  exists by_day by_hour p,
    Trends.get_peak_hours (Examples.session Examples.hospital)
      (Examples.new_year_2024 + 20) None None None true = Ok by_day
    /\ Trends.get_peak_hours (Examples.session Examples.hospital)
         (Examples.new_year_2024 + 20) None None None false = Ok by_hour
    /\ In p by_hour
    /\ Trends.hour p = 8
    /\ Zsum (map Trends.admissions_count
               (filter (fun q => Trends.hour q =? Trends.hour p) by_day))
       = 2.
Proof.
  eexists. eexists. eexists. split; [vm_compute; reflexivity |].
  split; [vm_compute; reflexivity |]. split; [left; reflexivity |].
  split; [reflexivity |].
  erewrite (peak_hours_by_day_refine (Examples.session Examples.hospital)
              (Examples.new_year_2024 + 20) None None None);
    [reflexivity | vm_compute; reflexivity | vm_compute; reflexivity
     | left; reflexivity].
Defined.

Lemma forecast_flag_matches_rounded_value_witness :
  (0 <= 85)%Q
  /\ exists out p,
       Predictive.get_occupancy_forecast_simple
         (Examples.session Examples.hospital) (Examples.new_year_2024 + 2)
         None 14 85 = Ok out
       /\ In p out
       /\ Predictive.Forecast.above_threshold p = true
       /\ (pg_round2 85 <= Predictive.Forecast.occupancy_pct p)%Q.
Proof.
  split; [discriminate |].
  eexists. eexists. split; [vm_compute; reflexivity |].
  split; [left; reflexivity |]. split; [reflexivity |].
  eapply (forecast_flag_matches_rounded_value
            (Examples.session Examples.hospital)
            (Examples.new_year_2024 + 2) None 14 85 _
            {| Predictive.Forecast.branch_name := "City General Hospital";
               Predictive.Forecast.record_date := "2024-01-01";
               Predictive.Forecast.occupancy_pct := 85;
               Predictive.Forecast.moving_avg_7d := 85;
               Predictive.Forecast.above_threshold := true |});
    [discriminate | vm_compute; reflexivity | left; reflexivity].
Defined.

Lemma forecast_values_in_range_witness :
  Facts.beds_within_capacity (Examples.session Examples.hospital) = true
  /\ exists out p,
       Predictive.get_occupancy_forecast_simple
         (Examples.session Examples.hospital) (Examples.new_year_2024 + 2)
         None 14 85 = Ok out
       /\ In p out
       /\ (0 <= Predictive.Forecast.occupancy_pct p <= 100)%Q
       /\ (0 <= Predictive.Forecast.moving_avg_7d p <= 100)%Q.
Proof.
  split; [reflexivity |].
  eexists. eexists. split; [vm_compute; reflexivity |].
  split; [left; reflexivity |].
  eapply (forecast_values_in_range (Examples.session Examples.hospital)
            (Examples.new_year_2024 + 2) None 14 85);
    [reflexivity | vm_compute; reflexivity | left; reflexivity].
Defined.

Lemma requested_period_is_the_month_witness :
  2024 <> 0 /\ 2 <> 0
  /\ Reports.period Examples.new_year_2024 (Some 2024) (Some 2)
     = Ok (738916, 738944)
  /\ forall z, 738916 <= z <= 738944
               <-> year (civil_from_days z) = 2024
                   /\ month (civil_from_days z) = 2.
Proof.
  split; [discriminate |]. split; [discriminate |].
  split; [vm_compute; reflexivity |].
  apply (proj2 (requested_period_is_the_month Examples.new_year_2024 2024 2
                  ltac:(discriminate) ltac:(discriminate))).
  vm_compute. reflexivity.
Defined.

Lemma default_period_is_the_month_so_far_witness :
  Reports.given None && Reports.given None = false
  /\ date_min < Examples.new_year_2024 + 60 <= date_max
  /\ exists f t,
       Reports.period (Examples.new_year_2024 + 60) None None = Ok (f, t)
       /\ t = Examples.new_year_2024 + 59
       /\ forall z, f <= z <= t
                    <-> z <= t
                        /\ year (civil_from_days z) = year (civil_from_days t)
                        /\ month (civil_from_days z)
                           = month (civil_from_days t).
Proof.
  split; [reflexivity |].
  split; [split; vm_compute; [reflexivity | discriminate] |].
  destruct (default_period_is_the_month_so_far
              (Examples.new_year_2024 + 60) None None eq_refl
              ltac:(split; vm_compute; [reflexivity | discriminate]))
    as (f & t & E & Et & H).
  exists f, t. split; [exact E |]. split; [| exact H].
  rewrite Et. vm_compute. reflexivity.
Defined.

(** ** Outer joins *)

Lemma in_left_join {A B} (on : A -> B -> bool) (l : list A) (r : list B)
    (a : A) (ob : option B) :
  In (a, ob) (Sql.left_join on l r) <->
  In a l
  /\ match ob with
     | Some b => In b r /\ on a b = true
     | None => filter (on a) r = []
     end.
Proof.
  unfold Sql.left_join. rewrite in_flat_map. split.
  - intros (a' & Ha & Hin).
    destruct (filter (on a') r) as [| b0 m] eqn:Ef.
    + destruct Hin as [E | []]. inversion E; subst. now split.
    + apply in_map_iff in Hin as (b & E & Hb). inversion E; subst.
      split; [exact Ha |]. rewrite <- Ef in Hb. now apply filter_In in Hb.
  - intros [Ha Hob]. exists a. split; [exact Ha |].
    destruct ob as [b |].
    + assert (Hb : In b (filter (on a) r)) by now apply filter_In.
      destruct (filter (on a) r) as [| b0 m] eqn:Ef; [contradiction |].
      apply in_map_iff. now exists b.
    + rewrite Hob. now left.
Qed.

(** Every row of the left side is kept by an outer join. *)
Lemma left_join_keeps {A B} (on : A -> B -> bool) (l : list A) (r : list B)
    (a : A) :
  In a l -> exists ob, In (a, ob) (Sql.left_join on l r).
Proof.
  intros Ha. destruct (filter (on a) r) as [| b m] eqn:Ef.
  - exists None. apply in_left_join. now split.
  - exists (Some b). apply in_left_join. split; [exact Ha |].
    assert (Hb : In b (filter (on a) r)) by (rewrite Ef; now left).
    now apply filter_In in Hb.
Qed.

Lemma in_with_discharge {A} (ds : list Discharge.row)
    (l : list (A * option Admission.row))
    (x : A * option Admission.row * option Discharge.row) :
  In x (Trends.with_discharge ds l) -> In (fst x) l.
Proof.
  destruct x as [y od]. unfold Trends.with_discharge. intros H.
  now apply in_left_join in H as [H _].
Qed.

Lemma with_discharge_keeps {A} (ds : list Discharge.row)
    (l : list (A * option Admission.row)) (y : A * option Admission.row) :
  In y l -> exists od, In (y, od) (Trends.with_discharge ds l).
Proof. apply left_join_keeps. Qed.

(** ** Branch comparison *)

Lemma branch_key_eqb_eq (k1 k2 : Z * string * string) :
  Trends.branch_key_eqb k1 k2 = true <-> k1 = k2.
Proof.
  destruct k1 as [[i1 n1] c1], k2 as [[i2 n2] c2].
  unfold Trends.branch_key_eqb. cbn [fst snd].
  rewrite !andb_true_iff, Z.eqb_eq, !String.eqb_eq. split.
  - intros [[-> ->] ->]. reflexivity.
  - intros E. inversion E. tauto.
Qed.

(** The readmitted admissions of a branch are among its admissions. *)
Lemma readmitted_le_admitted (s : Full.session) (date_from date_to id : Z) :
  0 <= Trends.branch_readmitted s date_from date_to id
    <= Trends.branch_admitted s date_from date_to id.
Proof.
  unfold Trends.branch_readmitted, Trends.branch_admitted, Sql.count_distinct.
  split; [apply count_nonneg |].
  set (l := map (fun ra : Readmission.row * Admission.row =>
                   Readmission.previous_admission_id (fst ra)) _).
  set (A' := filter (Trends.of_branch date_from date_to id)
               (Full.admissions s)).
  unfold count. apply inj_le.
  rewrite <- (length_map Admission.admission_id A').
  apply NoDup_incl_length; [apply NoDup_nodup |].
  intros v Hv. apply nodup_In in Hv. unfold l in Hv.
  apply in_map_iff in Hv as ([r a] & <- & Hra).
  apply filter_In in Hra as [Hra Hc]. cbn [fst snd] in *.
  apply in_join in Hra as (_ & Ha & E). apply Z.eqb_eq in E.
  rewrite <- E. apply in_map. unfold A'. now apply filter_In.
Qed.

Lemma in_branch_query (s : Full.session) (date_from date_to : Z)
    (r : Trends.BranchRow.t) :
  In r (Trends.branch_query s date_from date_to) ->
  exists b : Full.branch,
    In b (Full.hospital_branches s)
    /\ Trends.BranchRow.branch_id r = Branch.branch_id b
    /\ Trends.BranchRow.branch_name r = Branch.name b
    /\ Trends.BranchRow.city r = Full.city b
    /\ Trends.BranchRow.readm_count r
       = Trends.branch_readmitted s date_from date_to (Branch.branch_id b)
    /\ Trends.BranchRow.total_adm r
       = Trends.branch_admitted s date_from date_to (Branch.branch_id b).
Proof.
  unfold Trends.branch_query. intros H. apply in_order_by in H.
  apply in_map_iff in H as ([k g] & <- & Hg).
  apply (in_group_by _ _ branch_key_eqb_eq) in Hg as [Hk _].
  apply in_map_iff in Hk as ([[b oa] od] & <- & Hx).
  apply in_with_discharge in Hx. cbn [fst] in Hx.
  apply in_left_join in Hx as [Hb _].
  exists b. repeat split. exact Hb.
Qed.

(** X23: the readmission rate of every row of the branch comparison lies
    between 0 and 100, whatever the tables hold: the readmitted admissions
    of a branch are counted among all its admissions in the range. *)
Theorem branch_readmission_rate_in_range
    (s : Full.session) (today : Z) (date_from date_to : option Z)
    (out : list Trends.BranchComparison.t) (p : Trends.BranchComparison.t) :
  Trends.get_branch_comparison s today date_from date_to = Ok out ->
  In p out ->
  (0 <= Trends.BranchComparison.readmission_rate_pct p <= 100)%Q.
Proof.
  unfold Trends.get_branch_comparison, Full.execute.
  destruct (Full.rejects s BranchComparison); [discriminate |].
  destruct (Full.rejects s BranchOccupancy); [discriminate |]. cbn [bind].
  intros E. inversion E as [E']. clear E E'. intros Hp.
  apply in_map_iff in Hp as (r & <- & Hr).
  cbn [Trends.BranchComparison.readmission_rate_pct].
  apply in_branch_query in Hr as (b & _ & _ & _ & _ & -> & ->).
  assert (L := readmitted_le_admitted s
                 (or_default date_from (today - 365))
                 (or_default date_to today) (Branch.branch_id b)).
  set (n := Trends.branch_readmitted _ _ _ _) in *.
  set (t := Trends.branch_admitted _ _ _ _) in *.
  assert (B : (0 <= inject_Z n / inject_Z (or_one t) * 100 <= 100)%Q).
  { apply rate_bounds; unfold or_one; destruct (Z.eqb_spec t 0); lia. }
  apply py_round2_bounds; tauto.
Qed.

(** X24: the branch comparison lists every branch of the table, also one
    without admissions, and nothing else; the rows come in ascending
    order of the branch id, and no id occurs twice when the ids of the
    table are unique. *)
Theorem branch_comparison_lists_every_branch
    (s : Full.session) (today : Z) (date_from date_to : option Z)
    (out : list Trends.BranchComparison.t) :
  Trends.get_branch_comparison s today date_from date_to = Ok out ->
  StronglySorted
    (fun p q => Trends.BranchComparison.branch_id p
                <= Trends.BranchComparison.branch_id q) out
  /\ (forall b : Full.branch,
        In b (Full.hospital_branches s) ->
        exists p, In p out
                  /\ Trends.BranchComparison.branch_id p = Branch.branch_id b
                  /\ Trends.BranchComparison.branch_name p = Branch.name b
                  /\ Trends.BranchComparison.city p = Full.city b)
  /\ (forall p, In p out ->
        exists b : Full.branch,
          In b (Full.hospital_branches s)
          /\ Trends.BranchComparison.branch_id p = Branch.branch_id b
          /\ Trends.BranchComparison.branch_name p = Branch.name b
          /\ Trends.BranchComparison.city p = Full.city b)
  /\ (Schema.unique (map (fun b : Full.branch => Branch.branch_id b)
                       (Full.hospital_branches s)) = true ->
      NoDup (map Trends.BranchComparison.branch_id out)).
Proof.
  unfold Trends.get_branch_comparison, Full.execute.
  destruct (Full.rejects s BranchComparison); [discriminate |].
  destruct (Full.rejects s BranchOccupancy); [discriminate |]. cbn [bind].
  intros E. inversion E as [E']. clear E E'.
  set (from_ := or_default date_from (today - 365)).
  set (to_ := or_default date_to today).
  split; [| split; [| split]].
  - apply StronglySorted_map. cbn [Trends.BranchComparison.branch_id].
    unfold Trends.branch_query. apply order_by_sorted.
  - intros b Hb.
    destruct (left_join_keeps
                (fun (b0 : Full.branch) a =>
                   (Admission.branch_id a =? Branch.branch_id b0)
                   && Trends.in_dates from_ to_ a)
                (Full.hospital_branches s) (Full.admissions s) b Hb)
      as (oa & Hoa).
    destruct (with_discharge_keeps (Full.discharges s) _ _ Hoa) as (od & Hod).
    set (x := (b, oa, od)) in *.
    set (rows := Trends.with_discharge (Full.discharges s) _) in *.
    assert (Hg : In (Trends.branch_key x,
                     filter (fun y => Trends.branch_key_eqb
                                        (Trends.branch_key x)
                                        (Trends.branch_key y)) rows)
                   (Sql.group_by Trends.branch_key Trends.branch_key_eqb rows)).
    { apply (in_group_by _ _ branch_key_eqb_eq). split; [| reflexivity].
      now apply in_map. }
    eexists. split.
    + apply in_map. unfold Trends.branch_query. apply in_order_by.
      fold rows. apply in_map_iff. eexists. split; [reflexivity | exact Hg].
    + repeat split.
  - intros p Hp. apply in_map_iff in Hp as (r & <- & Hr).
    apply in_branch_query in Hr as (b & Hb & E1 & E2 & E3 & _).
    exists b. cbn. tauto.
  - intros Hpk. apply unique_NoDup in Hpk.
    rewrite map_map. cbn [Trends.BranchComparison.branch_id].
    unfold Trends.branch_query.
    apply (Permutation_NoDup
             (Permutation_sym
                (Permutation_map Trends.BranchRow.branch_id
                   (order_by_perm _ _)))).
    rewrite map_map. cbn [Trends.BranchRow.branch_id].
    set (rows := Trends.with_discharge (Full.discharges s) _).
    apply (NoDup_map_inj_in fst (fun g => fst (fst (fst g)))).
    + apply (NoDup_group_keys _ _ branch_key_eqb_eq).
    + intros [k1 g1] [k2 g2] H1 H2 Eid. cbn [fst] in *.
      apply (in_group_by _ _ branch_key_eqb_eq) in H1 as [H1 _].
      apply (in_group_by _ _ branch_key_eqb_eq) in H2 as [H2 _].
      apply in_map_iff in H1 as ([[b1 oa1] od1] & <- & Hx1).
      apply in_map_iff in H2 as ([[b2 oa2] od2] & <- & Hx2).
      unfold rows in Hx1, Hx2.
      apply in_with_discharge in Hx1, Hx2. cbn [fst] in Hx1, Hx2.
      apply in_left_join in Hx1 as [Hb1 _].
      apply in_left_join in Hx2 as [Hb2 _].
      unfold Trends.branch_key in *. cbn [fst snd] in *.
      assert (b1 = b2) as ->; [| reflexivity].
      apply (pk_inj (fun b : Full.branch => Branch.branch_id b)
               (Full.hospital_branches s) Hpk); assumption.
Qed.

(** ** Counting over outer joins *)

Lemma count_where_app {A} (f : A -> bool) (l1 l2 : list A) :
  Sql.count_where f (l1 ++ l2) = Sql.count_where f l1 + Sql.count_where f l2.
Proof.
  unfold Sql.count_where, count. rewrite filter_app, length_app. lia.
Qed.

Lemma count_where_map {A B} (g : A -> B) (f : B -> bool) (l : list A) :
  Sql.count_where f (map g l) = Sql.count_where (fun a => f (g a)) l.
Proof.
  unfold Sql.count_where. now rewrite filter_map_comm, count_map.
Qed.

Lemma count_where_ext {A} (f g : A -> bool) (l : list A) :
  (forall a, In a l -> f a = g a) -> Sql.count_where f l = Sql.count_where g l.
Proof.
  intros H. unfold Sql.count_where. f_equal. now apply filter_ext_in.
Qed.

Lemma filter_all {A} (f : A -> bool) (l : list A) :
  (forall x, In x l -> f x = true) -> filter f l = l.
Proof.
  induction l as [| x l IH]; intros H; [reflexivity |].
  cbn [filter]. rewrite (H x) by now left.
  f_equal. apply IH. intros y Hy. apply H. now right.
Qed.

(** A key value selects at most one row of a table in which it is
    unique. *)
Lemma filter_unique {A} (key : A -> Z) (v : Z) (l : list A) :
  NoDup (map key l) ->
  (List.length (filter (fun x => (key x =? v)%Z) l) <= 1)%nat.
Proof.
  induction l as [| x l IH]; intros H; [simpl; lia |].
  inversion H as [| ? ? Hn Hd]; subst. cbn [filter].
  destruct (Z.eqb_spec (key x) v) as [E | N]; [| now apply IH].
  rewrite filter_none; [simpl; lia |].
  intros y Hy. apply Z.eqb_neq. intros Ey. apply Hn.
  rewrite E, <- Ey. now apply in_map.
Qed.

(** When no admission has two discharge rows, the outer join to the
    discharges keeps the rows as they are, each once. *)
Lemma with_discharge_rows {A} (ds : list Discharge.row)
    (l : list (A * option Admission.row)) :
  NoDup (map Discharge.admission_id ds) ->
  map fst (Trends.with_discharge ds l) = l.
Proof.
  intros Hu. unfold Trends.with_discharge, Sql.left_join.
  induction l as [| [y oa] l IH]; [reflexivity |].
  cbn [flat_map]. rewrite map_app, IH. cbn [snd].
  destruct oa as [a |].
  - assert (L := filter_unique Discharge.admission_id
                   (Admission.admission_id a) ds Hu).
    destruct (filter _ ds) as [| d [| d' m]]; try reflexivity.
    simpl in L. lia.
  - rewrite filter_none by reflexivity. reflexivity.
Qed.

Lemma count_admissions_filter {A} (ds : list Discharge.row)
    (l : list (A * option Admission.row)) (keep : A -> bool) :
  NoDup (map Discharge.admission_id ds) ->
  Trends.count_admissions
    (filter (fun x => keep (fst (fst x))) (Trends.with_discharge ds l))
  = Sql.count_where
      (fun y => keep (fst y) && match snd y with
                                | Some _ => true
                                | None => false
                                end) l.
Proof.
  intros Hu. unfold Trends.count_admissions, Trends.episode_of.
  unfold Sql.count_where at 1. rewrite filter_filter.
  rewrite <- (with_discharge_rows ds l Hu) at 2.
  rewrite count_where_map. reflexivity.
Qed.

Section BranchAdmissions.
Variable s : Full.session.
Variables date_from date_to : Z.
Variable b : Full.branch.

Local Abbreviation on_branch :=
  (fun (b0 : Full.branch) (a : Admission.row) =>
     (Admission.branch_id a =? Branch.branch_id b0)
     && Trends.in_dates date_from date_to a).

Local Abbreviation of_b :=
  (fun y : Full.branch * option Admission.row =>
     (Branch.branch_id (fst y) =? Branch.branch_id b)
     && match snd y with
        | Some _ => true
        | None => false
        end).

Lemma count_joined_branch (bs : list Full.branch) :
  NoDup (map (fun b0 : Full.branch => Branch.branch_id b0) bs) ->
  (In b bs ->
   Sql.count_where of_b (Sql.left_join on_branch bs (Full.admissions s))
   = count (filter (on_branch b) (Full.admissions s)))
  /\ (~ In (Branch.branch_id b)
          (map (fun b0 : Full.branch => Branch.branch_id b0) bs) ->
      Sql.count_where of_b (Sql.left_join on_branch bs (Full.admissions s))
      = 0).
Proof.
  induction bs as [| b' bs IH]; intros Hnd.
  - split; [contradiction | reflexivity].
  - inversion Hnd as [| ? ? Hn Hd]; subst.
    destruct (IH Hd) as [IH1 IH2]. clear IH.
    unfold Sql.left_join. cbn [flat_map]. fold (Sql.left_join on_branch bs
                                                 (Full.admissions s)).
    rewrite count_where_app.
    assert (Same : Branch.branch_id b' = Branch.branch_id b ->
              Sql.count_where of_b
                match filter (on_branch b') (Full.admissions s) with
                | [] => [(b', None)]
                | m => map (fun a => (b', Some a)) m
                end
              = count (filter (on_branch b') (Full.admissions s))).
    { intros E. destruct (filter (on_branch b') (Full.admissions s))
        as [| a m].
      { unfold Sql.count_where. cbn [filter fst snd].
        now rewrite andb_false_r. }
      rewrite count_where_map. cbn [fst snd]. rewrite E, Z.eqb_refl.
      unfold Sql.count_where.
      rewrite filter_all; [reflexivity | intros; reflexivity]. }
    assert (Other : Branch.branch_id b' <> Branch.branch_id b ->
              Sql.count_where of_b
                match filter (on_branch b') (Full.admissions s) with
                | [] => [(b', None)]
                | m => map (fun a => (b', Some a)) m
                end
              = 0).
    { intros N. apply count_where_zero. intros y Hy.
      assert (Ey : fst y = b').
      { destruct (filter (on_branch b') (Full.admissions s)) as [| a m].
        - destruct Hy as [<- | []]. reflexivity.
        - apply in_map_iff in Hy as (a' & <- & _). reflexivity. }
      rewrite Ey. apply Z.eqb_neq in N. now rewrite N. }
    split.
    + intros [-> | Hin].
      * rewrite Same by reflexivity. rewrite IH2 by exact Hn. lia.
      * assert (N : Branch.branch_id b' <> Branch.branch_id b).
        { intros E. apply Hn. rewrite E.
          now apply (in_map (fun b0 : Full.branch => Branch.branch_id b0)). }
        rewrite Other by exact N. now rewrite IH1.
    + intros Hnot. cbn [map In] in Hnot.
      rewrite Other by tauto. rewrite IH2 by tauto. reflexivity.
Qed.

End BranchAdmissions.

(** X25: when branch ids are unique and no admission has two discharge
    rows, the admissions of a row of the branch comparison, and with them
    the discharges it reports, are the number of admissions of that branch
    in the date range, discharged or not. *)
Theorem branch_admissions_include_open_episodes
    (s : Full.session) (today : Z) (date_from date_to : option Z)
    (out : list Trends.BranchComparison.t) (p : Trends.BranchComparison.t) :
  Schema.unique (map (fun b : Full.branch => Branch.branch_id b)
                   (Full.hospital_branches s)) = true ->
  Schema.unique (map Discharge.admission_id (Full.discharges s)) = true ->
  Trends.get_branch_comparison s today date_from date_to = Ok out ->
  In p out ->
  Trends.BranchComparison.admissions p
  = count (filter
             (Trends.of_branch (or_default date_from (today - 365))
                (or_default date_to today)
                (Trends.BranchComparison.branch_id p))
             (Full.admissions s))
  /\ Trends.BranchComparison.discharges p
     = Trends.BranchComparison.admissions p.
Proof.
  intros Hpk Hu. apply unique_NoDup in Hpk, Hu.
  unfold Trends.get_branch_comparison, Full.execute.
  destruct (Full.rejects s BranchComparison); [discriminate |].
  destruct (Full.rejects s BranchOccupancy); [discriminate |]. cbn [bind].
  intros E. inversion E as [E']. clear E E'. intros Hp.
  set (from_ := or_default date_from (today - 365)) in *.
  set (to_ := or_default date_to today) in *.
  apply in_map_iff in Hp as (r & <- & Hr).
  cbn [Trends.BranchComparison.admissions Trends.BranchComparison.discharges
       Trends.BranchComparison.branch_id].
  split; [| reflexivity].
  unfold Trends.branch_query in Hr. apply in_order_by in Hr.
  apply in_map_iff in Hr as ([k g] & <- & Hg).
  cbn [Trends.BranchRow.admissions Trends.BranchRow.branch_id fst snd].
  set (joined := Sql.left_join _ (Full.hospital_branches s)
                   (Full.admissions s)) in *.
  apply (in_group_by _ _ branch_key_eqb_eq) in Hg as [Hk ->].
  apply in_map_iff in Hk as ([[b oa] od] & <- & Hx).
  apply in_with_discharge in Hx. cbn [fst] in Hx.
  assert (Hb : In b (Full.hospital_branches s))
    by (unfold joined in Hx; now apply in_left_join in Hx as [Hb _]).
  unfold Trends.branch_key at 2. cbn [fst snd].
  (* Within the joined rows, the key of the group is the branch id. *)
  rewrite (filter_ext_in
             (fun y => Trends.branch_key_eqb (Trends.branch_key (b, oa, od))
                         (Trends.branch_key y))
             (fun y => (fun b0 : Full.branch =>
                          Branch.branch_id b0 =? Branch.branch_id b)
                         (fst (fst y)))).
  - rewrite (count_admissions_filter (Full.discharges s) joined
               (fun b0 : Full.branch =>
                  Branch.branch_id b0 =? Branch.branch_id b) Hu).
    unfold joined.
    destruct (count_joined_branch s from_ to_ b (Full.hospital_branches s) Hpk)
      as [H1 _].
    rewrite (H1 Hb). reflexivity.
  - intros [[b' oa'] od'] Hy. apply in_with_discharge in Hy.
    cbn [fst] in Hy. unfold joined in Hy.
    apply in_left_join in Hy as [Hb' _].
    unfold Trends.branch_key. cbn [fst snd].
    destruct (Z.eqb_spec (Branch.branch_id b') (Branch.branch_id b))
      as [Eid | N].
    + assert (b' = b) as ->.
      { apply (pk_inj (fun b0 : Full.branch => Branch.branch_id b0)
                 (Full.hospital_branches s) Hpk); assumption. }
      now apply branch_key_eqb_eq.
    + unfold Trends.branch_key_eqb. cbn [fst snd].
      rewrite (Z.eqb_sym (Branch.branch_id b)).
      apply Z.eqb_neq in N. now rewrite N.
Qed.

(** ** Department comparison *)

Lemma department_key_eqb_eq (k1 k2 : Z * string * string * string) :
  Trends.department_key_eqb k1 k2 = true <-> k1 = k2.
Proof.
  destruct k1 as [[[i1 c1] n1] b1], k2 as [[[i2 c2] n2] b2].
  unfold Trends.department_key_eqb. cbn [fst snd].
  rewrite !andb_true_iff, Z.eqb_eq, !String.eqb_eq. split.
  - intros [[[-> ->] ->] ->]. reflexivity.
  - intros E. inversion E. tauto.
Qed.

(** X26: the department comparison lists every department that has a
    branch, also one without admissions, in order of falling admissions;
    in every row the emergency count is between 0 and the admissions, the
    procedure volume is not negative and the discharges equal the
    admissions. *)
Theorem department_comparison_rows
    (s : Full.session) (today : Z) (branch_ids : option (list Z))
    (date_from date_to : option Z)
    (out : list Trends.DepartmentComparison.t) :
  Trends.get_department_comparison s today branch_ids date_from date_to
  = Ok out ->
  StronglySorted
    (fun p q => Trends.DepartmentComparison.admissions q
                <= Trends.DepartmentComparison.admissions p) out
  /\ (forall p, In p out ->
        0 <= Trends.DepartmentComparison.emergency_count p
          <= Trends.DepartmentComparison.admissions p
        /\ 0 <= Trends.DepartmentComparison.procedure_volume p
        /\ Trends.DepartmentComparison.discharges p
           = Trends.DepartmentComparison.admissions p)
  /\ (forall (d : Full.department) (b : Full.branch),
        In d (Full.departments s) -> In b (Full.hospital_branches s) ->
        Branch.branch_id b = Department.branch_id d ->
        exists p,
          In p out
          /\ Trends.DepartmentComparison.department_code p = Full.code d
          /\ Trends.DepartmentComparison.department_name p = Department.name d
          /\ Trends.DepartmentComparison.branch_name p = Branch.name b).
Proof.
  unfold Trends.get_department_comparison, Full.execute.
  destruct (Full.rejects s DepartmentComparison); [discriminate |].
  cbn [bind]. intros E. inversion E as [E']. clear E E'.
  set (from_ := or_default date_from (today - 365)).
  set (to_ := or_default date_to today).
  split; [| split].
  - apply StronglySorted_map. cbn [Trends.DepartmentComparison.admissions].
    unfold Trends.department_query. apply order_by_desc_sorted.
  - intros p Hp. apply in_map_iff in Hp as (r & <- & Hr).
    cbn [Trends.DepartmentComparison.emergency_count
         Trends.DepartmentComparison.admissions
         Trends.DepartmentComparison.procedure_volume
         Trends.DepartmentComparison.discharges].
    unfold Trends.department_query in Hr. apply in_order_by in Hr.
    apply in_map_iff in Hr as ([k g] & <- & _).
    cbn [Trends.DepartmentRow.emergency_count Trends.DepartmentRow.admissions
         Trends.DepartmentRow.procedure_volume snd].
    repeat split.
    + apply count_where_nonneg.
    + unfold Trends.count_admissions, Sql.count_where, count.
      apply inj_le. clear. induction g as [| x g IH]; [simpl; lia |].
      cbn [filter]. destruct (Trends.episode_of x) as [a |].
      * destruct (_ =? _)%string; simpl; lia.
      * exact IH.
    + unfold Trends.department_procedures. apply count_nonneg.
  - intros d b Hd Hb Eb.
    assert (Hdb : In (d, b)
                    (Sql.join (fun (d0 : Full.department) (b0 : Full.branch) =>
                                 Branch.branch_id b0
                                 =? Department.branch_id d0)
                       (Full.departments s) (Full.hospital_branches s))).
    { apply in_join. repeat split; try assumption. now apply Z.eqb_eq. }
    destruct (left_join_keeps
                (fun (db : Full.department * Full.branch) a =>
                   (Admission.department_id a
                    =? Department.department_id (fst db))
                   && Trends.in_window branch_ids from_ to_ a)
                _ (Full.admissions s) (d, b) Hdb) as (oa & Hoa).
    destruct (with_discharge_keeps (Full.discharges s) _ _ Hoa) as (od & Hod).
    set (x := (d, b, oa, od)) in *.
    set (rows := Trends.with_discharge (Full.discharges s) _) in *.
    assert (Hg : In (Trends.department_key x,
                     filter (fun y => Trends.department_key_eqb
                                        (Trends.department_key x)
                                        (Trends.department_key y)) rows)
                   (Sql.group_by Trends.department_key
                      Trends.department_key_eqb rows)).
    { apply (in_group_by _ _ department_key_eqb_eq). split; [| reflexivity].
      now apply in_map. }
    eexists. split.
    + apply in_map. unfold Trends.department_query. apply in_order_by.
      fold rows. apply in_map_iff. eexists. split; [reflexivity | exact Hg].
    + repeat split.
Qed.

(** ** Resource alerts *)

Lemma resource_key_eqb_eq (k1 k2 : Z * string * Z * Z * Z) :
  Predictions.resource_key_eqb k1 k2 = true <-> k1 = k2.
Proof.
  destruct k1 as [[[[i1 n1] b1] c1] v1], k2 as [[[[i2 n2] b2] c2] v2].
  unfold Predictions.resource_key_eqb. cbn [fst snd].
  rewrite !andb_true_iff, !Z.eqb_eq, String.eqb_eq. split.
  - intros [[[[-> ->] ->] ->] ->]. reflexivity.
  - intros E. inversion E. tauto.
Qed.

(** A sum that is not zero has a term that is not zero. *)
Lemma Qsum_nonzero (l : list Q) :
  ~ (Qsum l == 0)%Q -> exists x, In x l /\ ~ (x == 0)%Q.
Proof.
  induction l as [| x l IH]; intros H.
  - elim H. reflexivity.
  - destruct (Qeq_dec x 0) as [E | N].
    + destruct IH as (y & Hy & Ny).
      * intros E'. apply H. simpl. rewrite E, E'. reflexivity.
      * exists y. split; [now right | exact Ny].
    + exists x. split; [now left | exact N].
Qed.

(** A percentage that passes the test of an alert comes from a group
    with a snapshot in which the resource exists and is in use. *)
Lemma exceeds_use {A} (used cap : A -> Z) (grp : list A) (threshold : Q) :
  Predictions.exceeds
    (avg (non_null (map (fun x => Sql.pct_of (used x) (cap x)) grp)))
    threshold = true ->
  exists x, In x grp /\ used x <> 0 /\ cap x <> 0.
Proof.
  unfold Predictions.exceeds.
  set (l := non_null _).
  destruct l as [| q l'] eqn:El; [discriminate |]. cbn [avg].
  intros H. apply andb_prop in H as [H _].
  apply negb_true_iff in H.
  destruct (Qsum_nonzero (q :: l')) as (v & Hv & Nv).
  - intros E. rewrite <- not_true_iff_false in H. apply H.
    apply Qeq_bool_iff. unfold Qdiv. rewrite E. apply Qmult_0_l.
  - rewrite <- El in Hv. unfold l in Hv. apply in_non_null in Hv.
    apply in_map_iff in Hv as (x & E & Hx). exists x.
    split; [exact Hx |]. unfold Sql.pct_of in E.
    destruct (Z.eqb_spec (cap x) 0) as [| Nc]; [discriminate |].
    split; [| exact Nc]. intros U. apply Nv.
    inversion E as [E']. rewrite U. unfold Qdiv.
    change (inject_Z 0) with 0%Q. now rewrite !Qmult_0_l.
Qed.

Lemma in_resource_group (s : Full.session) (today : Z)
    (branch_ids : option (list Z)) (k : Z * string * Z * Z * Z)
    (grp : list (Full.snapshot * Full.branch)) (rb : Full.snapshot * Full.branch) :
  In (k, grp)
     (Sql.group_by Predictions.resource_key Predictions.resource_key_eqb
        (Predictions.recent_snapshots s today branch_ids)) ->
  In rb grp ->
  k = Predictions.resource_key rb
  /\ In (fst rb) (Full.resource_allocation s)
  /\ In (snd rb) (Full.hospital_branches s)
  /\ Branch.branch_id (snd rb) = ResourceAllocation.branch_id (fst rb)
  /\ today - 14 <= ResourceAllocation.record_date (fst rb) <= today
  /\ any_clause branch_ids (ResourceAllocation.branch_id (fst rb)) = true.
Proof.
  intros Hg Hrb.
  apply (in_group_by _ _ resource_key_eqb_eq) in Hg as [_ ->].
  apply filter_In in Hrb as [Hrb Ek]. apply resource_key_eqb_eq in Ek.
  unfold Predictions.recent_snapshots in Hrb.
  apply filter_In in Hrb as [Hj Hc]. destruct rb as [ra b].
  apply in_join in Hj as (Hra & Hb & Eb). apply Z.eqb_eq in Eb.
  apply andb_prop in Hc as [Hc Hany]. apply andb_prop in Hc as [Hlo Hhi].
  apply Z.leb_le in Hlo, Hhi. cbn [fst snd] in *. tauto.
Qed.

Lemma row_alerts_branch (today days_ahead : Z) (occ util : Q)
    (r : Predictions.ResourceRow.t) (a : Predictions.ResourceAlert) :
  In a (Predictions.row_alerts today days_ahead occ util r) ->
  Predictions.branch_id a = Predictions.ResourceRow.branch_id r.
Proof.
  unfold Predictions.row_alerts. intros H.
  apply in_app_or in H as [H | H]; [| apply in_app_or in H as [H | H]];
    match type of H with
    | In _ (if ?c then _ else _) => destruct c
    end;
    solve [ destruct H as [<- | []]; reflexivity | destruct H ].
Qed.

Lemma row_alerts_types (today days_ahead : Z) (occ util : Q)
    (r : Predictions.ResourceRow.t) :
  NoDup (map Predictions.alert_type
           (Predictions.row_alerts today days_ahead occ util r)).
Proof.
  unfold Predictions.row_alerts.
  destruct (Predictions.exceeds (Predictions.ResourceRow.bed_occ_pct r) occ),
    (Predictions.exceeds (Predictions.ResourceRow.icu_occ_pct r) util),
    (Predictions.exceeds (Predictions.ResourceRow.vent_occ_pct r) util);
    cbn [app map Predictions.alert_type];
    repeat constructor; cbn [In]; intuition discriminate.
Qed.

(** X27: every resource alert runs from today to [days_ahead] days later
    and names no department; only a bed alert can be critical; and it
    rests on a snapshot of the last 14 days of a branch that passes the
    filter, in which the alerted resource exists and is in use: a branch
    whose snapshots show none in use raises no alert, whatever the
    threshold. *)
Theorem resource_alert_rests_on_recent_use
    (s : Full.session) (today : Z) (branch_ids : option (list Z))
    (days_ahead : Z) (occupancy_threshold_pct utilization_threshold_pct : Q)
    (out : list Predictions.ResourceAlert) (a : Predictions.ResourceAlert) :
  Predictions.get_resource_alerts s today branch_ids days_ahead
    occupancy_threshold_pct utilization_threshold_pct = Ok out ->
  In a out ->
  Predictions.period_start a = today
  /\ Predictions.period_end a = today + days_ahead
  /\ Predictions.department_id a = None
  /\ (Predictions.severity a = "critical"%string ->
      Predictions.alert_type a = "high_bed_occupancy"%string)
  /\ exists (ra : Full.snapshot) (b : Full.branch),
       In ra (Full.resource_allocation s)
       /\ In b (Full.hospital_branches s)
       /\ Branch.branch_id b = Predictions.branch_id a
       /\ ResourceAllocation.branch_id ra = Predictions.branch_id a
       /\ today - 14 <= ResourceAllocation.record_date ra <= today
       /\ any_clause branch_ids (Predictions.branch_id a) = true
       /\ ((Predictions.alert_type a = "high_bed_occupancy"%string
            /\ ResourceAllocation.beds_occupied ra <> 0
            /\ Branch.bed_count b <> 0)
           \/ (Predictions.alert_type a = "icu_shortage_risk"%string
               /\ ResourceAllocation.icu_occupied ra <> 0
               /\ Branch.icu_beds b <> 0)
           \/ (Predictions.alert_type a = "ventilator_shortage_risk"%string
               /\ Full.ventilators_used ra <> 0
               /\ Full.ventilator_count b <> 0)).
Proof.
  unfold Predictions.get_resource_alerts, Full.execute.
  destruct (Full.rejects s ResourceOccupancy); [discriminate |].
  cbn [bind]. intros E. inversion E as [E']. clear E E'. intros Ha.
  apply in_flat_map in Ha as (r & Hr & Ha).
  unfold Predictions.resource_query in Hr.
  apply in_map_iff in Hr as ([k grp] & <- & Hg).
  unfold Predictions.row_alerts in Ha.
  cbn [Predictions.ResourceRow.bed_occ_pct Predictions.ResourceRow.icu_occ_pct
       Predictions.ResourceRow.vent_occ_pct Predictions.ResourceRow.branch_id
       fst snd] in Ha.
  apply in_app_or in Ha as [Ha | Ha]; [| apply in_app_or in Ha as [Ha | Ha]];
    match type of Ha with
    | In _ (if ?c then _ else _) => destruct c eqn:Ex
    end;
    try solve [ destruct Ha ]; destruct Ha as [<- | []];
    cbn [Predictions.period_start Predictions.period_end
         Predictions.department_id Predictions.severity
         Predictions.alert_type Predictions.branch_id];
    (split; [reflexivity |]); (split; [reflexivity |]);
    (split; [reflexivity |]);
    (split; [first [ reflexivity | discriminate ] |]);
    apply exceeds_use in Ex as ([ra b] & Hrb & Hu & Hc);
    destruct (in_resource_group s today branch_ids k grp (ra, b) Hg Hrb)
      as (-> & Hra & Hb & Eb & Hd & Hany);
    cbn [fst snd] in *; unfold Predictions.resource_key; cbn [fst snd];
    exists ra, b; repeat (split; [first [ assumption | reflexivity | lia ] |]);
    [ left | right; left | right; right ]; repeat split; assumption.
Qed.

(** X28: when branch ids are unique, no branch gets two resource alerts
    of the same type. *)
Theorem resource_alerts_once_per_branch_and_type
    (s : Full.session) (today : Z) (branch_ids : option (list Z))
    (days_ahead : Z) (occupancy_threshold_pct utilization_threshold_pct : Q)
    (out : list Predictions.ResourceAlert) :
  Schema.unique (map (fun b : Full.branch => Branch.branch_id b)
                   (Full.hospital_branches s)) = true ->
  Predictions.get_resource_alerts s today branch_ids days_ahead
    occupancy_threshold_pct utilization_threshold_pct = Ok out ->
  NoDup (map (fun a => (Predictions.branch_id a, Predictions.alert_type a))
           out).
Proof.
  intros Hpk. apply unique_NoDup in Hpk.
  unfold Predictions.get_resource_alerts, Full.execute.
  destruct (Full.rejects s ResourceOccupancy); [discriminate |].
  cbn [bind]. intros E. inversion E as [E']. clear E E'.
  assert (Hrows : NoDup (map Predictions.ResourceRow.branch_id
                           (Predictions.resource_query s today branch_ids))).
  { unfold Predictions.resource_query. rewrite map_map.
    cbn [Predictions.ResourceRow.branch_id].
    apply (NoDup_map_inj_in fst (fun g => fst (fst (fst (fst (fst g)))))).
    - apply (NoDup_group_keys _ _ resource_key_eqb_eq).
    - intros [k1 g1] [k2 g2] H1 H2 Eid. cbn [fst] in *.
      apply (in_group_by _ _ resource_key_eqb_eq) in H1 as [H1 _].
      apply (in_group_by _ _ resource_key_eqb_eq) in H2 as [H2 _].
      apply in_map_iff in H1 as ([ra1 b1] & <- & Hx1).
      apply in_map_iff in H2 as ([ra2 b2] & <- & Hx2).
      unfold Predictions.recent_snapshots in Hx1, Hx2.
      apply filter_In in Hx1 as [Hx1 _]. apply filter_In in Hx2 as [Hx2 _].
      apply in_join in Hx1 as (_ & Hb1 & E1).
      apply in_join in Hx2 as (_ & Hb2 & E2).
      apply Z.eqb_eq in E1, E2.
      unfold Predictions.resource_key in *. cbn [fst snd] in *.
      assert (b1 = b2) as ->.
      { apply (pk_inj (fun b : Full.branch => Branch.branch_id b)
                 (Full.hospital_branches s) Hpk); try assumption.
        cbn beta. congruence. }
      now rewrite Eid. }
  induction (Predictions.resource_query s today branch_ids) as [| r rows IH].
  - constructor.
  - cbn [map] in Hrows. inversion Hrows as [| ? ? Hn Hd]; subst.
    cbn [flat_map]. rewrite map_app. apply NoDup_app.
    + apply (NoDup_map_inj_in Predictions.alert_type);
        [apply row_alerts_types |].
      intros x y Hx Hy Et. apply row_alerts_branch in Hx, Hy. congruence.
    + now apply IH.
    + intros [i t] H1 H2.
      apply in_map_iff in H1 as (x & Ex & Hx).
      apply in_map_iff in H2 as (y & Ey & Hy).
      apply row_alerts_branch in Hx. apply in_flat_map in Hy as (r' & Hr' & Hy).
      apply row_alerts_branch in Hy. apply Hn.
      inversion Ex. inversion Ey. subst.
      rewrite <- Hx. replace (Predictions.branch_id x)
        with (Predictions.ResourceRow.branch_id r') by congruence.
      now apply in_map.
Qed.

(** ** The further services on the sample hospital *)

Lemma branch_readmission_rate_in_range_witness :
  exists out p,
    Trends.get_branch_comparison Examples.full_hospital
      (Examples.new_year_2024 + 120) (Some Examples.new_year_2024)
      (Some (Examples.new_year_2024 + 120)) = Ok out
    /\ In p out
    /\ (0 <= Trends.BranchComparison.readmission_rate_pct p <= 100)%Q.
Proof.
  eexists. eexists. split; [vm_compute; reflexivity |].
  split; [left; reflexivity |].
  eapply (branch_readmission_rate_in_range Examples.full_hospital
            (Examples.new_year_2024 + 120) (Some Examples.new_year_2024)
            (Some (Examples.new_year_2024 + 120)));
    [vm_compute; reflexivity | left; reflexivity].
Defined.

Lemma branch_comparison_lists_every_branch_witness :
  exists out,
    Trends.get_branch_comparison Examples.full_hospital
      (Examples.new_year_2024 + 120) None None = Ok out
    /\ map Trends.BranchComparison.city out
       = ["Mumbai"; "Delhi"; "Chennai"]%string
    /\ NoDup (map Trends.BranchComparison.branch_id out).
Proof.
  eexists. split; [vm_compute; reflexivity |].
  split; [vm_compute; reflexivity |].
  refine (proj2 (proj2 (proj2
            (branch_comparison_lists_every_branch Examples.full_hospital
               (Examples.new_year_2024 + 120) None None _ _))) _);
    vm_compute; reflexivity.
Defined.

Lemma branch_admissions_include_open_episodes_witness :
  exists out p,
    Trends.get_branch_comparison Examples.full_hospital
      (Examples.new_year_2024 + 120) (Some Examples.new_year_2024)
      (Some (Examples.new_year_2024 + 120)) = Ok out
    /\ In p out
    /\ Trends.BranchComparison.admissions p
       = count (filter
                  (Trends.of_branch Examples.new_year_2024
                     (Examples.new_year_2024 + 120)
                     (Trends.BranchComparison.branch_id p))
                  (Full.admissions Examples.full_hospital))
    /\ Trends.BranchComparison.discharges p
       = Trends.BranchComparison.admissions p.
Proof.
  eexists. eexists. split; [vm_compute; reflexivity |].
  split; [left; reflexivity |].
  eapply (branch_admissions_include_open_episodes Examples.full_hospital
            (Examples.new_year_2024 + 120) (Some Examples.new_year_2024)
            (Some (Examples.new_year_2024 + 120)));
    [reflexivity | reflexivity | vm_compute; reflexivity | left; reflexivity].
Defined.

Lemma department_comparison_rows_witness :
  exists out,
    Trends.get_department_comparison Examples.full_hospital
      (Examples.new_year_2024 + 120) None (Some Examples.new_year_2024)
      (Some (Examples.new_year_2024 + 120)) = Ok out
    /\ map Trends.DepartmentComparison.department_code out
       = ["CARD"; "EMER"; "ONC"]%string
    /\ StronglySorted
         (fun p q => Trends.DepartmentComparison.admissions q
                     <= Trends.DepartmentComparison.admissions p) out.
Proof.
  eexists. split; [vm_compute; reflexivity |].
  split; [vm_compute; reflexivity |].
  refine (proj1 (department_comparison_rows Examples.full_hospital
                   (Examples.new_year_2024 + 120) None
                   (Some Examples.new_year_2024)
                   (Some (Examples.new_year_2024 + 120)) _ _)).
  vm_compute. reflexivity.
Defined.

Lemma resource_alert_rests_on_recent_use_witness :
  exists out a,
    Predictions.get_resource_alerts Examples.full_hospital
      (Examples.new_year_2024 + 2) None 7 85 90 = Ok out
    /\ In a out
    /\ Predictions.period_start a = Examples.new_year_2024 + 2
    /\ Predictions.period_end a = Examples.new_year_2024 + 2 + 7
    /\ Predictions.department_id a = None.
Proof.
  eexists. eexists. split; [vm_compute; reflexivity |].
  split; [left; reflexivity |].
  destruct (resource_alert_rests_on_recent_use Examples.full_hospital
              (Examples.new_year_2024 + 2) None 7 85 90 _ _
              ltac:(vm_compute; reflexivity) ltac:(left; reflexivity))
    as (H1 & H2 & H3 & _).
  exact (conj H1 (conj H2 H3)).
Defined.

Lemma resource_alerts_once_per_branch_and_type_witness :
  exists out,
    Predictions.get_resource_alerts Examples.full_hospital
      (Examples.new_year_2024 + 2) None 7 85 90 = Ok out
    /\ List.length out = 3%nat
    /\ NoDup (map (fun a => (Predictions.branch_id a,
                             Predictions.alert_type a)) out).
Proof.
  eexists. split; [vm_compute; reflexivity |].
  split; [reflexivity |].
  eapply (resource_alerts_once_per_branch_and_type Examples.full_hospital
            (Examples.new_year_2024 + 2) None 7 85 90);
    [reflexivity | vm_compute; reflexivity].
Defined.
